(** * StockPro: the entity store and the client actions that write to it

    The repository is a React front end over a hosted PostgreSQL schema.
    Two layers are embedded here.

    - The schema of the migration (tables, generated columns, UNIQUE and
      FOREIGN KEY constraints) as an explicit store: a record of tables,
      each a list of rows, and one function per request that the client
      sends ([run]).  A request is one SQL statement: it takes
      effect as a whole or is rejected and leaves the store as it was.
    - The handlers of [StockMovements.tsx] and [Orders.tsx] as functions
      that thread the store through the requests they issue, in the order
      and under the error checks the source has.

    Conventions of the embedding.
    - uuid keys are natural numbers; [gen_random_uuid()] is the counter
      [next_id] of the store.
    - [integer] columns are [Z].  [decimal(10,2)] columns are [Z] counted
      in hundredths; a JSON number written to such a column is rounded to
      two fraction digits ([to_decimal2]).  Numbers typed in the order
      form are rationals ([Q]).
    - Columns that no constraint and no handler reads (timestamps,
      descriptions, contact fields, [created_by], the [categories] table)
      are left out of the rows.
    - A request can also fail for a reason the schema does not show
      (transport, session, a value outside the range of its column).  The
      client library reports every failure as an [error] value in the
      response and does not throw; each request therefore takes a flag
      saying whether the backend served it ([exec]). *)

From Stdlib Require Import List ZArith QArith Qround String Bool Arith Lia.
Import ListNotations.
Local Open Scope Z_scope.

(** ** Identifiers and enumerations *)

Definition id := nat.

Inductive movement_type := IN | OUT | TRANSFER | ADJUSTMENT.

Inductive po_status := DRAFT | PENDING | RECEIVED | CANCELLED.

Definition movement_type_eqb (a b : movement_type) : bool :=
  match a, b with
  | IN, IN | OUT, OUT | TRANSFER, TRANSFER | ADJUSTMENT, ADJUSTMENT => true
  | _, _ => false
  end.

(** [a = Some b] on a nullable key column, as SQL's [=] decides it: NULL
    equals nothing. *)
Definition ref_eqb (a : option id) (b : id) : bool :=
  match a with
  | Some x => Nat.eqb x b
  | None => false
  end.

(** ** Rows (the [Row] types of [lib/supabase.ts], columns as in the
    migration) *)

Record Supplier := mkSupplier {
  sup_id : id;
  sup_name : string
}.

Record Warehouse := mkWarehouse {
  wh_id : id;
  wh_name : string
}.

Record Product := mkProduct {
  pr_id : id;
  pr_sku : string;                    (* UNIQUE NOT NULL *)
  pr_supplier_id : option id          (* REFERENCES suppliers ON DELETE SET NULL *)
}.

Record StockLevel := mkStockLevel {
  sl_id : id;
  sl_product_id : option id;          (* REFERENCES products ON DELETE CASCADE *)
  sl_warehouse_id : option id;        (* REFERENCES warehouses ON DELETE CASCADE *)
  sl_quantity : Z;
  sl_reserved_quantity : Z;
  sl_available_quantity : Z           (* GENERATED ALWAYS AS (quantity - reserved_quantity) STORED *)
}.

Record StockMovement := mkStockMovement {
  mv_id : id;
  mv_product_id : option id;          (* REFERENCES products ON DELETE CASCADE *)
  mv_warehouse_id : option id;        (* REFERENCES warehouses ON DELETE CASCADE *)
  mv_movement_type : movement_type;
  mv_quantity : Z;
  mv_reference_number : string;
  mv_notes : string
}.

Record PurchaseOrder := mkPurchaseOrder {
  po_id : id;
  po_number : string;                 (* UNIQUE NOT NULL *)
  po_supplier_id : option id;         (* REFERENCES suppliers ON DELETE RESTRICT *)
  po_warehouse_id : option id;        (* REFERENCES warehouses ON DELETE RESTRICT *)
  po_status_of : po_status;
  po_total_amount : Z;                (* decimal(10,2), in hundredths *)
  po_notes : string
}.

Record PurchaseOrderItem := mkPurchaseOrderItem {
  poi_id : id;
  poi_purchase_order_id : option id;  (* REFERENCES purchase_orders ON DELETE CASCADE *)
  poi_product_id : option id;         (* REFERENCES products ON DELETE RESTRICT *)
  poi_quantity_ordered : Z;
  poi_quantity_received : Z;
  poi_unit_price : Z;                 (* decimal(10,2), in hundredths *)
  poi_total_price : Z                 (* GENERATED ALWAYS AS (quantity_ordered * unit_price) STORED *)
}.

(** ** The store *)

Record Store := mkStore {
  suppliers : list Supplier;
  warehouses : list Warehouse;
  products : list Product;
  stock_levels : list StockLevel;
  stock_movements : list StockMovement;
  purchase_orders : list PurchaseOrder;
  purchase_order_items : list PurchaseOrderItem;
  next_id : id
}.

Definition empty_store : Store := mkStore [] [] [] [] [] [] [] 0%nat.

(** ** Numbers on the wire *)

(** What a [decimal(10,2)] column keeps of a JSON number: the value
    rounded to two fraction digits, ties away from zero, in hundredths. *)
Definition to_decimal2 (x : Q) : Z :=
  let y := (x * 100)%Q in
  if Qle_bool 0 y then Qfloor (y + (1 # 2))%Q
  else - Qfloor ((- y) + (1 # 2))%Q.

(** A price of [c] hundredths as the client holds it. *)
Definition of_cents (c : Z) : Q := (inject_Z c / 100)%Q.

(** ** Request payloads

    The [Insert] and [Update] types of [lib/supabase.ts], one record per
    table: a field left out is [None].  On insert a missing field takes
    the column default; on update it keeps the stored value.  The typed
    payloads have no field for a generated column; the request body is
    JSON all the same and may name one, so the payloads of the two tables
    with a generated column carry it as a last field. *)

Record stock_levels_Write := mkStockLevelsWrite {
  slw_product_id : option id;
  slw_warehouse_id : option id;
  slw_quantity : option Z;
  slw_reserved_quantity : option Z;
  slw_available_quantity : option Z   (* generated column; absent from the typed payloads *)
}.

Record stock_movements_Insert := mkStockMovementsInsert {
  smi_product_id : option id;
  smi_warehouse_id : option id;
  smi_movement_type : movement_type;
  smi_quantity : Z;
  smi_reference_number : string;
  smi_notes : string
}.

Record purchase_orders_Write := mkPurchaseOrdersWrite {
  pow_po_number : option string;
  pow_supplier_id : option id;
  pow_warehouse_id : option id;
  pow_status : option po_status;
  pow_total_amount : option Q;
  pow_notes : option string
}.

Record purchase_order_items_Write := mkPurchaseOrderItemsWrite {
  poiw_purchase_order_id : option id;
  poiw_product_id : option id;
  poiw_quantity_ordered : option Z;
  poiw_quantity_received : option Z;
  poiw_unit_price : option Q;
  poiw_total_price : option Q         (* generated column; absent from the typed payloads *)
}.

Inductive request :=
| InsertSupplier (name : string)
| InsertWarehouse (name : string)
| InsertProduct (sku : string) (supplier : option id)
| DeleteSupplier (i : id)
| DeleteWarehouse (i : id)
| DeleteProduct (i : id)
| InsertStockLevel (w : stock_levels_Write)
| UpdateStockLevel (i : id) (w : stock_levels_Write)
| DeleteStockLevel (i : id)
| InsertStockMovement (w : stock_movements_Insert)
| InsertPurchaseOrder (w : purchase_orders_Write)
| UpdatePurchaseOrder (i : id) (w : purchase_orders_Write)
| DeletePurchaseOrder (i : id)
| InsertPurchaseOrderItems (ws : list purchase_order_items_Write)
| UpdatePurchaseOrderItem (i : id) (w : purchase_order_items_Write)
| DeletePurchaseOrderItems (order : id).

Inductive error :=
| UniqueViolation        (* a UNIQUE key is already taken *)
| ForeignKeyViolation    (* the referenced row does not exist *)
| NotNullViolation       (* a NOT NULL column without default is missing *)
| RestrictedDelete       (* ON DELETE RESTRICT: a row still references the target *)
| GeneratedAlways        (* a value was supplied for a generated column *)
| Unavailable.           (* the request was not served *)

Inductive result (A : Type) :=
| Ok (a : A)
| Err (e : error).

Arguments Ok {A} a.
Arguments Err {A} e.

(** ** Store updates, one table at a time *)

Definition set_suppliers (l : list Supplier) (s : Store) : Store :=
  mkStore l (warehouses s) (products s) (stock_levels s) (stock_movements s)
          (purchase_orders s) (purchase_order_items s) (next_id s).

Definition set_warehouses (l : list Warehouse) (s : Store) : Store :=
  mkStore (suppliers s) l (products s) (stock_levels s) (stock_movements s)
          (purchase_orders s) (purchase_order_items s) (next_id s).

Definition set_products (l : list Product) (s : Store) : Store :=
  mkStore (suppliers s) (warehouses s) l (stock_levels s) (stock_movements s)
          (purchase_orders s) (purchase_order_items s) (next_id s).

Definition set_stock_levels (l : list StockLevel) (s : Store) : Store :=
  mkStore (suppliers s) (warehouses s) (products s) l (stock_movements s)
          (purchase_orders s) (purchase_order_items s) (next_id s).

Definition set_stock_movements (l : list StockMovement) (s : Store) : Store :=
  mkStore (suppliers s) (warehouses s) (products s) (stock_levels s) l
          (purchase_orders s) (purchase_order_items s) (next_id s).

Definition set_purchase_orders (l : list PurchaseOrder) (s : Store) : Store :=
  mkStore (suppliers s) (warehouses s) (products s) (stock_levels s)
          (stock_movements s) l (purchase_order_items s) (next_id s).

Definition set_purchase_order_items (l : list PurchaseOrderItem) (s : Store) : Store :=
  mkStore (suppliers s) (warehouses s) (products s) (stock_levels s)
          (stock_movements s) (purchase_orders s) l (next_id s).

(** [n] keys drawn from [gen_random_uuid()]. *)
Definition bump (n : nat) (s : Store) : Store :=
  mkStore (suppliers s) (warehouses s) (products s) (stock_levels s)
          (stock_movements s) (purchase_orders s) (purchase_order_items s)
          (next_id s + n)%nat.

(** ** Constraint checks *)

Definition has_supplier (s : Store) (i : id) : bool :=
  existsb (fun r => Nat.eqb (sup_id r) i) (suppliers s).

Definition has_warehouse (s : Store) (i : id) : bool :=
  existsb (fun r => Nat.eqb (wh_id r) i) (warehouses s).

Definition has_product (s : Store) (i : id) : bool :=
  existsb (fun r => Nat.eqb (pr_id r) i) (products s).

Definition has_purchase_order (s : Store) (i : id) : bool :=
  existsb (fun r => Nat.eqb (po_id r) i) (purchase_orders s).

(** A foreign key holds when the column is NULL or its target exists. *)
Definition fk_ok (present : id -> bool) (ref : option id) : bool :=
  match ref with
  | Some i => present i
  | None => true
  end.

(** The row is the stock level of product [p] at warehouse [w]. *)
Definition level_of (p w : id) (r : StockLevel) : bool :=
  ref_eqb (sl_product_id r) p && ref_eqb (sl_warehouse_id r) w.

(** UNIQUE(product_id, warehouse_id): the candidate key collides with the
    row.  A key with a NULL in it collides with nothing. *)
Definition same_pair (p w : option id) (r : StockLevel) : bool :=
  match p, w with
  | Some p', Some w' => level_of p' w' r
  | _, _ => false
  end.

Fixpoint unique_pairs_b (l : list StockLevel) : bool :=
  match l with
  | [] => true
  | r :: rest =>
      negb (existsb (same_pair (sl_product_id r) (sl_warehouse_id r)) rest)
      && unique_pairs_b rest
  end.

Fixpoint unique_strings_b (l : list string) : bool :=
  match l with
  | [] => true
  | x :: rest => negb (existsb (String.eqb x) rest) && unique_strings_b rest
  end.

Definition or_else {A : Type} (o : option A) (d : A) : A :=
  match o with
  | Some a => a
  | None => d
  end.

Definition or_keep {A : Type} (o : option A) (old : option A) : option A :=
  match o with
  | Some a => Some a
  | None => old
  end.

Definition is_some {A : Type} (o : option A) : bool :=
  match o with
  | Some _ => true
  | None => false
  end.

(** ** The statements

    Each function is one request against one table.  A constraint that
    fails rejects the statement; PostgreSQL refuses a value for a
    generated column before it looks at any row, reports a UNIQUE
    collision when the row is written and a missing FOREIGN KEY target
    when the statement ends.  A DELETE or UPDATE whose filter matches no
    row succeeds and changes nothing. *)

Definition insert_supplier (name : string) (s : Store) : result Store :=
  Ok (bump 1 (set_suppliers (suppliers s ++ [mkSupplier (next_id s) name]) s)).

Definition insert_warehouse (name : string) (s : Store) : result Store :=
  Ok (bump 1 (set_warehouses (warehouses s ++ [mkWarehouse (next_id s) name]) s)).

Definition insert_product (sku : string) (supplier : option id) (s : Store)
  : result Store :=
  if existsb (fun r => String.eqb (pr_sku r) sku) (products s)
  then Err UniqueViolation
  else if negb (fk_ok (has_supplier s) supplier) then Err ForeignKeyViolation
  else Ok (bump 1 (set_products
                     (products s ++ [mkProduct (next_id s) sku supplier]) s)).

(** suppliers: RESTRICT from purchase_orders, SET NULL on products. *)
Definition delete_supplier (i : id) (s : Store) : result Store :=
  if negb (has_supplier s i) then Ok s
  else if existsb (fun o => ref_eqb (po_supplier_id o) i) (purchase_orders s)
  then Err RestrictedDelete
  else Ok (set_products
             (map (fun p => if ref_eqb (pr_supplier_id p) i
                            then mkProduct (pr_id p) (pr_sku p) None else p)
                  (products s))
             (set_suppliers
                (filter (fun r => negb (Nat.eqb (sup_id r) i)) (suppliers s)) s)).

(** warehouses: RESTRICT from purchase_orders, CASCADE to stock_levels and
    stock_movements. *)
Definition delete_warehouse (i : id) (s : Store) : result Store :=
  if negb (has_warehouse s i) then Ok s
  else if existsb (fun o => ref_eqb (po_warehouse_id o) i) (purchase_orders s)
  then Err RestrictedDelete
  else Ok (set_stock_movements
             (filter (fun m => negb (ref_eqb (mv_warehouse_id m) i))
                     (stock_movements s))
             (set_stock_levels
                (filter (fun l => negb (ref_eqb (sl_warehouse_id l) i))
                        (stock_levels s))
                (set_warehouses
                   (filter (fun r => negb (Nat.eqb (wh_id r) i)) (warehouses s))
                   s))).

(** products: RESTRICT from purchase_order_items, CASCADE to stock_levels
    and stock_movements. *)
Definition delete_product (i : id) (s : Store) : result Store :=
  if negb (has_product s i) then Ok s
  else if existsb (fun it => ref_eqb (poi_product_id it) i)
                  (purchase_order_items s)
  then Err RestrictedDelete
  else Ok (set_stock_movements
             (filter (fun m => negb (ref_eqb (mv_product_id m) i))
                     (stock_movements s))
             (set_stock_levels
                (filter (fun l => negb (ref_eqb (sl_product_id l) i))
                        (stock_levels s))
                (set_products
                   (filter (fun r => negb (Nat.eqb (pr_id r) i)) (products s))
                   s))).

(** The row an INSERT into stock_levels stores: defaults for the missing
    columns, the generated column computed. *)
Definition stock_level_row (n : id) (w : stock_levels_Write) : StockLevel :=
  let q := or_else (slw_quantity w) 0 in
  let rq := or_else (slw_reserved_quantity w) 0 in
  mkStockLevel n (slw_product_id w) (slw_warehouse_id w) q rq (q - rq).

(** The row an UPDATE of stock_levels leaves: named columns replaced, the
    generated column computed again. *)
Definition apply_stock_level_write (w : stock_levels_Write) (r : StockLevel)
  : StockLevel :=
  let q := or_else (slw_quantity w) (sl_quantity r) in
  let rq := or_else (slw_reserved_quantity w) (sl_reserved_quantity r) in
  mkStockLevel (sl_id r)
               (or_keep (slw_product_id w) (sl_product_id r))
               (or_keep (slw_warehouse_id w) (sl_warehouse_id r))
               q rq (q - rq).

Definition stock_level_fk_ok (w : stock_levels_Write) (s : Store) : bool :=
  fk_ok (has_product s) (slw_product_id w)
  && fk_ok (has_warehouse s) (slw_warehouse_id w).

Definition insert_stock_level (w : stock_levels_Write) (s : Store)
  : result Store :=
  if is_some (slw_available_quantity w) then Err GeneratedAlways
  else if existsb (same_pair (slw_product_id w) (slw_warehouse_id w))
                  (stock_levels s)
  then Err UniqueViolation
  else if negb (stock_level_fk_ok w s) then Err ForeignKeyViolation
  else Ok (bump 1 (set_stock_levels
                     (stock_levels s ++ [stock_level_row (next_id s) w]) s)).

(** [.update(w).eq('id', i)] *)
Definition update_stock_level (i : id) (w : stock_levels_Write) (s : Store)
  : result Store :=
  if is_some (slw_available_quantity w) then Err GeneratedAlways
  else if negb (existsb (fun r => Nat.eqb (sl_id r) i) (stock_levels s))
  then Ok s
  else
    let rows := map (fun r => if Nat.eqb (sl_id r) i
                              then apply_stock_level_write w r else r)
                    (stock_levels s) in
    if (is_some (slw_product_id w) || is_some (slw_warehouse_id w))
       && negb (unique_pairs_b rows)
    then Err UniqueViolation
    else if negb (stock_level_fk_ok w s) then Err ForeignKeyViolation
    else Ok (set_stock_levels rows s).

Definition delete_stock_level (i : id) (s : Store) : result Store :=
  Ok (set_stock_levels
        (filter (fun r => negb (Nat.eqb (sl_id r) i)) (stock_levels s)) s).

Definition insert_stock_movement (w : stock_movements_Insert) (s : Store)
  : result Store :=
  if negb (fk_ok (has_product s) (smi_product_id w)
           && fk_ok (has_warehouse s) (smi_warehouse_id w))
  then Err ForeignKeyViolation
  else Ok (bump 1 (set_stock_movements
                     (stock_movements s
                      ++ [mkStockMovement (next_id s) (smi_product_id w)
                            (smi_warehouse_id w) (smi_movement_type w)
                            (smi_quantity w) (smi_reference_number w)
                            (smi_notes w)]) s)).

Definition purchase_order_fk_ok (w : purchase_orders_Write) (s : Store) : bool :=
  fk_ok (has_supplier s) (pow_supplier_id w)
  && fk_ok (has_warehouse s) (pow_warehouse_id w).

(** [.insert(w).select().single()]: the store and the row it now holds. *)
Definition insert_purchase_order (w : purchase_orders_Write) (s : Store)
  : result (Store * PurchaseOrder) :=
  match pow_po_number w with
  | None => Err NotNullViolation
  | Some n =>
      if existsb (fun o => String.eqb (po_number o) n) (purchase_orders s)
      then Err UniqueViolation
      else if negb (purchase_order_fk_ok w s) then Err ForeignKeyViolation
      else
        let row := mkPurchaseOrder (next_id s) n (pow_supplier_id w)
                     (pow_warehouse_id w) (or_else (pow_status w) DRAFT)
                     (to_decimal2 (or_else (pow_total_amount w) 0%Q))
                     (or_else (pow_notes w) EmptyString) in
        Ok (bump 1 (set_purchase_orders (purchase_orders s ++ [row]) s), row)
  end.

Definition apply_purchase_order_write (w : purchase_orders_Write)
  (o : PurchaseOrder) : PurchaseOrder :=
  mkPurchaseOrder (po_id o)
    (or_else (pow_po_number w) (po_number o))
    (or_keep (pow_supplier_id w) (po_supplier_id o))
    (or_keep (pow_warehouse_id w) (po_warehouse_id o))
    (or_else (pow_status w) (po_status_of o))
    (match pow_total_amount w with
     | Some x => to_decimal2 x
     | None => po_total_amount o
     end)
    (or_else (pow_notes w) (po_notes o)).

(** [.update(w).eq('id', i)] *)
Definition update_purchase_order (i : id) (w : purchase_orders_Write)
  (s : Store) : result Store :=
  if negb (has_purchase_order s i) then Ok s
  else
    let rows := map (fun o => if Nat.eqb (po_id o) i
                              then apply_purchase_order_write w o else o)
                    (purchase_orders s) in
    if is_some (pow_po_number w) && negb (unique_strings_b (map po_number rows))
    then Err UniqueViolation
    else if negb (purchase_order_fk_ok w s) then Err ForeignKeyViolation
    else Ok (set_purchase_orders rows s).

(** purchase_orders: CASCADE to purchase_order_items. *)
Definition delete_purchase_order (i : id) (s : Store) : result Store :=
  if negb (has_purchase_order s i) then Ok s
  else Ok (set_purchase_order_items
             (filter (fun it => negb (ref_eqb (poi_purchase_order_id it) i))
                     (purchase_order_items s))
             (set_purchase_orders
                (filter (fun o => negb (Nat.eqb (po_id o) i))
                        (purchase_orders s)) s)).

Definition item_row (n : id) (w : purchase_order_items_Write)
  : PurchaseOrderItem :=
  let q := or_else (poiw_quantity_ordered w) 0 in
  let up := to_decimal2 (or_else (poiw_unit_price w) 0%Q) in
  mkPurchaseOrderItem n (poiw_purchase_order_id w) (poiw_product_id w)
    q (or_else (poiw_quantity_received w) 0) up (q * up).

(** The rows of a bulk insert, keyed from [n] on. *)
Fixpoint item_rows (n : id) (ws : list purchase_order_items_Write)
  : list PurchaseOrderItem :=
  match ws with
  | [] => []
  | w :: rest => item_row n w :: item_rows (S n) rest
  end.

Definition apply_item_write (w : purchase_order_items_Write)
  (it : PurchaseOrderItem) : PurchaseOrderItem :=
  let q := or_else (poiw_quantity_ordered w) (poi_quantity_ordered it) in
  let up := match poiw_unit_price w with
            | Some x => to_decimal2 x
            | None => poi_unit_price it
            end in
  mkPurchaseOrderItem (poi_id it)
    (or_keep (poiw_purchase_order_id w) (poi_purchase_order_id it))
    (or_keep (poiw_product_id w) (poi_product_id it))
    q (or_else (poiw_quantity_received w) (poi_quantity_received it))
    up (q * up).

Definition item_fk_ok (s : Store) (w : purchase_order_items_Write) : bool :=
  fk_ok (has_purchase_order s) (poiw_purchase_order_id w)
  && fk_ok (has_product s) (poiw_product_id w).

(** [.insert(ws)] with an array: one statement for all the rows. *)
Definition insert_purchase_order_items (ws : list purchase_order_items_Write)
  (s : Store) : result Store :=
  if existsb (fun w => is_some (poiw_total_price w)) ws then Err GeneratedAlways
  else if negb (forallb (item_fk_ok s) ws) then Err ForeignKeyViolation
  else Ok (bump (List.length ws)
             (set_purchase_order_items
                (purchase_order_items s ++ item_rows (next_id s) ws) s)).

(** [.update(w).eq('id', i)] *)
Definition update_purchase_order_item (i : id)
  (w : purchase_order_items_Write) (s : Store) : result Store :=
  if is_some (poiw_total_price w) then Err GeneratedAlways
  else if negb (existsb (fun it => Nat.eqb (poi_id it) i)
                        (purchase_order_items s))
  then Ok s
  else if negb (item_fk_ok s w) then Err ForeignKeyViolation
  else Ok (set_purchase_order_items
             (map (fun it => if Nat.eqb (poi_id it) i
                             then apply_item_write w it else it)
                  (purchase_order_items s)) s).

(** [.delete().eq('purchase_order_id', order)] *)
Definition delete_purchase_order_items (order : id) (s : Store)
  : result Store :=
  Ok (set_purchase_order_items
        (filter (fun it => negb (ref_eqb (poi_purchase_order_id it) order))
                (purchase_order_items s)) s).

Definition run (r : request) (s : Store) : result Store :=
  match r with
  | InsertSupplier name => insert_supplier name s
  | InsertWarehouse name => insert_warehouse name s
  | InsertProduct sku supplier => insert_product sku supplier s
  | DeleteSupplier i => delete_supplier i s
  | DeleteWarehouse i => delete_warehouse i s
  | DeleteProduct i => delete_product i s
  | InsertStockLevel w => insert_stock_level w s
  | UpdateStockLevel i w => update_stock_level i w s
  | DeleteStockLevel i => delete_stock_level i s
  | InsertStockMovement w => insert_stock_movement w s
  | InsertPurchaseOrder w =>
      match insert_purchase_order w s with
      | Ok (s', _) => Ok s'
      | Err e => Err e
      end
  | UpdatePurchaseOrder i w => update_purchase_order i w s
  | DeletePurchaseOrder i => delete_purchase_order i s
  | InsertPurchaseOrderItems ws => insert_purchase_order_items ws s
  | UpdatePurchaseOrderItem i w => update_purchase_order_item i w s
  | DeletePurchaseOrderItems order => delete_purchase_order_items order s
  end.

(** What the client sees of a request, and the store after it.  A request
    that is not served, or that the schema rejects, changes nothing and
    comes back with an error in the response. *)
Definition exec (served : bool) (r : request) (s : Store)
  : Store * option error :=
  if served then
    match run r s with
    | Ok s' => (s', None)
    | Err e => (s, Some e)
    end
  else (s, Some Unavailable).

(** [.select('*').eq('product_id', p).eq('warehouse_id', w).maybeSingle()]:
    the row when exactly one matches, [null] otherwise. *)
Definition select_stock_level (p w : id) (s : Store) : option StockLevel :=
  match filter (level_of p w) (stock_levels s) with
  | [r] => Some r
  | _ => None
  end.

(** The stores the client can bring about: any sequence of requests from
    the empty schema. *)
Inductive reachable : Store -> Prop :=
| reach_empty : reachable empty_store
| reach_exec : forall served r s,
    reachable s -> reachable (fst (exec served r s)).

(** ** [components/StockMovements.tsx] *)

Module StockMovements.

(** The form state at submit.  [fd_quantity] is
    [parseInt(formData.quantity)]; the field is a required numeric
    input, the source parses it at each use and gets the same integer. *)
Record FormData := mkFormData {
  fd_product_id : id;
  fd_warehouse_id : id;
  fd_movement_type : movement_type;
  fd_quantity : Z;
  fd_reference_number : string;
  fd_notes : string
}.

Definition movementData (formData : FormData) : stock_movements_Insert :=
  mkStockMovementsInsert
    (Some (fd_product_id formData)) (Some (fd_warehouse_id formData))
    (fd_movement_type formData) (fd_quantity formData)
    (fd_reference_number formData) (fd_notes formData).

Definition quantityChange (formData : FormData) : Z :=
  if movement_type_eqb (fd_movement_type formData) IN
     || movement_type_eqb (fd_movement_type formData) ADJUSTMENT
  then fd_quantity formData
  else - fd_quantity formData.

(** [handleSubmit].  [served k] tells whether the k-th request of the
    handler is served: 0 the insert of the movement, 1 the lookup of the
    level, 2 the write of the level.  No response is inspected for an
    error: the handler awaits each request and goes on, and since the
    client does not throw, the [catch] block is never entered. *)
Definition handleSubmit (served : nat -> bool) (formData : FormData)
  (s : Store) : Store :=
  let s1 := fst (exec (served 0%nat)
                      (InsertStockMovement (movementData formData)) s) in
  let currentStock :=
    if served 1%nat
    then select_stock_level (fd_product_id formData)
                            (fd_warehouse_id formData) s1
    else None in
  match currentStock with
  | Some cs =>
      fst (exec (served 2%nat)
             (UpdateStockLevel (sl_id cs)
                (mkStockLevelsWrite None None
                   (Some (sl_quantity cs + quantityChange formData))
                   None None))
             s1)
  | None =>
      fst (exec (served 2%nat)
             (InsertStockLevel
                (mkStockLevelsWrite
                   (Some (fd_product_id formData))
                   (Some (fd_warehouse_id formData))
                   (Some (Z.max 0 (quantityChange formData)))
                   None None))
             s1)
  end.

End StockMovements.

(** ** [components/Orders.tsx] *)

Module Orders.

(** A line of the order form.  The quantity is the integer the
    [integer] column takes; the price is whatever number was typed. *)
Record OrderItem := mkOrderItem {
  oi_product_id : id;
  oi_quantity_ordered : Z;
  oi_quantity_received : Z;
  oi_unit_price : Q
}.

Record FormData := mkFormData {
  fd_po_number : string;
  fd_supplier_id : id;
  fd_warehouse_id : id;
  fd_status : po_status;
  fd_notes : string
}.

Inductive ModalMode := create | edit | view.

(** [orderItems.reduce((sum, item) =>
      sum + item.quantity_ordered * item.unit_price, 0)], in exact
    arithmetic.  The source adds doubles; for amounts a [decimal(10,2)]
    column can hold, the double sum and the exact sum round to the same
    two fraction digits. *)
Definition calculateTotal (orderItems : list OrderItem) : Q :=
  fold_left
    (fun sum item =>
       (sum + inject_Z (oi_quantity_ordered item) * oi_unit_price item)%Q)
    orderItems 0%Q.

(** [orderItems.map((item) => ({ purchase_order_id: order, ... }))] *)
Definition items (order : id) (orderItems : list OrderItem)
  : list purchase_order_items_Write :=
  map (fun item =>
         mkPurchaseOrderItemsWrite
           (Some order) (Some (oi_product_id item))
           (Some (oi_quantity_ordered item))
           (Some (oi_quantity_received item))
           (Some (oi_unit_price item)) None)
      orderItems.

(** The insert of the items, guarded by [orderItems.length > 0]; an
    error in its response is thrown.  [true] means nothing was thrown. *)
Definition insert_items (served : bool) (order : id)
  (orderItems : list OrderItem) (s : Store) : Store * bool :=
  match orderItems with
  | [] => (s, true)
  | _ :: _ =>
      match exec served (InsertPurchaseOrderItems (items order orderItems)) s with
      | (s', None) => (s', true)
      | (s', Some _) => (s', false)
      end
  end.

(** [handleSave].  [served k] is the k-th request of the branch taken.
    The boolean is [true] when the handler reaches its end and [false]
    when it throws into the [catch] block and alerts.  The responses of
    the order insert, the order update and the item insert are checked;
    the response of the item delete is not. *)
Definition handleSave (served : nat -> bool) (modalMode : ModalMode)
  (selectedOrder : option id) (formData : FormData)
  (orderItems : list OrderItem) (s : Store) : Store * bool :=
  let total := calculateTotal orderItems in
  match modalMode, selectedOrder with
  | create, _ =>
      let insert :=
        if served 0%nat
        then insert_purchase_order
               (mkPurchaseOrdersWrite
                  (Some (fd_po_number formData))
                  (Some (fd_supplier_id formData))
                  (Some (fd_warehouse_id formData))
                  (Some (fd_status formData)) (Some total)
                  (Some (fd_notes formData))) s
        else Err Unavailable in
      match insert with
      | Err _ => (s, false)
      | Ok (s1, orderData) =>
          insert_items (served 1%nat) (po_id orderData) orderItems s1
      end
  | edit, Some order =>
      match exec (served 0%nat)
              (UpdatePurchaseOrder order
                 (mkPurchaseOrdersWrite None
                    (Some (fd_supplier_id formData))
                    (Some (fd_warehouse_id formData))
                    (Some (fd_status formData)) (Some total)
                    (Some (fd_notes formData)))) s with
      | (s1, Some _) => (s1, false)
      | (s1, None) =>
          let s2 := fst (exec (served 1%nat)
                              (DeletePurchaseOrderItems order) s1) in
          insert_items (served 2%nat) order orderItems s2
      end
  | _, _ => (s, true)
  end.

(** [handleDelete], once the user has confirmed. *)
Definition handleDelete (served : bool) (orderId : id) (s : Store)
  : Store * bool :=
  match exec served (DeletePurchaseOrder orderId) s with
  | (s', None) => (s', true)
  | (s', Some _) => (s', false)
  end.

(** [handleRemoveItem]: [orderItems.filter((_, i) => i !== index)].
    [without_index i index l] is that filter with the position of the
    head of [l] being [i]. *)
Fixpoint without_index (i index : nat) (l : list OrderItem) : list OrderItem :=
  match l with
  | [] => []
  | item :: rest =>
      if negb (Nat.eqb i index)
      then item :: without_index (S i) index rest
      else without_index (S i) index rest
  end.

Definition handleRemoveItem (index : nat) (orderItems : list OrderItem)
  : list OrderItem :=
  without_index 0 index orderItems.

End Orders.

(** Every request is served. *)
Definition all_served : nat -> bool := fun _ => true.

(** ** Vocabulary of the properties *)

(** The signed change of a movement, as the specification words it:
    [+quantity] for IN and ADJUSTMENT, [-quantity] for OUT and TRANSFER. *)
Definition delta (t : movement_type) (quantity : Z) : Z :=
  match t with
  | IN | ADJUSTMENT => quantity
  | OUT | TRANSFER => - quantity
  end.

(** The stock levels kept for product [p] at warehouse [w]. *)
Definition levels_of (p w : id) (s : Store) : list StockLevel :=
  filter (level_of p w) (stock_levels s).

(** The key of a level under UNIQUE(product_id, warehouse_id); a row with
    a NULL in the pair has none. *)
Definition level_key (r : StockLevel) : option (id * id) :=
  match sl_product_id r, sl_warehouse_id r with
  | Some p, Some w => Some (p, w)
  | _, _ => None
  end.

Fixpoint level_keys (l : list StockLevel) : list (id * id) :=
  match l with
  | [] => []
  | r :: rest =>
      match level_key r with
      | Some k => k :: level_keys rest
      | None => level_keys rest
      end
  end.

Definition unique_levels (s : Store) : Prop :=
  NoDup (level_keys (stock_levels s)).

Definition level_derived (r : StockLevel) : Prop :=
  sl_available_quantity r = sl_quantity r - sl_reserved_quantity r.

Definition item_derived (it : PurchaseOrderItem) : Prop :=
  poi_total_price it = poi_quantity_ordered it * poi_unit_price it.

(** The items of an order, and the sum of their line totals. *)
Definition items_of (order : id) (s : Store) : list PurchaseOrderItem :=
  filter (fun it => ref_eqb (poi_purchase_order_id it) order)
         (purchase_order_items s).

Definition items_not_of (order : id) (s : Store) : list PurchaseOrderItem :=
  filter (fun it => negb (ref_eqb (poi_purchase_order_id it) order))
         (purchase_order_items s).

Definition sum_total_price (l : list PurchaseOrderItem) : Z :=
  fold_right (fun it acc => poi_total_price it + acc) 0 l.

(** The sum of the lines of the order form, each at its price as the
    [decimal(10,2)] column keeps it. *)
Definition line_sum (orderItems : list Orders.OrderItem) : Z :=
  fold_right
    (fun item acc =>
       Orders.oi_quantity_ordered item * to_decimal2 (Orders.oi_unit_price item)
       + acc)
    0 orderItems.

(** A number with at most two fraction digits. *)
Definition whole_cents (x : Q) : Prop := exists c : Z, (x == of_cents c)%Q.

(** Primary keys and order references come from the counter: every key in
    use lies below [next_id], the keys of the stock levels are distinct,
    and an item points at a key already handed out. *)
Record well_keyed (s : Store) : Prop := mkWellKeyed {
  wk_levels : Forall (fun r => (sl_id r < next_id s)%nat) (stock_levels s);
  wk_levels_nodup : NoDup (map sl_id (stock_levels s));
  wk_orders : Forall (fun o => (po_id o < next_id s)%nat) (purchase_orders s);
  wk_items : Forall (fun it => (poi_id it < next_id s)%nat)
                    (purchase_order_items s);
  wk_item_refs : Forall (fun it => forall o, poi_purchase_order_id it = Some o
                                             -> (o < next_id s)%nat)
                        (purchase_order_items s)
}.

(** The same payload without the generated column. *)
Definition without_total_price (w : purchase_order_items_Write)
  : purchase_order_items_Write :=
  mkPurchaseOrderItemsWrite
    (poiw_purchase_order_id w) (poiw_product_id w) (poiw_quantity_ordered w)
    (poiw_quantity_received w) (poiw_unit_price w) None.

(** "Any caller-supplied value for total_price is ignored and the product
    is recomputed": a request that names the column has the outcome of
    the same request without it. *)
Definition supplied_total_price_ignored : Prop :=
  forall (s : Store) (w : purchase_order_items_Write) (i : id),
    run (InsertPurchaseOrderItems [w]) s
    = run (InsertPurchaseOrderItems [without_total_price w]) s
    /\ run (UpdatePurchaseOrderItem i w) s
       = run (UpdatePurchaseOrderItem i (without_total_price w)) s.

(** "After every successful save the order's total_amount equals the sum
    of its items' total_price": [saved] is the order the save wrote. *)
Definition saved_order (modalMode : Orders.ModalMode)
  (selectedOrder : option id) (s : Store) : option id :=
  match modalMode, selectedOrder with
  | Orders.create, _ => Some (next_id s)
  | Orders.edit, Some order => Some order
  | _, _ => None
  end.

Definition total_matches_items (order : id) (s : Store) : Prop :=
  forall o, In o (purchase_orders s) -> po_id o = order ->
            po_total_amount o = sum_total_price (items_of order s).

(** ** Sample stores *)

Fixpoint run_all (rs : list request) (s : Store) : Store :=
  match rs with
  | [] => s
  | r :: rest => run_all rest (fst (exec true r s))
  end.

(** One supplier (key 0), two warehouses (1 and 2), two products (3 and
    4). *)
Definition base_store : Store :=
  run_all [InsertSupplier "Acme"; InsertWarehouse "Main";
           InsertWarehouse "Annex"; InsertProduct "SKU-1" (Some 0%nat);
           InsertProduct "SKU-2" None] empty_store.

Definition movement_form (t : movement_type) (quantity : Z)
  : StockMovements.FormData :=
  StockMovements.mkFormData 3%nat 1%nat t quantity "" "".

(** [base_store] after an IN of 10 of product 3 at warehouse 1: movement
    5, level 6 with quantity 10. *)
Definition stocked_store : Store :=
  StockMovements.handleSubmit all_served (movement_form IN 10) base_store.

Definition order_form : Orders.FormData :=
  Orders.mkFormData "PO2026010001" 0%nat 1%nat DRAFT "".

(** [stocked_store] after an order (key 7) of 3 units of product 3 at
    12.50 (item 8). *)
Definition ordered_store : Store :=
  fst (Orders.handleSave all_served Orders.create None order_form
         [Orders.mkOrderItem 3%nat 3 0 (25 # 2)] stocked_store).

(** ** [components/Stock.tsx] *)

Module Stock.

Inductive Status := low | normal | good.

(** A row of the stock query: the stock level with the columns of its
    product and of its warehouse that the query embeds. *)
Record StockItem := mkStockItem {
  si_id : id;
  si_product_id : id;
  si_warehouse_id : id;
  si_quantity : Z;
  si_available_quantity : Z;
  si_reserved_quantity : Z;
  si_sku : string;                    (* products.sku *)
  si_name : string;                   (* products.name *)
  si_reorder_level : Z;               (* products.reorder_level *)
  si_unit_of_measure : string;        (* products.unit_of_measure *)
  si_category : option string;        (* products.categories?.name *)
  si_warehouse_name : string;         (* warehouses.name *)
  si_warehouse_location : string      (* warehouses.location *)
}.

Record WarehouseStock := mkWarehouseStock {
  ws_warehouse_id : id;
  ws_warehouse_name : string;
  ws_warehouse_location : string;
  ws_quantity : Z;
  ws_available_quantity : Z;
  ws_reserved_quantity : Z
}.

Record ProductStock := mkProductStock {
  ps_product_id : id;
  ps_sku : string;
  ps_name : string;
  ps_category : string;
  ps_unit_of_measure : string;
  ps_reorder_level : Z;
  ps_total_quantity : Z;
  ps_total_available : Z;
  ps_total_reserved : Z;
  ps_warehouses : list WarehouseStock;
  ps_status : Status
}.

(** [items.filter((i) => i.product_id === productId)
         .reduce((sum, i) => sum + i.<column>, 0)] *)
Definition total_of (column : StockItem -> Z) (productId : id)
  (items : list StockItem) : Z :=
  fold_left (fun sum i => sum + column i)
            (filter (fun i => Nat.eqb (si_product_id i) productId) items) 0.

Definition status_of (totalQty reorder_level : Z) : Status :=
  if totalQty =? 0 then low
  else if totalQty <=? reorder_level then low
  else if totalQty <=? reorder_level * 2 then normal
  else good.

(** [item.products.categories?.name || 'Sans catégorie']: a missing
    category and an empty name both give the label. *)
Definition category_of (item : StockItem) : string :=
  match si_category item with
  | Some name => if String.eqb name "" then "Sans catégorie" else name
  | None => "Sans catégorie"
  end.

Definition warehouse_entry (item : StockItem) : WarehouseStock :=
  mkWarehouseStock (si_warehouse_id item) (si_warehouse_name item)
    (si_warehouse_location item) (si_quantity item)
    (si_available_quantity item) (si_reserved_quantity item).

(** The entry [productMap.set(productId, ...)] stores for the first item
    of a product. *)
Definition new_entry (items : list StockItem) (item : StockItem)
  : ProductStock :=
  let productId := si_product_id item in
  let totalQty := total_of si_quantity productId items in
  mkProductStock productId (si_sku item) (si_name item) (category_of item)
    (si_unit_of_measure item) (si_reorder_level item)
    totalQty
    (total_of si_available_quantity productId items)
    (total_of si_reserved_quantity productId items)
    []
    (status_of totalQty (si_reorder_level item)).

(** [productMap.get(productId)!.warehouses.push(entry)]: the map holds
    the entry by reference, the push shows in the map. *)
Definition push_warehouse (productId : id) (entry : WarehouseStock)
  (productMap : list ProductStock) : list ProductStock :=
  map (fun p =>
         if Nat.eqb (ps_product_id p) productId
         then mkProductStock (ps_product_id p) (ps_sku p) (ps_name p)
                (ps_category p) (ps_unit_of_measure p) (ps_reorder_level p)
                (ps_total_quantity p) (ps_total_available p)
                (ps_total_reserved p) (ps_warehouses p ++ [entry])
                (ps_status p)
         else p)
      productMap.

(** One turn of [items.forEach].  The map is the list of its values in
    insertion order, which is the order [productMap.values()] yields. *)
Definition visit (items : list StockItem) (productMap : list ProductStock)
  (item : StockItem) : list ProductStock :=
  let productId := si_product_id item in
  let productMap1 :=
    if existsb (fun p => Nat.eqb (ps_product_id p) productId) productMap
    then productMap
    else productMap ++ [new_entry items item] in
  push_warehouse productId (warehouse_entry item) productMap1.

Definition groupByProduct (items : list StockItem) : list ProductStock :=
  fold_left (visit items) items [].

End Stock.

(** ** The dashboard ([loadDashboardData]) *)

Module Dashboard.

(** A row of [products.select('id, name, sku, reorder_level')]. *)
Record ProductRow := mkProductRow {
  dp_id : id;
  dp_name : string;
  dp_sku : string;
  dp_reorder_level : Z
}.

(** [stockLevels.reduce((sum, item) => sum + item.quantity, 0)]; the
    query selects the quantity column alone, a row is its quantity. *)
Definition totalStock (stockLevels : list Z) : Z :=
  fold_left (fun sum quantity => sum + quantity) stockLevels 0.

(** [products.filter(product => { const totalQty = stockLevels
       .filter(sl => sl.quantity).reduce(...); return totalQty <=
       product.reorder_level })] *)
Definition lowStock (products : list ProductRow) (stockLevels : list Z)
  : list ProductRow :=
  filter
    (fun product =>
       let totalQty :=
         fold_left (fun sum quantity => sum + quantity)
                   (filter (fun quantity => negb (quantity =? 0)) stockLevels)
                   0 in
       totalQty <=? dp_reorder_level product)
    products.

(** [movementCounts[m.movement_type] =
       (movementCounts[m.movement_type] || 0) + 1]: the object as the
    list of its entries in insertion order. *)
Definition count_movement (movementCounts : list (movement_type * nat))
  (t : movement_type) : list (movement_type * nat) :=
  if existsb (fun e => movement_type_eqb (fst e) t) movementCounts
  then map (fun e => if movement_type_eqb (fst e) t
                     then (fst e, (snd e + 1)%nat) else e)
           movementCounts
  else movementCounts ++ [(t, 1%nat)].

(** The counts by type of the movements fetched, as
    [Object.entries(movementCounts)] lists them. *)
Definition movementCounts (movements : list movement_type)
  : list (movement_type * nat) :=
  fold_left count_movement movements [].

End Dashboard.

(** ** Vocabulary of the further properties *)

(** The column [ref] of the rows [l] holds NULL or a key that is
    [present]. *)
Definition refs_exist {A : Type} (present : id -> bool) (ref : A -> option id)
  (l : list A) : Prop :=
  Forall (fun x => fk_ok present (ref x) = true) l.

(** Every foreign key of the schema that is not NULL points at a row
    that exists. *)
Record referential_integrity (s : Store) : Prop := mkReferentialIntegrity {
  ri_product_supplier :
    refs_exist (has_supplier s) pr_supplier_id (products s);
  ri_level_product :
    refs_exist (has_product s) sl_product_id (stock_levels s);
  ri_level_warehouse :
    refs_exist (has_warehouse s) sl_warehouse_id (stock_levels s);
  ri_movement_product :
    refs_exist (has_product s) mv_product_id (stock_movements s);
  ri_movement_warehouse :
    refs_exist (has_warehouse s) mv_warehouse_id (stock_movements s);
  ri_order_supplier :
    refs_exist (has_supplier s) po_supplier_id (purchase_orders s);
  ri_order_warehouse :
    refs_exist (has_warehouse s) po_warehouse_id (purchase_orders s);
  ri_item_order :
    refs_exist (has_purchase_order s) poi_purchase_order_id
               (purchase_order_items s);
  ri_item_product :
    refs_exist (has_product s) poi_product_id (purchase_order_items s)
}.

(** The UNIQUE text keys. *)
Definition unique_text_keys (s : Store) : Prop :=
  NoDup (map pr_sku (products s)) /\ NoDup (map po_number (purchase_orders s)).

(** Movement forms submitted one after the other, every request served. *)
Definition submit_all (forms : list StockMovements.FormData) (s : Store)
  : Store :=
  fold_left (fun s formData =>
               StockMovements.handleSubmit all_served formData s)
            forms s.

(** The sum of the signed changes of the forms. *)
Definition sum_delta (forms : list StockMovements.FormData) : Z :=
  fold_right
    (fun formData acc =>
       delta (StockMovements.fd_movement_type formData)
             (StockMovements.fd_quantity formData) + acc)
    0 forms.


Definition sum_Z (l : list Z) : Z := fold_right Z.add 0 l.

(** The keys of [l] in the order of their first occurrence. *)
Fixpoint first_ids (l : list id) : list id :=
  match l with
  | [] => []
  | x :: rest => x :: filter (fun y => negb (Nat.eqb y x)) (first_ids rest)
  end.

(** The stock rows of a product, in the order of the query. *)
Definition rows_of_product (productId : id) (items : list Stock.StockItem)
  : list Stock.StockItem :=
  filter (fun i => Nat.eqb (Stock.si_product_id i) productId) items.

(** The entry of a product on the stock page: the columns of the
    product as its first row has them, the totals over all the rows
    [all] of the query, one warehouse line per row of [lines]. *)
Definition entry_for (all : list Stock.StockItem) (first : Stock.StockItem)
  (lines : list Stock.StockItem) : Stock.ProductStock :=
  let e := Stock.new_entry all first in
  Stock.mkProductStock (Stock.ps_product_id e) (Stock.ps_sku e)
    (Stock.ps_name e) (Stock.ps_category e) (Stock.ps_unit_of_measure e)
    (Stock.ps_reorder_level e) (Stock.ps_total_quantity e)
    (Stock.ps_total_available e) (Stock.ps_total_reserved e)
    (map Stock.warehouse_entry lines) (Stock.ps_status e).

(** The map of [groupByProduct] after the rows [done] of the query
    [all]: one entry per product met, in the order of first occurrence,
    each with the lines of its rows so far. *)
Definition grouped (all done : list Stock.StockItem)
  (productMap : list Stock.ProductStock) : Prop :=
  map Stock.ps_product_id productMap
  = first_ids (map Stock.si_product_id done)
  /\ Forall (fun e =>
               exists first rest,
                 rows_of_product (Stock.ps_product_id e) done = first :: rest
                 /\ e = entry_for all first (first :: rest))
            productMap.

(** A stock row for the sample lists of the stock page. *)
Definition stock_row (n product warehouse : id) (quantity reserved reorder : Z)
  : Stock.StockItem :=
  Stock.mkStockItem n product warehouse quantity (quantity - reserved) reserved
    "SKU" "Item" reorder "pcs" None "Main" "".

Definition sample_stock_items : list Stock.StockItem :=
  [stock_row 10%nat 3%nat 1%nat 10 2 5; stock_row 11%nat 4%nat 1%nat 0 0 5;
   stock_row 12%nat 3%nat 2%nat 7 0 5].

(** * Properties *)

(** ** Lists *)

Section ListFacts.

Context {A : Type}.

Lemma Forall_filter_keep (P : A -> Prop) (f : A -> bool) (l : list A) :
  Forall P l -> Forall P (filter f l).
Proof.
  intros H. apply Forall_forall. intros x Hx.
  apply filter_In in Hx. destruct Hx as [Hx _].
  rewrite Forall_forall in H. auto.
Qed.

Lemma Forall_map_where (P : A -> Prop) (c : A -> bool) (g : A -> A)
      (l : list A) :
  Forall P l -> (forall x, P x -> P (g x)) ->
  Forall P (map (fun x => if c x then g x else x) l).
Proof.
  intros H Hg. induction H as [|x l Hx Hl IH]; simpl; constructor; auto.
  destruct (c x); auto.
Qed.

Lemma Forall_weaken (P Q : A -> Prop) (l : list A) :
  (forall x, P x -> Q x) -> Forall P l -> Forall Q l.
Proof. intros HPQ H. induction H; constructor; auto. Qed.

Lemma filter_none (f : A -> bool) (l : list A) :
  (forall x, In x l -> f x = false) -> filter f l = [].
Proof.
  induction l as [|x l IH]; simpl; intros H; [reflexivity|].
  rewrite (H x (or_introl eq_refl)). apply IH. intros y Hy. apply H. now right.
Qed.

Lemma filter_all (f : A -> bool) (l : list A) :
  (forall x, In x l -> f x = true) -> filter f l = l.
Proof.
  induction l as [|x l IH]; simpl; intros H; [reflexivity|].
  rewrite (H x (or_introl eq_refl)). f_equal. apply IH.
  intros y Hy. apply H. now right.
Qed.

Lemma existsb_false (f : A -> bool) (l : list A) :
  existsb f l = false <-> (forall x, In x l -> f x = false).
Proof.
  split.
  - intros H x Hx. destruct (f x) eqn:E; [|reflexivity].
    assert (existsb f l = true) by (apply existsb_exists; eauto). congruence.
  - intros H. destruct (existsb f l) eqn:E; [|reflexivity].
    apply existsb_exists in E. destruct E as [x [Hx Hfx]].
    rewrite (H x Hx) in Hfx. discriminate.
Qed.

End ListFacts.

(** ** Case analysis on a statement *)

Ltac unfold_run :=
  unfold run, insert_supplier, insert_warehouse, insert_product,
    delete_supplier, delete_warehouse, delete_product, insert_stock_level,
    update_stock_level, delete_stock_level, insert_stock_movement,
    insert_purchase_order, update_purchase_order, delete_purchase_order,
    insert_purchase_order_items, update_purchase_order_item,
    delete_purchase_order_items in *.

(** Splits an accepted statement [H : run r s = Ok s'] into the paths on
    which the statement is accepted, with [s'] replaced by the store
    written on that path. *)
Ltac accepted H :=
  unfold_run;
  repeat match type of H with
         | context [match pow_po_number ?w with _ => _ end] =>
             destruct (pow_po_number w) eqn:?
         | context [if ?c then _ else _] => destruct c eqn:?
         end;
  try discriminate H;
  injection H as H; subst.

Lemma exec_cases served r s :
  fst (exec served r s) = s \/ run r s = Ok (fst (exec served r s)).
Proof.
  unfold exec. destruct served; [|now left].
  destruct (run r s); [right|left]; reflexivity.
Qed.

(** An invariant of the statements is an invariant of the reachable
    stores. *)
Lemma reachable_ind_run (P : Store -> Prop) :
  P empty_store ->
  (forall r s s', P s -> run r s = Ok s' -> P s') ->
  forall s, reachable s -> P s.
Proof.
  intros H0 Hstep s Hs. induction Hs as [|served r s Hs IH]; [exact H0|].
  destruct (exec_cases served r s) as [E|E]; [now rewrite E|].
  eapply Hstep; eauto.
Qed.

(** ** Generated columns *)

Lemma run_level_derived r s s' :
  Forall level_derived (stock_levels s) -> run r s = Ok s' ->
  Forall level_derived (stock_levels s').
Proof.
  intros Hinv H. destruct r; accepted H; simpl; auto using Forall_filter_keep.
  - apply Forall_app. split; [assumption|].
    constructor; [reflexivity|constructor].
  - apply Forall_map_where; [assumption|]. intros x _. reflexivity.
Qed.

Lemma reachable_level_derived s :
  reachable s -> Forall level_derived (stock_levels s).
Proof.
  revert s.
  apply (reachable_ind_run (fun s => Forall level_derived (stock_levels s)));
    [constructor|].
  intros; eapply run_level_derived; eauto.
Qed.

Lemma item_rows_derived ws : forall n, Forall item_derived (item_rows n ws).
Proof.
  induction ws as [|w ws IH]; intros n; simpl; constructor; auto. reflexivity.
Qed.

Lemma run_item_derived r s s' :
  Forall item_derived (purchase_order_items s) -> run r s = Ok s' ->
  Forall item_derived (purchase_order_items s').
Proof.
  intros Hinv H. destruct r; accepted H; simpl; auto using Forall_filter_keep.
  - apply Forall_app. split; [assumption|apply item_rows_derived].
  - apply Forall_map_where; [assumption|]. intros x _. reflexivity.
Qed.

Lemma reachable_item_derived s :
  reachable s -> Forall item_derived (purchase_order_items s).
Proof.
  revert s.
  apply (reachable_ind_run
           (fun s => Forall item_derived (purchase_order_items s)));
    [constructor|].
  intros; eapply run_item_derived; eauto.
Qed.

(** ** UNIQUE(product_id, warehouse_id) *)

Lemma ref_eqb_eq a b : ref_eqb a b = true <-> a = Some b.
Proof.
  destruct a as [x|]; simpl.
  - rewrite Nat.eqb_eq. split; congruence.
  - split; discriminate.
Qed.

Lemma level_of_key p w r : level_of p w r = true <-> level_key r = Some (p, w).
Proof.
  unfold level_of, level_key. rewrite andb_true_iff, !ref_eqb_eq.
  destruct (sl_product_id r), (sl_warehouse_id r); split;
    try intros [? ?]; try intros ?; try split; congruence.
Qed.

Lemma In_level_keys k l :
  In k (level_keys l) <-> exists r, In r l /\ level_key r = Some k.
Proof.
  induction l as [|x l IH]; simpl.
  - split; [contradiction|]. intros [r [[] _]].
  - destruct (level_key x) as [kx|] eqn:E; simpl; rewrite IH; split.
    + intros [<-|[r [Hr Hk]]]; eauto.
    + intros [r [[<-|Hr] Hk]]; [left; congruence|eauto].
    + intros [r [Hr Hk]]; eauto.
    + intros [r [[<-|Hr] Hk]]; [congruence|eauto].
Qed.

Lemma same_pair_free p w l :
  existsb (same_pair (Some p) (Some w)) l = false <-> ~ In (p, w) (level_keys l).
Proof.
  rewrite existsb_false, In_level_keys. simpl. split.
  - intros H [r [Hr Hk]]. apply level_of_key in Hk.
    rewrite (H r Hr) in Hk. discriminate.
  - intros H r Hr. destruct (level_of p w r) eqn:E; [|reflexivity].
    exfalso. apply H. exists r. split; [assumption|]. now apply level_of_key.
Qed.

Lemma level_keys_app l l' : level_keys (l ++ l') = level_keys l ++ level_keys l'.
Proof.
  induction l as [|x l IH]; simpl; [reflexivity|].
  destruct (level_key x); simpl; now rewrite IH.
Qed.

Lemma level_keys_filter_incl f l k :
  In k (level_keys (filter f l)) -> In k (level_keys l).
Proof.
  rewrite !In_level_keys. intros [r [Hr Hk]].
  apply filter_In in Hr. destruct Hr. eauto.
Qed.

Lemma level_keys_filter_NoDup f l :
  NoDup (level_keys l) -> NoDup (level_keys (filter f l)).
Proof.
  induction l as [|x l IH]; simpl; intros H; [constructor|].
  assert (Hrest : NoDup (level_keys l)).
  { destruct (level_key x); [now inversion H|assumption]. }
  destruct (f x); simpl; [|auto].
  destruct (level_key x) as [k|]; [|auto].
  inversion H; subst. constructor; [|auto].
  intros Hin. apply level_keys_filter_incl in Hin. contradiction.
Qed.

Lemma level_keys_map_same g l :
  (forall r, level_key (g r) = level_key r) ->
  level_keys (map g l) = level_keys l.
Proof.
  intros Hg. induction l as [|x l IH]; simpl; [reflexivity|].
  now rewrite Hg, IH.
Qed.

Lemma unique_pairs_b_NoDup l : unique_pairs_b l = true -> NoDup (level_keys l).
Proof.
  induction l as [|x l IH]; simpl; intros H; [constructor|].
  apply andb_true_iff in H. destruct H as [Hx Hl].
  apply negb_true_iff in Hx. unfold level_key.
  destruct (sl_product_id x) as [p|], (sl_warehouse_id x) as [w|]; auto.
  constructor; [|auto]. now apply same_pair_free.
Qed.

Lemma NoDup_keys_one p w l :
  NoDup (level_keys l) -> (List.length (filter (level_of p w) l) <= 1)%nat.
Proof.
  induction l as [|x l IH]; simpl; intros H; [lia|].
  destruct (level_of p w x) eqn:E.
  - apply level_of_key in E. rewrite E in H. inversion H; subst.
    rewrite filter_none; [simpl; lia|].
    intros y Hy. destruct (level_of p w y) eqn:Ey; [|reflexivity].
    exfalso. apply H2. apply In_level_keys. exists y.
    split; [assumption|]. now apply level_of_key.
  - apply IH. destruct (level_key x); [now inversion H|assumption].
Qed.

Lemma run_unique_levels r s s' :
  unique_levels s -> run r s = Ok s' -> unique_levels s'.
Proof.
  unfold unique_levels. intros Hinv H.
  destruct r; accepted H; simpl; auto using level_keys_filter_NoDup.
  - (* INSERT *)
    rewrite level_keys_app. simpl. unfold level_key. simpl.
    destruct (slw_product_id w) as [p|], (slw_warehouse_id w) as [wh|];
      simpl; rewrite ?app_nil_r; auto.
    apply NoDup_app; [assumption|repeat constructor; simpl; tauto|].
    intros k Hk [<-|[]]. revert Hk. now apply same_pair_free.
  - (* UPDATE *)
    match goal with
    | Hc : (_ && negb (unique_pairs_b _)) = false |- _ =>
        apply andb_false_iff in Hc; destruct Hc as [Htouch|Huniq]
    end.
    + apply orb_false_iff in Htouch. destruct Htouch as [Hp Hw].
      destruct w as [wp ww wq wr wa]; simpl in *.
      destruct wp; [discriminate|]. destruct ww; [discriminate|].
      rewrite level_keys_map_same; [assumption|].
      intros r. destruct (Nat.eqb (sl_id r) i); reflexivity.
    + apply negb_false_iff in Huniq. now apply unique_pairs_b_NoDup.
Qed.

Lemma reachable_unique_levels s : reachable s -> unique_levels s.
Proof.
  revert s. apply (reachable_ind_run unique_levels); [constructor|].
  intros; eapply run_unique_levels; eauto.
Qed.

(** ** Keys come from the counter *)

Lemma NoDup_map_filter {A B : Type} (f : A -> B) (g : A -> bool) (l : list A) :
  NoDup (map f l) -> NoDup (map f (filter g l)).
Proof.
  induction l as [|x l IH]; simpl; intros H; [constructor|].
  inversion H; subst. destruct (g x); simpl; auto.
  constructor; auto. intros Hin. apply H2.
  apply in_map_iff in Hin. destruct Hin as [y [Hy Hin]].
  apply filter_In in Hin. destruct Hin. apply in_map_iff. eauto.
Qed.

Lemma map_where_same {A B : Type} (f : A -> B) (c : A -> bool) (g : A -> A)
      (l : list A) :
  (forall x, f (g x) = f x) ->
  map f (map (fun x => if c x then g x else x) l) = map f l.
Proof.
  intros Hg. rewrite map_map. apply map_ext. intros x. destruct (c x); auto.
Qed.

Lemma has_purchase_order_below s o :
  Forall (fun r => (po_id r < next_id s)%nat) (purchase_orders s) ->
  has_purchase_order s o = true -> (o < next_id s)%nat.
Proof.
  intros H Ho. apply existsb_exists in Ho. destruct Ho as [r [Hr E]].
  apply Nat.eqb_eq in E. subst. rewrite Forall_forall in H. auto.
Qed.

Lemma item_rows_ids ws : forall n,
  map poi_id (item_rows n ws) = seq n (List.length ws).
Proof. induction ws as [|w ws IH]; intros n; simpl; [|rewrite IH]; reflexivity. Qed.

Lemma item_rows_below ws : forall n,
  Forall (fun it => (n <= poi_id it < n + List.length ws)%nat) (item_rows n ws).
Proof.
  induction ws as [|w ws IH]; intros n; simpl; constructor.
  - simpl. lia.
  - eapply Forall_weaken; [|apply IH]. simpl. intros. lia.
Qed.

Lemma item_rows_refs ws (P : id -> Prop) : forall n,
  Forall (fun w => forall o, poiw_purchase_order_id w = Some o -> P o) ws ->
  Forall (fun it => forall o, poi_purchase_order_id it = Some o -> P o)
         (item_rows n ws).
Proof.
  induction ws as [|w ws IH]; intros n H; simpl; constructor; inversion H; auto.
Qed.

Ltac keys :=
  simpl;
  match goal with
  | |- Forall _ (filter _ _) => apply Forall_filter_keep; keys
  | |- Forall _ (_ ++ _) => apply Forall_app; split; keys
  | |- Forall _ [_] => constructor; [simpl; try lia|constructor]
  | H : Forall _ ?l |- Forall _ ?l =>
      exact H
      || (eapply Forall_weaken; [|exact H]; simpl; intros;
          match goal with
          | Hx : forall o, _ -> _ |- _ =>
              match goal with
              | Ho : _ = Some _ |- _ => specialize (Hx _ Ho)
              end
          | _ => idtac
          end; lia)
  | |- NoDup (map _ (filter _ _)) => apply NoDup_map_filter; assumption
  | |- NoDup _ => assumption
  | _ => idtac
  end.

Lemma run_well_keyed r s s' : well_keyed s -> run r s = Ok s' -> well_keyed s'.
Proof.
  intros [H1 H2 H3 H4 H5] H.
  destruct r; accepted H; constructor; keys; try assumption.
  - (* a new stock level *)
    rewrite map_app. apply NoDup_app; [assumption|repeat constructor; simpl; tauto|].
    intros k Hk [<-|[]]. apply in_map_iff in Hk. destruct Hk as [r [E Hr]].
    rewrite Forall_forall in H1. specialize (H1 r Hr). simpl in E. lia.
  - apply Forall_map_where; auto.
  - rewrite map_where_same; auto.
  - apply Forall_map_where; auto.
  - eapply Forall_weaken; [|apply item_rows_below]. simpl. intros. lia.
  - apply item_rows_refs.
    match goal with
    | Hfk : negb (forallb _ _) = false |- _ =>
        apply negb_false_iff in Hfk; rewrite forallb_forall in Hfk
    end.
    apply Forall_forall. intros w Hw o Ho.
    match goal with Hfk : forall x, In x ws -> _ |- _ => specialize (Hfk w Hw) end.
    unfold item_fk_ok in *. rewrite Ho in *. simpl in *.
    match goal with Hfk : _ && _ = true |- _ => apply andb_true_iff in Hfk; destruct Hfk end.
    assert (o < next_id s)%nat by (eapply has_purchase_order_below; eauto). lia.
  - apply Forall_map_where; auto.
  - apply Forall_map_where; auto. intros it Hit o Ho.
    match goal with
    | Hfk : negb (item_fk_ok _ _) = false |- _ =>
        apply negb_false_iff in Hfk; unfold item_fk_ok in Hfk;
        apply andb_true_iff in Hfk; destruct Hfk as [Hfk _]
    end.
    simpl in Ho. destruct (poiw_purchase_order_id w) as [o'|]; simpl in *.
    + injection Ho as <-. eapply has_purchase_order_below; eauto.
    + auto.
Qed.

Lemma reachable_well_keyed s : reachable s -> well_keyed s.
Proof.
  revert s. apply (reachable_ind_run well_keyed).
  - constructor; simpl; constructor.
  - intros; eapply run_well_keyed; eauto.
Qed.

(** ** The handlers stay within the reachable stores *)

Lemma reachable_run r s s' : reachable s -> run r s = Ok s' -> reachable s'.
Proof.
  intros Hs H. replace s' with (fst (exec true r s)); [now constructor|].
  unfold exec. now rewrite H.
Qed.

Lemma run_all_reachable rs : forall s, reachable s -> reachable (run_all rs s).
Proof.
  induction rs as [|r rs IH]; intros s Hs; [assumption|].
  change (reachable (run_all rs (fst (exec true r s)))).
  apply IH. now constructor.
Qed.

Lemma handleSubmit_reachable served formData s :
  reachable s -> reachable (StockMovements.handleSubmit served formData s).
Proof.
  intros Hs. unfold StockMovements.handleSubmit.
  destruct (if served 1%nat then _ else _); repeat constructor; assumption.
Qed.

Lemma insert_purchase_order_run w s s1 o :
  insert_purchase_order w s = Ok (s1, o) -> run (InsertPurchaseOrder w) s = Ok s1.
Proof. intros H. simpl. now rewrite H. Qed.

Lemma insert_items_reachable served order orderItems s :
  reachable s -> reachable (fst (Orders.insert_items served order orderItems s)).
Proof.
  intros Hs. unfold Orders.insert_items. destruct orderItems; [assumption|].
  pose proof (reach_exec served
                (InsertPurchaseOrderItems (Orders.items order (o :: orderItems)))
                s Hs) as H.
  destruct (exec served _ s) as [s' [e|]]; exact H.
Qed.

Lemma handleSave_reachable served modalMode selectedOrder formData orderItems s :
  reachable s ->
  reachable (fst (Orders.handleSave served modalMode selectedOrder formData
                    orderItems s)).
Proof.
  intros Hs. unfold Orders.handleSave.
  destruct modalMode; try assumption.
  - destruct (served 0%nat); [|assumption].
    destruct (insert_purchase_order _ s) as [[s1 o]|e] eqn:E; [|assumption].
    apply insert_items_reachable.
    eapply reachable_run; [exact Hs|]. eapply insert_purchase_order_run; eauto.
  - destruct selectedOrder as [order|]; [|assumption].
    match goal with
    | |- context [exec (served 0%nat) ?r s] =>
        pose proof (reach_exec (served 0%nat) r s Hs) as H;
        destruct (exec (served 0%nat) r s) as [s1 [e|]]
    end; [exact H|].
    apply insert_items_reachable. now constructor.
Qed.

Lemma base_store_reachable : reachable base_store.
Proof. apply run_all_reachable. constructor. Qed.

Lemma stocked_store_reachable : reachable stocked_store.
Proof. apply handleSubmit_reachable, base_store_reachable. Qed.

Lemma ordered_store_reachable : reachable ordered_store.
Proof. apply handleSave_reachable, stocked_store_reachable. Qed.

(** ** Movement application *)

Lemma quantityChange_delta formData :
  StockMovements.quantityChange formData
  = delta (StockMovements.fd_movement_type formData)
          (StockMovements.fd_quantity formData).
Proof.
  unfold StockMovements.quantityChange.
  destruct (StockMovements.fd_movement_type formData); reflexivity.
Qed.

(** Recording the movement leaves the levels, products and warehouses as
    they were, whether the insert is accepted or not. *)
Lemma movement_insert_frame served w s :
  let s1 := fst (exec served (InsertStockMovement w) s) in
  stock_levels s1 = stock_levels s /\ products s1 = products s
  /\ warehouses s1 = warehouses s.
Proof.
  simpl. destruct (exec_cases served (InsertStockMovement w) s) as [E|E].
  - now rewrite E.
  - remember (fst (exec served (InsertStockMovement w) s)) as s1.
    clear Heqs1. accepted E. simpl. auto.
Qed.

Lemma select_stock_level_frame p w s s1 :
  stock_levels s1 = stock_levels s ->
  select_stock_level p w s1 = select_stock_level p w s.
Proof. unfold select_stock_level. now intros ->. Qed.

Lemma select_found p w s cs :
  unique_levels s -> In cs (stock_levels s) -> level_of p w cs = true ->
  levels_of p w s = [cs].
Proof.
  intros Hu Hin Hcs. pose proof (NoDup_keys_one p w _ Hu) as Hlen.
  assert (Hf : In cs (filter (level_of p w) (stock_levels s)))
    by (apply filter_In; auto).
  unfold levels_of. destruct (filter (level_of p w) (stock_levels s)) as [|x [|y l]].
  - contradiction.
  - destruct Hf as [->|[]]. reflexivity.
  - simpl in Hlen. lia.
Qed.

Lemma select_one p w s cs :
  select_stock_level p w s = Some cs <-> levels_of p w s = [cs].
Proof.
  unfold select_stock_level, levels_of.
  destruct (filter (level_of p w) (stock_levels s)) as [|x [|y l]];
    split; congruence.
Qed.

(** The quantity-only update the handler sends is accepted, and it
    rewrites the rows keyed [i]. *)
Lemma quantity_update_run i q s :
  existsb (fun r => Nat.eqb (sl_id r) i) (stock_levels s) = true ->
  run (UpdateStockLevel i (mkStockLevelsWrite None None (Some q) None None)) s
  = Ok (set_stock_levels
          (map (fun r => if Nat.eqb (sl_id r) i
                         then apply_stock_level_write
                                (mkStockLevelsWrite None None (Some q) None None) r
                         else r) (stock_levels s)) s).
Proof.
  intros H. simpl. unfold update_stock_level. simpl. now rewrite H.
Qed.

Lemma levels_of_quantity_update p w i q l :
  filter (level_of p w)
         (map (fun r => if Nat.eqb (sl_id r) i
                        then apply_stock_level_write
                               (mkStockLevelsWrite None None (Some q) None None) r
                        else r) l)
  = map (fun r => if Nat.eqb (sl_id r) i
                  then apply_stock_level_write
                         (mkStockLevelsWrite None None (Some q) None None) r
                  else r) (filter (level_of p w) l).
Proof.
  rewrite filter_map_swap. f_equal. apply filter_ext.
  intros r. destruct (Nat.eqb (sl_id r) i); reflexivity.
Qed.

Lemma level_of_fields p w r :
  sl_product_id r = Some p -> sl_warehouse_id r = Some w -> level_of p w r = true.
Proof.
  intros Hp Hw. unfold level_of. rewrite Hp, Hw. simpl. now rewrite !Nat.eqb_refl.
Qed.

Lemma level_of_true p w r :
  level_of p w r = true -> sl_product_id r = Some p /\ sl_warehouse_id r = Some w.
Proof.
  unfold level_of. rewrite andb_true_iff, !ref_eqb_eq. tauto.
Qed.

(** What [handleSubmit] does when the lookup is served and finds [cs]. *)
Lemma handleSubmit_found served formData s cs :
  served 1%nat = true ->
  levels_of (StockMovements.fd_product_id formData)
            (StockMovements.fd_warehouse_id formData) s = [cs] ->
  StockMovements.handleSubmit served formData s
  = fst (exec (served 2%nat)
           (UpdateStockLevel (sl_id cs)
              (mkStockLevelsWrite None None
                 (Some (sl_quantity cs + StockMovements.quantityChange formData))
                 None None))
           (fst (exec (served 0%nat)
                   (InsertStockMovement (StockMovements.movementData formData))
                   s))).
Proof.
  intros H1 Hcs. unfold StockMovements.handleSubmit. rewrite H1.
  destruct (movement_insert_frame (served 0%nat)
              (StockMovements.movementData formData) s) as [Hl _].
  rewrite (select_stock_level_frame _ _ s _ Hl).
  apply select_one in Hcs. now rewrite Hcs.
Qed.

(** What [handleSubmit] does when the lookup finds nothing, or is not
    served. *)
Lemma handleSubmit_missing served formData s :
  levels_of (StockMovements.fd_product_id formData)
            (StockMovements.fd_warehouse_id formData) s = [] ->
  StockMovements.handleSubmit served formData s
  = fst (exec (served 2%nat)
           (InsertStockLevel
              (mkStockLevelsWrite
                 (Some (StockMovements.fd_product_id formData))
                 (Some (StockMovements.fd_warehouse_id formData))
                 (Some (Z.max 0 (StockMovements.quantityChange formData)))
                 None None))
           (fst (exec (served 0%nat)
                   (InsertStockMovement (StockMovements.movementData formData))
                   s))).
Proof.
  intros Hnone. unfold StockMovements.handleSubmit.
  destruct (movement_insert_frame (served 0%nat)
              (StockMovements.movementData formData) s) as [Hl _].
  rewrite (select_stock_level_frame _ _ s _ Hl).
  unfold select_stock_level. unfold levels_of in Hnone. rewrite Hnone.
  destruct (served 1%nat); reflexivity.
Qed.

(** The level found by the lookup after the submission. *)
Lemma handleSubmit_existing_level :
  forall (served : nat -> bool) (formData : StockMovements.FormData)
         (s : Store) (cs : StockLevel),
    reachable s ->
    served 1%nat = true -> served 2%nat = true ->
    In cs (stock_levels s) ->
    sl_product_id cs = Some (StockMovements.fd_product_id formData) ->
    sl_warehouse_id cs = Some (StockMovements.fd_warehouse_id formData) ->
    levels_of (StockMovements.fd_product_id formData)
              (StockMovements.fd_warehouse_id formData)
              (StockMovements.handleSubmit served formData s)
    = [apply_stock_level_write
         (mkStockLevelsWrite None None
            (Some (sl_quantity cs + StockMovements.quantityChange formData))
            None None) cs].
Proof.
  intros served formData s cs Hs H1 H2 Hin Hp Hw.
  assert (Hcs : levels_of (StockMovements.fd_product_id formData)
                          (StockMovements.fd_warehouse_id formData) s = [cs]).
  { apply select_found; auto using reachable_unique_levels, level_of_fields. }
  rewrite (handleSubmit_found served formData s cs H1 Hcs), H2.
  destruct (movement_insert_frame (served 0%nat)
              (StockMovements.movementData formData) s) as [Hl _].
  set (s1 := fst (exec (served 0%nat) _ s)) in *.
  unfold exec. rewrite quantity_update_run.
  - unfold levels_of. simpl. rewrite levels_of_quantity_update, Hl.
    unfold levels_of in Hcs. rewrite Hcs. simpl. now rewrite Nat.eqb_refl.
  - rewrite Hl. apply existsb_exists. exists cs. split; [assumption|].
    apply Nat.eqb_refl.
Qed.

(** C1. When the (product, warehouse) pair of a submitted movement already
    has a stock level, and the lookup and the write of the level are
    served, the movement application leaves that row with quantity
    [old + delta], where [delta] is [+quantity] for IN and ADJUSTMENT and
    [-quantity] for OUT and TRANSFER.  Nothing floors the result at zero;
    the reserved quantity is kept and the available quantity follows. *)
Theorem movement_updates_existing_level :
  forall (served : nat -> bool) (formData : StockMovements.FormData)
         (s : Store) (cs : StockLevel),
    reachable s ->
    served 1%nat = true -> served 2%nat = true ->
    In cs (stock_levels s) ->
    sl_product_id cs = Some (StockMovements.fd_product_id formData) ->
    sl_warehouse_id cs = Some (StockMovements.fd_warehouse_id formData) ->
    exists r,
      levels_of (StockMovements.fd_product_id formData)
                (StockMovements.fd_warehouse_id formData)
                (StockMovements.handleSubmit served formData s) = [r]
      /\ sl_id r = sl_id cs
      /\ sl_quantity r
         = sl_quantity cs + delta (StockMovements.fd_movement_type formData)
                                  (StockMovements.fd_quantity formData)
      /\ sl_reserved_quantity r = sl_reserved_quantity cs
      /\ sl_available_quantity r = sl_quantity r - sl_reserved_quantity r.
Proof.
  intros served formData s cs Hs H1 H2 Hin Hp Hw.
  pose proof (handleSubmit_existing_level served formData s cs
                Hs H1 H2 Hin Hp Hw) as Hrow.
  eexists. split; [exact Hrow|]. simpl.
  rewrite quantityChange_delta.
  destruct (StockMovements.fd_movement_type formData); simpl;
    repeat split; reflexivity.
Qed.

(** An OUT of 5 against the level of 10 in [stocked_store] leaves 5; an
    OUT of 15 leaves -5. *)
Lemma movement_updates_existing_level_witness :
  (exists r,
      levels_of 3%nat 1%nat
        (StockMovements.handleSubmit all_served (movement_form OUT 5)
           stocked_store) = [r]
      /\ sl_id r = 6%nat
      /\ sl_quantity r = 5
      /\ sl_reserved_quantity r = 0
      /\ sl_available_quantity r = sl_quantity r - sl_reserved_quantity r)
  /\ (exists r,
         levels_of 3%nat 1%nat
           (StockMovements.handleSubmit all_served (movement_form OUT 15)
              stocked_store) = [r]
         /\ sl_id r = 6%nat
         /\ sl_quantity r = -5
         /\ sl_reserved_quantity r = 0
         /\ sl_available_quantity r = sl_quantity r - sl_reserved_quantity r).
Proof.
  split.
  - apply (movement_updates_existing_level all_served (movement_form OUT 5)
             stocked_store
             (mkStockLevel 6%nat (Some 3%nat) (Some 1%nat) 10 0 10)
             stocked_store_reachable eq_refl eq_refl).
    + simpl. left. reflexivity.
    + reflexivity.
    + reflexivity.
  - apply (movement_updates_existing_level all_served (movement_form OUT 15)
             stocked_store
             (mkStockLevel 6%nat (Some 3%nat) (Some 1%nat) 10 0 10)
             stocked_store_reachable eq_refl eq_refl).
    + simpl. left. reflexivity.
    + reflexivity.
    + reflexivity.
Defined.

Lemma filter_nil_existsb {A : Type} (f : A -> bool) (l : list A) :
  filter f l = [] -> existsb f l = false.
Proof.
  intros H. apply existsb_false. intros x Hx.
  destruct (f x) eqn:E; [|reflexivity].
  assert (Hin : In x (filter f l)) by (apply filter_In; auto).
  rewrite H in Hin. contradiction.
Qed.

(** C2. When the (product, warehouse) pair of a recorded movement has no
    stock level yet, the movement application creates one with quantity
    [max(0, delta)], nothing reserved: an IN of a non-negative quantity
    opens the level at that quantity, an OUT (or TRANSFER) of a
    non-negative quantity opens it at 0 and not at a negative balance. *)
Theorem movement_creates_missing_level :
  forall (served : nat -> bool) (formData : StockMovements.FormData)
         (s s1 : Store),
    served 0%nat = true -> served 2%nat = true ->
    run (InsertStockMovement (StockMovements.movementData formData)) s = Ok s1 ->
    levels_of (StockMovements.fd_product_id formData)
              (StockMovements.fd_warehouse_id formData) s = [] ->
    let t := StockMovements.fd_movement_type formData in
    let q := StockMovements.fd_quantity formData in
    let s' := StockMovements.handleSubmit served formData s in
    exists r,
      stock_levels s' = stock_levels s ++ [r]
      /\ levels_of (StockMovements.fd_product_id formData)
                   (StockMovements.fd_warehouse_id formData) s' = [r]
      /\ sl_product_id r = Some (StockMovements.fd_product_id formData)
      /\ sl_warehouse_id r = Some (StockMovements.fd_warehouse_id formData)
      /\ sl_quantity r = Z.max 0 (delta t q)
      /\ sl_reserved_quantity r = 0
      /\ sl_available_quantity r = sl_quantity r
      /\ (0 <= q -> t = IN \/ t = ADJUSTMENT -> sl_quantity r = q)
      /\ (0 <= q -> t = OUT \/ t = TRANSFER -> sl_quantity r = 0).
Proof.
  intros served formData s s1 H0 H2 Hrec Hnone t q s'. subst s'.
  rewrite (handleSubmit_missing served formData s Hnone), H0, H2.
  unfold exec at 2. rewrite Hrec. simpl fst.
  assert (Hfree : existsb
                     (same_pair (Some (StockMovements.fd_product_id formData))
                                (Some (StockMovements.fd_warehouse_id formData)))
                     (stock_levels s) = false)
    by exact (filter_nil_existsb _ _ Hnone).
  accepted Hrec.
  match goal with
  | Hfk : negb _ = false |- _ => apply negb_false_iff in Hfk; simpl in Hfk
  end.
  unfold exec, run, insert_stock_level, stock_level_fk_ok, has_product,
    has_warehouse in *. simpl in *.
  rewrite Hfree. simpl.
  match goal with Hfk : _ = true |- _ => rewrite Hfk end. simpl.
  eexists. split; [reflexivity|]. unfold levels_of. simpl.
  rewrite filter_app. unfold levels_of in Hnone. rewrite Hnone. simpl.
  unfold level_of at 1. simpl. rewrite !Nat.eqb_refl. simpl.
  rewrite quantityChange_delta. fold t q.
  repeat split; try reflexivity; try lia.
  - intros Hq [Ht|Ht]; rewrite Ht; simpl; lia.
  - intros Hq [Ht|Ht]; rewrite Ht; simpl; lia.
Qed.

(** An IN of 10 on the empty pair (product 3, warehouse 1) of
    [base_store] opens the level at 10. *)
Lemma movement_creates_missing_level_witness :
  exists r,
    stock_levels (StockMovements.handleSubmit all_served (movement_form IN 10)
                    base_store) = stock_levels base_store ++ [r]
    /\ sl_quantity r = 10.
Proof.
  destruct (movement_creates_missing_level all_served (movement_form IN 10)
              base_store
              (bump 1 (set_stock_movements
                         [mkStockMovement 5%nat (Some 3%nat) (Some 1%nat) IN 10
                            "" ""] base_store))
              eq_refl eq_refl eq_refl eq_refl)
    as [r [Hrows [_ [_ [_ [Hq _]]]]]].
  exists r. split; [exact Hrows|exact Hq].
Defined.

(** ** Invariants of the stock levels *)

(** C5. In every store the client can reach, a (product, warehouse) pair
    has at most one stock level, and neither a further request (create,
    update or delete on any table) nor a movement submission brings about
    a second one. *)
Theorem one_level_per_pair :
  forall s, reachable s ->
    forall p w,
      (List.length (levels_of p w s) <= 1)%nat
      /\ (forall served r,
             (List.length (levels_of p w (fst (exec served r s))) <= 1)%nat)
      /\ (forall served formData,
             (List.length
                (levels_of p w (StockMovements.handleSubmit served formData s))
              <= 1)%nat).
Proof.
  intros s Hs p w. repeat split; intros; apply NoDup_keys_one;
    apply reachable_unique_levels;
    auto using handleSubmit_reachable, reach_exec.
Qed.

Lemma one_level_per_pair_witness :
  (List.length (levels_of 3%nat 1%nat stocked_store) <= 1)%nat
  /\ (List.length
        (levels_of 3%nat 1%nat
           (StockMovements.handleSubmit all_served (movement_form IN 4)
              stocked_store)) <= 1)%nat.
Proof.
  destruct (one_level_per_pair stocked_store stocked_store_reachable
              3%nat 1%nat) as [H [_ H']].
  split; [exact H|apply H'].
Defined.

(** C3. In every store the client can reach, each stock level has
    [available_quantity = quantity - reserved_quantity]; a request that
    names [available_quantity] is refused and leaves the store as it was,
    so no supplied value is ever stored; and the value is not clamped: a
    reachable store holds a negative one. *)
Theorem available_quantity_is_derived :
  (forall s, reachable s ->
     (forall r, In r (stock_levels s) ->
                sl_available_quantity r
                = sl_quantity r - sl_reserved_quantity r)
     /\ (forall w i, is_some (slw_available_quantity w) = true ->
           run (InsertStockLevel w) s = Err GeneratedAlways
           /\ run (UpdateStockLevel i w) s = Err GeneratedAlways
           /\ (forall served,
                  fst (exec served (InsertStockLevel w) s) = s
                  /\ fst (exec served (UpdateStockLevel i w) s) = s)))
  /\ (exists s r, reachable s /\ In r (stock_levels s)
                  /\ sl_quantity r = 10 /\ sl_reserved_quantity r = 15
                  /\ sl_available_quantity r = -5).
Proof.
  split.
  - intros s Hs. split.
    + apply Forall_forall. now apply reachable_level_derived.
    + intros w i Hw.
      assert (Hi : run (InsertStockLevel w) s = Err GeneratedAlways)
        by (simpl; unfold insert_stock_level; now rewrite Hw).
      assert (Hu : run (UpdateStockLevel i w) s = Err GeneratedAlways)
        by (simpl; unfold update_stock_level; now rewrite Hw).
      split; [exact Hi|]. split; [exact Hu|].
      intros served. unfold exec. rewrite Hi, Hu. destruct served; auto.
  - exists (fst (exec true
                   (UpdateStockLevel 6%nat
                      (mkStockLevelsWrite None None None (Some 15) None))
                   stocked_store)).
    eexists. split; [apply reach_exec, stocked_store_reachable|].
    split; [left; reflexivity|]. simpl. auto.
Qed.

Lemma available_quantity_is_derived_witness :
  (forall r, In r (stock_levels stocked_store) ->
             sl_available_quantity r = sl_quantity r - sl_reserved_quantity r)
  /\ run (InsertStockLevel
            (mkStockLevelsWrite (Some 4%nat) (Some 2%nat) (Some 7) None (Some 99)))
         stocked_store = Err GeneratedAlways.
Proof.
  destruct (proj1 available_quantity_is_derived stocked_store
                  stocked_store_reachable) as [Hd Hg].
  split; [exact Hd|].
  exact (proj1 (Hg (mkStockLevelsWrite (Some 4%nat) (Some 2%nat) (Some 7) None
                                       (Some 99)) 0%nat eq_refl)).
Defined.

(** ** Partial outcomes of a submission *)

(** C9, where the code departs from it.  When the insert of the movement
    is not served and the two requests after it are, the handler has not
    looked at the first response and goes on: the ledger is as it was,
    no movement recorded, and the level of the pair has moved by
    [delta]. *)
Theorem level_changed_without_recorded_movement :
  forall (served : nat -> bool) (formData : StockMovements.FormData)
         (s : Store) (cs : StockLevel),
    reachable s ->
    served 0%nat = false -> served 1%nat = true -> served 2%nat = true ->
    In cs (stock_levels s) ->
    sl_product_id cs = Some (StockMovements.fd_product_id formData) ->
    sl_warehouse_id cs = Some (StockMovements.fd_warehouse_id formData) ->
    let s' := StockMovements.handleSubmit served formData s in
    stock_movements s' = stock_movements s
    /\ exists r,
         levels_of (StockMovements.fd_product_id formData)
                   (StockMovements.fd_warehouse_id formData) s' = [r]
         /\ sl_quantity r
            = sl_quantity cs
              + delta (StockMovements.fd_movement_type formData)
                      (StockMovements.fd_quantity formData).
Proof.
  intros served formData s cs Hs H0 H1 H2 Hin Hp Hw s'. split.
  - subst s'.
    assert (Hcs : levels_of (StockMovements.fd_product_id formData)
                            (StockMovements.fd_warehouse_id formData) s = [cs]).
    { apply select_found; auto using reachable_unique_levels, level_of_fields. }
    rewrite (handleSubmit_found served formData s cs H1 Hcs), H0, H2.
    change (fst (exec false
                   (InsertStockMovement (StockMovements.movementData formData))
                   s)) with s.
    unfold exec. rewrite quantity_update_run.
    + reflexivity.
    + apply existsb_exists. exists cs. split; [assumption|apply Nat.eqb_refl].
  - pose proof (handleSubmit_existing_level served formData s cs
                  Hs H1 H2 Hin Hp Hw) as Hrow.
    eexists. split; [exact Hrow|]. simpl. now rewrite quantityChange_delta.
Qed.

(** The failing submission: an IN of 10 against the level of 10 in
    [stocked_store], the insert of the movement not served.  The level
    becomes 20 and the ledger still holds the one movement it had. *)
Lemma level_changed_without_recorded_movement_witness :
  let served := fun k : nat => negb (Nat.eqb k 0) in
  let s' := StockMovements.handleSubmit served (movement_form IN 10)
              stocked_store in
  stock_movements s' = stock_movements stocked_store
  /\ exists r, levels_of 3%nat 1%nat s' = [r] /\ sl_quantity r = 20.
Proof.
  apply (level_changed_without_recorded_movement
           (fun k : nat => negb (Nat.eqb k 0)) (movement_form IN 10)
           stocked_store (mkStockLevel 6%nat (Some 3%nat) (Some 1%nat) 10 0 10)
           stocked_store_reachable eq_refl eq_refl eq_refl).
  - left. reflexivity.
  - reflexivity.
  - reflexivity.
Defined.

(** The other partial outcome: the movement is recorded and the write of
    the level is not served, so the level keeps its quantity. *)
Lemma movement_recorded_level_unchanged :
  let served := fun k : nat => negb (Nat.eqb k 2) in
  let s' := StockMovements.handleSubmit served (movement_form IN 10)
              stocked_store in
  List.length (stock_movements s') = S (List.length (stock_movements stocked_store))
  /\ stock_levels s' = stock_levels stocked_store.
Proof. repeat split. Qed.

(** ** The frame of a movement *)

Lemma NoDup_map_In_inj {A B : Type} (f : A -> B) (l : list A) (x y : A) :
  NoDup (map f l) -> In x l -> In y l -> f x = f y -> x = y.
Proof.
  induction l as [|a l IH]; simpl; intros Hnd Hx Hy E; [contradiction|].
  inversion Hnd; subst.
  destruct Hx as [<-|Hx], Hy as [<-|Hy]; auto.
  - exfalso. apply H1. rewrite E. now apply in_map.
  - exfalso. apply H1. rewrite <- E. now apply in_map.
Qed.

Lemma filter_map_frame {A : Type} (h : A -> bool) (g : A -> A) (l : list A) :
  (forall x, In x l -> g x = x \/ (h (g x) = false /\ h x = false)) ->
  filter h (map g l) = filter h l.
Proof.
  induction l as [|a l IH]; simpl; intros H; [reflexivity|].
  rewrite IH by (intros x Hx; apply H; now right).
  destruct (H a (or_introl eq_refl)) as [->|[-> ->]]; reflexivity.
Qed.

(** C8. A TRANSFER touches the stock level of its own (product,
    warehouse) pair and no other: whatever requests are served, the
    levels of every other pair are after the submission what they were
    before, none created and none modified; and when the level of the
    source pair exists and its lookup and write are served, that row is
    decremented by the quantity.  No request of the handler names a
    destination warehouse. *)
Theorem transfer_touches_only_source :
  forall (served : nat -> bool) (formData : StockMovements.FormData)
         (s : Store),
    reachable s ->
    StockMovements.fd_movement_type formData = TRANSFER ->
    let p := StockMovements.fd_product_id formData in
    let w := StockMovements.fd_warehouse_id formData in
    let s' := StockMovements.handleSubmit served formData s in
    filter (fun r => negb (level_of p w r)) (stock_levels s')
    = filter (fun r => negb (level_of p w r)) (stock_levels s)
    /\ (forall cs,
           served 1%nat = true -> served 2%nat = true ->
           In cs (stock_levels s) -> level_of p w cs = true ->
           exists r,
             levels_of p w s' = [r] /\ sl_id r = sl_id cs
             /\ sl_quantity r
                = sl_quantity cs - StockMovements.fd_quantity formData).
Proof.
  intros served formData s Hs Ht p w s'. split.
  - subst s'. unfold StockMovements.handleSubmit.
    destruct (movement_insert_frame (served 0%nat)
                (StockMovements.movementData formData) s) as [Hl _].
    set (s1 := fst (exec (served 0%nat) _ s)) in *.
    destruct (if served 1%nat then _ else _) as [cs|] eqn:Ecs.
    + assert (Hsel : select_stock_level p w s1 = Some cs)
        by (destruct (served 1%nat); [exact Ecs|discriminate]).
      apply select_one in Hsel. unfold levels_of in Hsel.
      assert (Hin : In cs (filter (level_of p w) (stock_levels s1)))
        by (rewrite Hsel; now left).
      apply filter_In in Hin. destruct Hin as [Hin Hcs]. rewrite Hl in Hin.
      match goal with
      | |- context [exec ?b ?r s1] => destruct (exec_cases b r s1) as [E|E]
      end; [now rewrite E, Hl|].
      rewrite quantity_update_run in E.
      * injection E as <-. simpl. rewrite Hl. apply filter_map_frame.
        intros x Hx. destruct (Nat.eqb (sl_id x) (sl_id cs)) eqn:Eid; [|now left].
        right. apply Nat.eqb_eq in Eid.
        assert (x = cs).
        { eapply NoDup_map_In_inj; eauto.
          apply wk_levels_nodup, reachable_well_keyed, Hs. }
        subst x. split; [|now rewrite Hcs].
        apply negb_false_iff. apply level_of_true in Hcs. destruct Hcs.
        now apply level_of_fields.
      * rewrite Hl. apply existsb_exists. exists cs.
        split; [assumption|apply Nat.eqb_refl].
    + match goal with
      | |- context [exec ?b ?r s1] => destruct (exec_cases b r s1) as [E|E]
      end; [now rewrite E, Hl|].
      remember (fst (exec _ _ s1)) as s2. clear Heqs2.
      accepted E. simpl. rewrite Hl, filter_app. simpl.
      rewrite level_of_fields by reflexivity. simpl.
      apply app_nil_r.
  - intros cs H1 H2 Hin Hcs. apply level_of_true in Hcs. destruct Hcs as [Hp Hw].
    pose proof (handleSubmit_existing_level served formData s cs
                  Hs H1 H2 Hin Hp Hw) as Hrow.
    eexists. split; [exact Hrow|]. simpl. split; [reflexivity|].
    rewrite quantityChange_delta, Ht. simpl. lia.
Qed.

(** A TRANSFER of 4 out of warehouse 1 in [stocked_store]: the level of
    product 3 there goes from 10 to 6, and nothing appears at warehouse 2. *)
Lemma transfer_touches_only_source_witness :
  let s' := StockMovements.handleSubmit all_served (movement_form TRANSFER 4)
              stocked_store in
  filter (fun r => negb (level_of 3%nat 1%nat r)) (stock_levels s')
  = filter (fun r => negb (level_of 3%nat 1%nat r)) (stock_levels stocked_store)
  /\ exists r, levels_of 3%nat 1%nat s' = [r] /\ sl_id r = 6%nat
               /\ sl_quantity r = 6.
Proof.
  destruct (transfer_touches_only_source all_served (movement_form TRANSFER 4)
              stocked_store stocked_store_reachable eq_refl) as [Hframe Hsrc].
  split; [exact Hframe|].
  apply (Hsrc (mkStockLevel 6%nat (Some 3%nat) (Some 1%nat) 10 0 10)
              eq_refl eq_refl).
  - left. reflexivity.
  - reflexivity.
Defined.

(** ** Deletions *)

Lemma In_filter_unreferenced {A : Type} (f : A -> option id) (i : id)
      (l : list A) (x : A) :
  In x (filter (fun y => negb (ref_eqb (f y) i)) l) <-> In x l /\ f x <> Some i.
Proof.
  rewrite filter_In, negb_true_iff. split; intros [Hin H]; split; auto.
  - intros E. apply ref_eqb_eq in E. congruence.
  - destruct (ref_eqb (f x) i) eqn:E; [|reflexivity].
    apply ref_eqb_eq in E. contradiction.
Qed.

Lemma unreferenced {A : Type} (f : A -> option id) (i : id) (l : list A) :
  existsb (fun y => ref_eqb (f y) i) l = false
  <-> (forall x, In x l -> f x <> Some i).
Proof.
  rewrite existsb_false. split; intros H x Hx.
  - intros E. apply ref_eqb_eq in E. rewrite (H x Hx) in E. discriminate.
  - destruct (ref_eqb (f x) i) eqn:E; [|reflexivity].
    apply ref_eqb_eq in E. now apply H in E.
Qed.

Lemma referenced {A : Type} (f : A -> option id) (i : id) (l : list A) (x : A) :
  In x l -> f x = Some i -> existsb (fun y => ref_eqb (f y) i) l = true.
Proof.
  intros Hx E. apply existsb_exists. exists x. split; [assumption|].
  now apply ref_eqb_eq.
Qed.

Lemma existsb_filter_out {A : Type} (key : A -> id) (i : id) (l : list A) :
  existsb (fun r => Nat.eqb (key r) i)
          (filter (fun r => negb (Nat.eqb (key r) i)) l) = false.
Proof.
  apply existsb_false. intros x Hx. apply filter_In in Hx.
  destruct Hx as [_ Hx]. now apply negb_true_iff in Hx.
Qed.

(** A statement that is refused leaves the store as it was, whether or
    not the request was served. *)
Lemma refused_unchanged r s e :
  run r s = Err e -> forall served, fst (exec served r s) = s.
Proof. intros H served. unfold exec. rewrite H. now destruct served. Qed.

Lemma delete_product_cascades s i :
  has_product s i = true ->
  (forall it, In it (purchase_order_items s) -> poi_product_id it <> Some i) ->
  exists s',
    run (DeleteProduct i) s = Ok s'
    /\ has_product s' i = false
    /\ (forall r, In r (stock_levels s')
                  <-> In r (stock_levels s) /\ sl_product_id r <> Some i)
    /\ (forall m, In m (stock_movements s')
                  <-> In m (stock_movements s) /\ mv_product_id m <> Some i).
Proof.
  intros Hp Hfree. apply unreferenced in Hfree.
  simpl. unfold delete_product. rewrite Hp, Hfree. simpl.
  eexists. split; [reflexivity|]. simpl. split; [apply existsb_filter_out|].
  split; intros x; apply In_filter_unreferenced.
Qed.

Lemma delete_warehouse_cascades s i :
  has_warehouse s i = true ->
  (forall o, In o (purchase_orders s) -> po_warehouse_id o <> Some i) ->
  exists s',
    run (DeleteWarehouse i) s = Ok s'
    /\ has_warehouse s' i = false
    /\ (forall r, In r (stock_levels s')
                  <-> In r (stock_levels s) /\ sl_warehouse_id r <> Some i)
    /\ (forall m, In m (stock_movements s')
                  <-> In m (stock_movements s) /\ mv_warehouse_id m <> Some i).
Proof.
  intros Hw Hfree. apply unreferenced in Hfree.
  simpl. unfold delete_warehouse. rewrite Hw, Hfree. simpl.
  eexists. split; [reflexivity|]. simpl. split; [apply existsb_filter_out|].
  split; intros x; apply In_filter_unreferenced.
Qed.

Lemma delete_purchase_order_cascades s i :
  has_purchase_order s i = true ->
  exists s',
    run (DeletePurchaseOrder i) s = Ok s'
    /\ has_purchase_order s' i = false
    /\ (forall it, In it (purchase_order_items s')
                   <-> In it (purchase_order_items s)
                       /\ poi_purchase_order_id it <> Some i).
Proof.
  intros Ho. simpl. unfold delete_purchase_order. rewrite Ho. simpl.
  eexists. split; [reflexivity|]. simpl. split; [apply existsb_filter_out|].
  intros x; apply In_filter_unreferenced.
Qed.

Lemma delete_supplier_restricted s i o :
  has_supplier s i = true -> In o (purchase_orders s) ->
  po_supplier_id o = Some i ->
  run (DeleteSupplier i) s = Err RestrictedDelete.
Proof.
  intros Hs Ho E. simpl. unfold delete_supplier.
  now rewrite Hs, (referenced po_supplier_id i _ o Ho E).
Qed.

Lemma delete_warehouse_restricted s i o :
  has_warehouse s i = true -> In o (purchase_orders s) ->
  po_warehouse_id o = Some i ->
  run (DeleteWarehouse i) s = Err RestrictedDelete.
Proof.
  intros Hs Ho E. simpl. unfold delete_warehouse.
  now rewrite Hs, (referenced po_warehouse_id i _ o Ho E).
Qed.

Lemma delete_product_restricted s i it :
  has_product s i = true -> In it (purchase_order_items s) ->
  poi_product_id it = Some i ->
  run (DeleteProduct i) s = Err RestrictedDelete.
Proof.
  intros Hs Ho E. simpl. unfold delete_product.
  now rewrite Hs, (referenced poi_product_id i _ it Ho E).
Qed.

(** C6. Deleting a product, a warehouse or a purchase order that nothing
    restricts removes the row and cascades: the stock levels and stock
    movements of the product (of the warehouse), the items of the order,
    go with it and every other row stays.  Deleting a supplier or a
    warehouse that a purchase order references, or a product that a
    purchase order item references, is rejected with RestrictedDelete and
    the store, the target and the referencing row with it, is unchanged. *)
Theorem delete_cascades_or_is_restricted :
  forall (s : Store) (i : id),
    (has_product s i = true ->
     (forall it, In it (purchase_order_items s) -> poi_product_id it <> Some i) ->
     exists s',
       run (DeleteProduct i) s = Ok s' /\ has_product s' i = false
       /\ (forall r, In r (stock_levels s')
                     <-> In r (stock_levels s) /\ sl_product_id r <> Some i)
       /\ (forall m, In m (stock_movements s')
                     <-> In m (stock_movements s) /\ mv_product_id m <> Some i))
    /\ (has_warehouse s i = true ->
        (forall o, In o (purchase_orders s) -> po_warehouse_id o <> Some i) ->
        exists s',
          run (DeleteWarehouse i) s = Ok s' /\ has_warehouse s' i = false
          /\ (forall r, In r (stock_levels s')
                        <-> In r (stock_levels s) /\ sl_warehouse_id r <> Some i)
          /\ (forall m, In m (stock_movements s')
                        <-> In m (stock_movements s)
                            /\ mv_warehouse_id m <> Some i))
    /\ (has_purchase_order s i = true ->
        exists s',
          run (DeletePurchaseOrder i) s = Ok s'
          /\ has_purchase_order s' i = false
          /\ (forall it, In it (purchase_order_items s')
                         <-> In it (purchase_order_items s)
                             /\ poi_purchase_order_id it <> Some i))
    /\ (forall o, has_supplier s i = true -> In o (purchase_orders s) ->
                  po_supplier_id o = Some i ->
                  run (DeleteSupplier i) s = Err RestrictedDelete
                  /\ forall served, fst (exec served (DeleteSupplier i) s) = s)
    /\ (forall o, has_warehouse s i = true -> In o (purchase_orders s) ->
                  po_warehouse_id o = Some i ->
                  run (DeleteWarehouse i) s = Err RestrictedDelete
                  /\ forall served, fst (exec served (DeleteWarehouse i) s) = s)
    /\ (forall it, has_product s i = true -> In it (purchase_order_items s) ->
                   poi_product_id it = Some i ->
                   run (DeleteProduct i) s = Err RestrictedDelete
                   /\ forall served, fst (exec served (DeleteProduct i) s) = s).
Proof.
  intros s i.
  split; [apply delete_product_cascades|].
  split; [apply delete_warehouse_cascades|].
  split; [apply delete_purchase_order_cascades|].
  split; [|split]; intros x Hx Hin E.
  - pose proof (delete_supplier_restricted s i x Hx Hin E) as H.
    split; [exact H|]. now apply refused_unchanged with (e := RestrictedDelete).
  - pose proof (delete_warehouse_restricted s i x Hx Hin E) as H.
    split; [exact H|]. now apply refused_unchanged with (e := RestrictedDelete).
  - pose proof (delete_product_restricted s i x Hx Hin E) as H.
    split; [exact H|]. now apply refused_unchanged with (e := RestrictedDelete).
Qed.

Lemma delete_cascades_or_is_restricted_witness :
  (exists s',
      run (DeleteProduct 3%nat) stocked_store = Ok s'
      /\ has_product s' 3%nat = false
      /\ (forall r, In r (stock_levels s')
                    <-> In r (stock_levels stocked_store)
                        /\ sl_product_id r <> Some 3%nat)
      /\ (forall m, In m (stock_movements s')
                    <-> In m (stock_movements stocked_store)
                        /\ mv_product_id m <> Some 3%nat))
  /\ (run (DeleteSupplier 0%nat) ordered_store = Err RestrictedDelete
      /\ forall served,
           fst (exec served (DeleteSupplier 0%nat) ordered_store) = ordered_store)
  /\ (run (DeleteProduct 3%nat) ordered_store = Err RestrictedDelete
      /\ forall served,
           fst (exec served (DeleteProduct 3%nat) ordered_store) = ordered_store).
Proof.
  split; [|split].
  - apply (proj1 (delete_cascades_or_is_restricted stocked_store 3%nat)).
    + reflexivity.
    + intros it [].
  - destruct (delete_cascades_or_is_restricted ordered_store 0%nat)
      as [_ [_ [_ [H _]]]].
    apply (H (mkPurchaseOrder 7%nat "PO2026010001" (Some 0%nat) (Some 1%nat)
                DRAFT 3750 "")).
    + reflexivity.
    + left. reflexivity.
    + reflexivity.
  - destruct (delete_cascades_or_is_restricted ordered_store 3%nat)
      as [_ [_ [_ [_ [_ H]]]]].
    apply (H (mkPurchaseOrderItem 8%nat (Some 7%nat) (Some 3%nat) 3 0 1250 3750)).
    + reflexivity.
    + left. reflexivity.
    + reflexivity.
Defined.

(** ** Two-digit decimals *)

Lemma to_decimal2_comp x y : (x == y)%Q -> to_decimal2 x = to_decimal2 y.
Proof.
  intros E. unfold to_decimal2.
  assert (E100 : (x * 100 == y * 100)%Q) by now rewrite E.
  rewrite (Qleb_comp 0%Q 0%Q (Qeq_refl 0%Q) _ _ E100).
  destruct (Qle_bool 0 (y * 100)).
  - apply Qfloor_comp. now rewrite E100.
  - f_equal. apply Qfloor_comp. now rewrite E100.
Qed.

Lemma Qfloor_half z : Qfloor (inject_Z z + (1 # 2)) = z.
Proof.
  unfold Qfloor, Qplus, inject_Z. simpl.
  replace (z * 2 + 1) with (1 + z * 2) by lia.
  rewrite Z.div_add by lia. reflexivity.
Qed.

Lemma of_cents_100 c : (of_cents c * 100 == inject_Z c)%Q.
Proof. unfold of_cents. field. Qed.

Lemma to_decimal2_of_cents c : to_decimal2 (of_cents c) = c.
Proof.
  unfold to_decimal2.
  pose proof (of_cents_100 c) as E.
  rewrite (Qleb_comp 0%Q 0%Q (Qeq_refl 0%Q) _ _ E).
  destruct (Qle_bool 0 (inject_Z c)).
  - rewrite (Qfloor_comp _ (inject_Z c + (1 # 2))) by now rewrite E.
    apply Qfloor_half.
  - rewrite (Qfloor_comp _ (inject_Z (- c) + (1 # 2))).
    + rewrite Qfloor_half. lia.
    + rewrite E. rewrite inject_Z_opp. reflexivity.
Qed.

Lemma of_cents_plus a b : (of_cents a + of_cents b == of_cents (a + b))%Q.
Proof. unfold of_cents. rewrite inject_Z_plus. field. Qed.

Lemma of_cents_scale q c : (inject_Z q * of_cents c == of_cents (q * c))%Q.
Proof. unfold of_cents. rewrite inject_Z_mult. field. Qed.

Lemma whole_cents_kept x : whole_cents x -> (x == of_cents (to_decimal2 x))%Q.
Proof.
  intros [c E]. rewrite (to_decimal2_comp _ _ E), to_decimal2_of_cents. exact E.
Qed.

Lemma fold_total_whole orderItems :
  Forall (fun item => whole_cents (Orders.oi_unit_price item)) orderItems ->
  forall acc a, (acc == of_cents a)%Q ->
    (fold_left
       (fun sum item =>
          sum + inject_Z (Orders.oi_quantity_ordered item)
                * Orders.oi_unit_price item)
       orderItems acc
     == of_cents (a + line_sum orderItems))%Q.
Proof.
  induction 1 as [|item l Hitem Hl IH]; intros acc a Hacc; simpl.
  - now rewrite Z.add_0_r.
  - rewrite (IH _ (a + Orders.oi_quantity_ordered item
                         * to_decimal2 (Orders.oi_unit_price item))).
    + now rewrite Z.add_assoc.
    + rewrite Hacc, (whole_cents_kept _ Hitem) at 1.
      now rewrite of_cents_scale, of_cents_plus.
Qed.

Lemma calculateTotal_whole orderItems :
  Forall (fun item => whole_cents (Orders.oi_unit_price item)) orderItems ->
  to_decimal2 (Orders.calculateTotal orderItems) = line_sum orderItems.
Proof.
  intros H. unfold Orders.calculateTotal.
  rewrite (to_decimal2_comp _ (of_cents (0 + line_sum orderItems))).
  - apply to_decimal2_of_cents.
  - apply fold_total_whole; [assumption|reflexivity].
Qed.

(** ** Saving an order *)

Lemma item_rows_of_order ws order : forall n,
  Forall (fun w => poiw_purchase_order_id w = Some order) ws ->
  forall it, In it (item_rows n ws) -> poi_purchase_order_id it = Some order.
Proof.
  induction ws as [|w ws IH]; simpl; intros n H it Hit; [contradiction|].
  inversion H; subst. destruct Hit as [<-|Hit]; eauto.
Qed.

Lemma items_payload_order order orderItems :
  Forall (fun w => poiw_purchase_order_id w = Some order)
         (Orders.items order orderItems).
Proof.
  unfold Orders.items. apply Forall_forall. intros w Hw.
  apply in_map_iff in Hw. destruct Hw as [item [<- _]]. reflexivity.
Qed.

Lemma sum_total_price_item_rows order orderItems : forall n,
  sum_total_price (item_rows n (Orders.items order orderItems))
  = line_sum orderItems.
Proof.
  induction orderItems as [|item l IH]; intros n; simpl; [reflexivity|].
  now rewrite IH.
Qed.

(** The item insert of a save that did not throw. *)
Lemma insert_items_success order orderItems s s' :
  Orders.insert_items true order orderItems s = (s', true) ->
  purchase_order_items s'
  = purchase_order_items s ++ item_rows (next_id s) (Orders.items order orderItems)
  /\ purchase_orders s' = purchase_orders s.
Proof.
  unfold Orders.insert_items. destruct orderItems as [|item l].
  - intros H. injection H as <-. simpl. now rewrite app_nil_r.
  - unfold exec. destruct (run _ s) as [s2|e] eqn:E; intros H; [|discriminate].
    injection H as <-. accepted E. simpl. auto.
Qed.

Lemma handleSave_create_success selectedOrder formData orderItems s s' :
  Orders.handleSave all_served Orders.create selectedOrder formData orderItems s
  = (s', true) ->
  purchase_orders s'
  = purchase_orders s
    ++ [mkPurchaseOrder (next_id s) (Orders.fd_po_number formData)
          (Some (Orders.fd_supplier_id formData))
          (Some (Orders.fd_warehouse_id formData))
          (Orders.fd_status formData)
          (to_decimal2 (Orders.calculateTotal orderItems))
          (Orders.fd_notes formData)]
  /\ purchase_order_items s'
     = purchase_order_items s
       ++ item_rows (next_id s + 1)%nat (Orders.items (next_id s) orderItems).
Proof.
  unfold Orders.handleSave, all_served.
  destruct (insert_purchase_order _ s) as [[s1 o]|e] eqn:E; [|discriminate].
  intros H. apply insert_items_success in H. destruct H as [Hitems Horders].
  unfold insert_purchase_order in E. simpl in E.
  repeat match type of E with
         | context [if ?c then _ else _] => destruct c
         end; try discriminate E.
  injection E as <- <-. simpl in *. auto.
Qed.

Lemma handleSave_edit_success order formData orderItems s s' :
  Orders.handleSave all_served Orders.edit (Some order) formData orderItems s
  = (s', true) ->
  purchase_order_items s'
  = items_not_of order s ++ item_rows (next_id s) (Orders.items order orderItems)
  /\ (forall o, In o (purchase_orders s') -> po_id o = order ->
                po_total_amount o = to_decimal2 (Orders.calculateTotal orderItems)).
Proof.
  unfold Orders.handleSave, all_served, exec at 1.
  destruct (run (UpdatePurchaseOrder _ _) s) as [s1|e] eqn:E; [|discriminate].
  intros H. apply insert_items_success in H. destruct H as [Hitems Horders].
  simpl in Hitems, Horders. rewrite Hitems, Horders. clear Hitems Horders s'.
  simpl in E. unfold update_purchase_order in E.
  destruct (has_purchase_order s order) eqn:Hhas; simpl in E.
  - repeat match type of E with
           | context [if ?c then _ else _] => destruct c
           end; try discriminate E.
    injection E as <-. simpl. split; [reflexivity|]. intros o Ho Hid.
    apply in_map_iff in Ho. destruct Ho as [o0 [Ho0 _]].
    destruct (Nat.eqb (po_id o0) order) eqn:Eid.
    + subst o. reflexivity.
    + apply Nat.eqb_neq in Eid. congruence.
  - injection E as <-. split; [reflexivity|]. intros o Ho Hid. exfalso.
    assert (has_purchase_order s order = true); [|congruence].
    apply existsb_exists. exists o. split; [assumption|].
    now apply Nat.eqb_eq.
Qed.

Lemma items_of_fresh_rows order orderItems n l :
  (forall it, In it l -> ref_eqb (poi_purchase_order_id it) order = false) ->
  filter (fun it => ref_eqb (poi_purchase_order_id it) order)
         (l ++ item_rows n (Orders.items order orderItems))
  = item_rows n (Orders.items order orderItems).
Proof.
  intros Hl. rewrite filter_app, (filter_none _ l Hl). simpl.
  apply filter_all. intros it Hit. apply ref_eqb_eq.
  eapply item_rows_of_order; eauto using items_payload_order.
Qed.

Lemma items_not_of_unreferenced order s it :
  In it (items_not_of order s) ->
  ref_eqb (poi_purchase_order_id it) order = false.
Proof.
  unfold items_not_of. intros H. apply filter_In in H.
  destruct H as [_ H]. now apply negb_true_iff.
Qed.

(** C7, as stated, fails: an order of 2 units at 0.125 is saved with
    total_amount 0.25, while its one item is stored at unit price 0.13
    and total_price 0.26. *)
Lemma total_amount_differs_below_a_cent :
  let saved := Orders.handleSave all_served Orders.create None order_form
                 [Orders.mkOrderItem 3%nat 2 0 (1 # 8)] stocked_store in
  snd saved = true
  /\ saved_order Orders.create None stocked_store = Some 7%nat
  /\ ~ total_matches_items 7%nat (fst saved).
Proof.
  split; [reflexivity|]. split; [reflexivity|].
  intros H.
  specialize (H (mkPurchaseOrder 7%nat "PO2026010001" (Some 0%nat) (Some 1%nat)
                   DRAFT 25 "")
                (or_introl eq_refl) eq_refl).
  vm_compute in H. discriminate H.
Qed.

(** C7, amended.  After a save (create or edit) of which every request
    was served and none refused, and whose unit prices all have at most
    two fraction digits, the total_amount of the saved order equals the
    sum of the total_price of its items. *)
Theorem total_amount_matches_whole_cent_items :
  forall (modalMode : Orders.ModalMode) (selectedOrder : option id)
         (formData : Orders.FormData) (orderItems : list Orders.OrderItem)
         (s s' : Store) (order : id),
    reachable s ->
    Forall (fun item => whole_cents (Orders.oi_unit_price item)) orderItems ->
    saved_order modalMode selectedOrder s = Some order ->
    Orders.handleSave all_served modalMode selectedOrder formData orderItems s
    = (s', true) ->
    total_matches_items order s'.
Proof.
  intros modalMode selectedOrder formData orderItems s s' order
         Hs Hcents Hsaved Hsave.
  pose proof (reachable_well_keyed s Hs) as Hwk.
  destruct modalMode; simpl in Hsaved.
  - (* create *)
    injection Hsaved as <-.
    apply handleSave_create_success in Hsave. destruct Hsave as [Ho Hi].
    intros o Hin Hid. unfold items_of. rewrite Hi, items_of_fresh_rows.
    + rewrite sum_total_price_item_rows, <- calculateTotal_whole by assumption.
      rewrite Ho in Hin. apply in_app_or in Hin. destruct Hin as [Hold|[<-|[]]].
      * exfalso. pose proof (wk_orders s Hwk) as Hb.
        rewrite Forall_forall in Hb. specialize (Hb o Hold). lia.
      * reflexivity.
    + intros it Hit. destruct (ref_eqb _ _) eqn:E; [|reflexivity].
      exfalso. apply ref_eqb_eq in E. pose proof (wk_item_refs s Hwk) as Hb.
      rewrite Forall_forall in Hb. specialize (Hb it Hit _ E). lia.
  - (* edit *)
    destruct selectedOrder as [order'|]; [|discriminate].
    injection Hsaved as ->.
    apply handleSave_edit_success in Hsave. destruct Hsave as [Hi Ho].
    intros o Hin Hid. rewrite (Ho o Hin Hid).
    unfold items_of. rewrite Hi, items_of_fresh_rows.
    + now rewrite sum_total_price_item_rows, calculateTotal_whole.
    + apply items_not_of_unreferenced.
  - discriminate.
Qed.

(** The order of [ordered_store]: 3 units at 12.50, total 37.50. *)
Lemma total_amount_matches_whole_cent_items_witness :
  total_matches_items 7%nat ordered_store.
Proof.
  apply (total_amount_matches_whole_cent_items Orders.create None order_form
           [Orders.mkOrderItem 3%nat 3 0 (25 # 2)] stocked_store ordered_store
           7%nat stocked_store_reachable).
  - constructor; [|constructor]. exists 1250. reflexivity.
  - reflexivity.
  - reflexivity.
Defined.

Lemma item_rows_fields order orderItems : forall n,
  map poi_product_id (item_rows n (Orders.items order orderItems))
  = map (fun item => Some (Orders.oi_product_id item)) orderItems
  /\ map poi_quantity_ordered (item_rows n (Orders.items order orderItems))
     = map Orders.oi_quantity_ordered orderItems
  /\ map poi_quantity_received (item_rows n (Orders.items order orderItems))
     = map Orders.oi_quantity_received orderItems
  /\ map poi_unit_price (item_rows n (Orders.items order orderItems))
     = map (fun item => to_decimal2 (Orders.oi_unit_price item)) orderItems.
Proof.
  induction orderItems as [|item l IH]; intros n; simpl; [auto|].
  destruct (IH (S n)) as [-> [-> [-> ->]]]. auto.
Qed.

(** C10.  A served edit-save replaces the items of the order wholesale:
    afterwards the items of the order are, in order, the submitted lines
    (product, quantities, and the price as the column keeps it) under keys
    drawn after every key in use; no row the order had before is left, so
    what a dropped row held, its quantity_received included, is gone; the
    items of other orders are untouched. *)
Theorem edit_save_replaces_items :
  forall (formData : Orders.FormData) (orderItems : list Orders.OrderItem)
         (s s' : Store) (order : id),
    reachable s ->
    Orders.handleSave all_served Orders.edit (Some order) formData orderItems s
    = (s', true) ->
    let rows := items_of order s' in
    map poi_product_id rows
    = map (fun item => Some (Orders.oi_product_id item)) orderItems
    /\ map poi_quantity_ordered rows = map Orders.oi_quantity_ordered orderItems
    /\ map poi_quantity_received rows
       = map Orders.oi_quantity_received orderItems
    /\ map poi_unit_price rows
       = map (fun item => to_decimal2 (Orders.oi_unit_price item)) orderItems
    /\ map poi_id rows = seq (next_id s) (List.length orderItems)
    /\ (forall old new, In old (purchase_order_items s) -> In new rows ->
                        poi_id new <> poi_id old)
    /\ (forall old, In old (items_of order s) ->
                    ~ In old (purchase_order_items s'))
    /\ items_not_of order s' = items_not_of order s.
Proof.
  intros formData orderItems s s' order Hs Hsave rows.
  pose proof (reachable_well_keyed s Hs) as Hwk.
  apply handleSave_edit_success in Hsave. destruct Hsave as [Hi _].
  assert (Hrows : rows = item_rows (next_id s) (Orders.items order orderItems)).
  { subst rows. unfold items_of. rewrite Hi. apply items_of_fresh_rows.
    apply items_not_of_unreferenced. }
  assert (Hids : map poi_id rows = seq (next_id s) (List.length orderItems)).
  { rewrite Hrows, item_rows_ids. unfold Orders.items. now rewrite length_map. }
  assert (Hfresh : forall old new, In old (purchase_order_items s) ->
                                   In new rows -> poi_id new <> poi_id old).
  { intros old new Hold Hnew.
    assert (In (poi_id new) (seq (next_id s) (List.length orderItems)))
      by (rewrite <- Hids; now apply in_map).
    apply in_seq in H. pose proof (wk_items s Hwk) as Hb.
    rewrite Forall_forall in Hb. specialize (Hb old Hold). lia. }
  rewrite Hrows at 1 2 3 4.
  destruct (item_rows_fields order orderItems (next_id s)) as [-> [-> [-> ->]]].
  repeat (split; [reflexivity || assumption|]). split.
  - intros old Hold Hin. unfold items_of in Hold. apply filter_In in Hold.
    destruct Hold as [Hold Href]. rewrite Hi in Hin.
    apply in_app_or in Hin. destruct Hin as [Hin|Hin].
    + apply items_not_of_unreferenced in Hin. congruence.
    + apply (Hfresh old old Hold); [|reflexivity]. now rewrite Hrows.
  - unfold items_not_of at 1. rewrite Hi, filter_app.
    rewrite (filter_none _ (item_rows _ _)).
    + rewrite app_nil_r. unfold items_not_of. apply filter_all.
      intros it Hit. apply filter_In in Hit. tauto.
    + intros it Hit. apply negb_false_iff, ref_eqb_eq.
      eapply item_rows_of_order; eauto using items_payload_order.
Qed.

(** Editing the order of [ordered_store] down to one new line: the item
    8 it had is gone, the new row has key 9. *)
Lemma edit_save_replaces_items_witness :
  let s' := fst (Orders.handleSave all_served Orders.edit (Some 7%nat)
                   order_form [Orders.mkOrderItem 4%nat 5 0 (2 # 1)]
                   ordered_store) in
  map poi_product_id (items_of 7%nat s') = [Some 4%nat]
  /\ map poi_quantity_ordered (items_of 7%nat s') = [5]
  /\ map poi_id (items_of 7%nat s') = [9%nat]
  /\ ~ In (mkPurchaseOrderItem 8%nat (Some 7%nat) (Some 3%nat) 3 0 1250 3750)
          (purchase_order_items s').
Proof.
  intros s'.
  destruct (edit_save_replaces_items order_form
              [Orders.mkOrderItem 4%nat 5 0 (2 # 1)] ordered_store s' 7%nat
              ordered_store_reachable eq_refl)
    as [Hp [Hq [_ [_ [Hid [_ [Hgone _]]]]]]].
  split; [exact Hp|]. split; [exact Hq|]. split; [exact Hid|].
  apply Hgone. left. reflexivity.
Defined.

(** ** The generated column of the order items *)

(** C4, as stated, fails: a request that supplies total_price does not
    have the outcome of the request without it.  Against
    [ordered_store], the insert of an item with total_price 999 is
    refused, while the same item without the column is accepted. *)
Lemma supplied_total_price_not_ignored : ~ supplied_total_price_ignored.
Proof.
  intros H.
  destruct (H ordered_store
              (mkPurchaseOrderItemsWrite (Some 7%nat) (Some 4%nat) (Some 2) None
                                         (Some (5 # 1)) (Some (999 # 1)))
              8%nat) as [Hinsert _].
  vm_compute in Hinsert. discriminate Hinsert.
Qed.

(** C4, amended.  In every store the client can reach, each purchase
    order item has [total_price = quantity_ordered * unit_price].  The
    payloads the order form builds carry no total_price; a request that
    does supply one, on insert or on update, is refused and leaves the
    store as it was: the value is not accepted, and the row is not
    written with a recomputed one either. *)
Theorem total_price_is_derived :
  forall s, reachable s ->
    (forall it, In it (purchase_order_items s) ->
                poi_total_price it
                = poi_quantity_ordered it * poi_unit_price it)
    /\ (forall order orderItems w,
           In w (Orders.items order orderItems) -> poiw_total_price w = None)
    /\ (forall ws w, In w ws -> is_some (poiw_total_price w) = true ->
           run (InsertPurchaseOrderItems ws) s = Err GeneratedAlways
           /\ forall served,
                fst (exec served (InsertPurchaseOrderItems ws) s) = s)
    /\ (forall i w, is_some (poiw_total_price w) = true ->
           run (UpdatePurchaseOrderItem i w) s = Err GeneratedAlways
           /\ forall served,
                fst (exec served (UpdatePurchaseOrderItem i w) s) = s).
Proof.
  intros s Hs. split; [|split; [|split]].
  - apply Forall_forall. now apply reachable_item_derived.
  - intros order orderItems w Hw. unfold Orders.items in Hw.
    apply in_map_iff in Hw. destruct Hw as [item [<- _]]. reflexivity.
  - intros ws w Hw Hsup.
    assert (H : run (InsertPurchaseOrderItems ws) s = Err GeneratedAlways).
    { simpl. unfold insert_purchase_order_items.
      replace (existsb _ ws) with true; [reflexivity|].
      symmetry. apply existsb_exists. eauto. }
    split; [exact H|]. now apply refused_unchanged with (e := GeneratedAlways).
  - intros i w Hsup.
    assert (H : run (UpdatePurchaseOrderItem i w) s = Err GeneratedAlways).
    { simpl. unfold update_purchase_order_item. now rewrite Hsup. }
    split; [exact H|]. now apply refused_unchanged with (e := GeneratedAlways).
Qed.

Lemma total_price_is_derived_witness :
  (forall it, In it (purchase_order_items ordered_store) ->
              poi_total_price it = poi_quantity_ordered it * poi_unit_price it)
  /\ run (UpdatePurchaseOrderItem 8%nat
            (mkPurchaseOrderItemsWrite None None (Some 4) None None
                                       (Some (1 # 1))))
         ordered_store = Err GeneratedAlways.
Proof.
  destruct (total_price_is_derived ordered_store ordered_store_reachable)
    as [Hd [_ [_ Hu]]].
  split; [exact Hd|].
  exact (proj1 (Hu 8%nat (mkPurchaseOrderItemsWrite None None (Some 4) None None
                                                    (Some (1 # 1))) eq_refl)).
Defined.

(** The response of the item delete is not checked.  When that request
    is not served and the others are, the save still reaches its end, and
    the order keeps its old item next to the submitted one. *)
Lemma edit_save_with_delete_not_served :
  let served := fun k : nat => negb (Nat.eqb k 1) in
  let saved := Orders.handleSave served Orders.edit (Some 7%nat) order_form
                 [Orders.mkOrderItem 4%nat 5 0 (2 # 1)] ordered_store in
  snd saved = true
  /\ map poi_id (items_of 7%nat (fst saved)) = [8%nat; 9%nat].
Proof. split; reflexivity. Qed.

(** * Further properties *)

(** ** Referential integrity *)

Lemma existsb_app_l {A : Type} (f : A -> bool) (l l' : list A) :
  existsb f l = true -> existsb f (l ++ l') = true.
Proof. intros H. rewrite existsb_app, H. reflexivity. Qed.

Lemma existsb_filter_other {A : Type} (key : A -> id) (i j : id) (l : list A) :
  existsb (fun r => Nat.eqb (key r) j) l = true -> j <> i ->
  existsb (fun r => Nat.eqb (key r) j)
          (filter (fun r => negb (Nat.eqb (key r) i)) l) = true.
Proof.
  intros H Hne. apply existsb_exists in H. destruct H as [x [Hx E]].
  apply existsb_exists. exists x. split; [|assumption].
  apply filter_In. split; [assumption|]. apply negb_true_iff.
  apply Nat.eqb_eq in E. apply Nat.eqb_neq. congruence.
Qed.

Section RefsExist.
Context {A B : Type} (key : B -> id) (ref : A -> option id).

Lemma refs_exist_mono (present present' : id -> bool) (l : list A) :
  (forall i, present i = true -> present' i = true) ->
  refs_exist present ref l -> refs_exist present' ref l.
Proof.
  intros Hp. apply Forall_weaken. intros x. destruct (ref x); simpl; auto.
Qed.

Lemma refs_exist_grow (p q : list B) (l : list A) :
  refs_exist (fun j => existsb (fun r => Nat.eqb (key r) j) p) ref l ->
  refs_exist (fun j => existsb (fun r => Nat.eqb (key r) j) (p ++ q)) ref l.
Proof. apply refs_exist_mono. intros i. apply existsb_app_l. Qed.

Lemma refs_exist_filter (present : id -> bool) (g : A -> bool) (l : list A) :
  refs_exist present ref l -> refs_exist present ref (filter g l).
Proof. apply Forall_filter_keep. Qed.

Lemma refs_exist_restrict (p : list B) (i : id) (l : list A) :
  existsb (fun x => ref_eqb (ref x) i) l = false ->
  refs_exist (fun j => existsb (fun r => Nat.eqb (key r) j) p) ref l ->
  refs_exist (fun j => existsb (fun r => Nat.eqb (key r) j)
                               (filter (fun r => negb (Nat.eqb (key r) i)) p))
             ref l.
Proof.
  intros Hfree H. apply Forall_forall. intros x Hx.
  unfold refs_exist in H. rewrite Forall_forall in H. specialize (H x Hx).
  pose proof (proj1 (existsb_false _ _) Hfree x Hx) as Hne. simpl in Hne.
  destruct (ref x) as [j|]; simpl in *; [|reflexivity].
  apply existsb_filter_other; [assumption|]. now apply Nat.eqb_neq.
Qed.

Lemma refs_exist_cascade (p : list B) (i : id) (l : list A) :
  refs_exist (fun j => existsb (fun r => Nat.eqb (key r) j) p) ref l ->
  refs_exist (fun j => existsb (fun r => Nat.eqb (key r) j)
                               (filter (fun r => negb (Nat.eqb (key r) i)) p))
             ref (filter (fun x => negb (ref_eqb (ref x) i)) l).
Proof.
  intros H. apply refs_exist_restrict; [|now apply refs_exist_filter].
  apply existsb_false. intros x Hx. apply filter_In in Hx.
  destruct Hx as [_ Hx]. now apply negb_true_iff.
Qed.

Lemma refs_exist_app (present : id -> bool) (l l' : list A) :
  refs_exist present ref l -> refs_exist present ref l' ->
  refs_exist present ref (l ++ l').
Proof. intros H H'. apply Forall_app. now split. Qed.

Lemma refs_exist_one (present : id -> bool) (x : A) :
  fk_ok present (ref x) = true -> refs_exist present ref [x].
Proof. intros H. constructor; [exact H|constructor]. Qed.

Lemma refs_exist_map_parent (g : B -> B) (p : list B) (l : list A) :
  (forall x, key (g x) = key x) ->
  refs_exist (fun j => existsb (fun r => Nat.eqb (key r) j) p) ref l ->
  refs_exist (fun j => existsb (fun r => Nat.eqb (key r) j) (map g p)) ref l.
Proof.
  intros Hg. apply refs_exist_mono. intros i H.
  apply existsb_exists in H. destruct H as [x [Hx E]].
  apply existsb_exists. exists (g x). split; [now apply in_map|].
  now rewrite Hg.
Qed.

Lemma refs_exist_update (present : id -> bool) (c : A -> bool) (g : A -> A)
      (l : list A) :
  refs_exist present ref l ->
  (forall x, fk_ok present (ref x) = true -> fk_ok present (ref (g x)) = true) ->
  refs_exist present ref (map (fun x => if c x then g x else x) l).
Proof. intros H Hg. now apply Forall_map_where. Qed.

End RefsExist.

Lemma item_rows_refs_exist s ws : forall n,
  forallb (item_fk_ok s) ws = true ->
  refs_exist (has_purchase_order s) poi_purchase_order_id (item_rows n ws)
  /\ refs_exist (has_product s) poi_product_id (item_rows n ws).
Proof.
  induction ws as [|w ws IH]; intros n H; simpl; [split; constructor|].
  apply andb_true_iff in H. destruct H as [Hw Hws].
  apply andb_true_iff in Hw. destruct Hw as [Ho Hp].
  destruct (IH (S n) Hws). split; constructor; assumption.
Qed.

Ltac fk_hyps :=
  unfold stock_level_fk_ok, purchase_order_fk_ok in *;
  repeat match goal with
         | H : negb _ = false |- _ => apply negb_false_iff in H
         | H : _ && _ = true |- _ => apply andb_true_iff in H; destruct H
         end.

Ltac refs :=
  unfold has_supplier, has_warehouse, has_product, has_purchase_order in *;
  simpl in *;
  first
    [ assumption
    | apply refs_exist_filter; assumption
    | apply refs_exist_grow; assumption
    | apply refs_exist_cascade; assumption
    | apply refs_exist_restrict; assumption
    | apply refs_exist_filter; apply refs_exist_restrict; assumption
    | apply refs_exist_app; [assumption|apply refs_exist_one; simpl; assumption]
    | apply refs_exist_map_parent;
      [intros x; match goal with |- context [if ?c then _ else _] => destruct c end; reflexivity
      |assumption]
    | apply refs_exist_update; [assumption|];
      intros x Hx; simpl;
      match goal with
      | |- context [or_keep ?o _] => destruct o; simpl; assumption
      end
    | idtac ].

Lemma run_referential_integrity r s s' :
  referential_integrity s -> run r s = Ok s' -> referential_integrity s'.
Proof.
  intros [H1 H2 H3 H4 H5 H6 H7 H8 H9] H.
  destruct r; accepted H; fk_hyps; constructor; refs.
  - (* suppliers: SET NULL on products *)
    apply Forall_forall. intros p Hp. apply in_map_iff in Hp.
    destruct Hp as [p0 [<- Hp0]].
    unfold refs_exist in H1. rewrite Forall_forall in H1. specialize (H1 p0 Hp0).
    destruct (ref_eqb (pr_supplier_id p0) i) eqn:E; simpl; [reflexivity|].
    destruct (pr_supplier_id p0) as [j|]; simpl in *; [|reflexivity].
    apply existsb_filter_other; [assumption|]. now apply Nat.eqb_neq.
  - apply refs_exist_app; [assumption|].
    match goal with
    | Hfk : forallb _ ws = true |- _ =>
        exact (proj1 (item_rows_refs_exist s ws (next_id s) Hfk))
    end.
  - apply refs_exist_app; [assumption|].
    match goal with
    | Hfk : forallb _ ws = true |- _ =>
        exact (proj2 (item_rows_refs_exist s ws (next_id s) Hfk))
    end.
  - unfold item_fk_ok in *. fk_hyps. refs.
  - unfold item_fk_ok in *. fk_hyps. refs.
Qed.

Lemma reachable_referential_integrity s :
  reachable s -> referential_integrity s.
Proof.
  revert s. apply (reachable_ind_run referential_integrity).
  - constructor; constructor.
  - intros; eapply run_referential_integrity; eauto.
Qed.

(** X1.  In every store the client can reach, every foreign key of the
    schema that is not NULL points at a row that exists: products at
    their supplier, stock levels and stock movements at their product and
    warehouse, purchase orders at their supplier and warehouse, items at
    their order and product.  In particular a stock level of product [p]
    means product [p] is there. *)
Theorem foreign_keys_hold :
  forall s, reachable s ->
    referential_integrity s
    /\ (forall r p, In r (stock_levels s) -> sl_product_id r = Some p ->
                    exists row, In row (products s) /\ pr_id row = p)
    /\ (forall it o, In it (purchase_order_items s) ->
                     poi_purchase_order_id it = Some o ->
                     exists row, In row (purchase_orders s) /\ po_id row = o).
Proof.
  intros s Hs. pose proof (reachable_referential_integrity s Hs) as Hri.
  split; [exact Hri|]. split.
  - intros r p Hr Hp. pose proof (ri_level_product s Hri) as H.
    unfold refs_exist in H. rewrite Forall_forall in H. specialize (H r Hr).
    rewrite Hp in H. simpl in H. apply existsb_exists in H.
    destruct H as [row [Hrow E]]. exists row. split; [assumption|].
    now apply Nat.eqb_eq.
  - intros it o Hit Ho. pose proof (ri_item_order s Hri) as H.
    unfold refs_exist in H. rewrite Forall_forall in H. specialize (H it Hit).
    rewrite Ho in H. simpl in H. apply existsb_exists in H.
    destruct H as [row [Hrow E]]. exists row. split; [assumption|].
    now apply Nat.eqb_eq.
Qed.

Lemma foreign_keys_hold_witness :
  referential_integrity ordered_store
  /\ exists row, In row (products ordered_store) /\ pr_id row = 3%nat.
Proof.
  destruct (foreign_keys_hold ordered_store ordered_store_reachable)
    as [Hri [Hlevel _]].
  split; [exact Hri|].
  apply (Hlevel (mkStockLevel 6%nat (Some 3%nat) (Some 1%nat) 10 0 10)).
  - left. reflexivity.
  - reflexivity.
Defined.

(** ** UNIQUE text keys *)

Lemma existsb_eqb_In (x : string) (l : list string) :
  existsb (String.eqb x) l = false <-> ~ In x l.
Proof.
  rewrite existsb_false. split.
  - intros H Hin. specialize (H x Hin). rewrite String.eqb_refl in H.
    discriminate.
  - intros H y Hy. destruct (String.eqb x y) eqn:E; [|reflexivity].
    apply String.eqb_eq in E. subst. contradiction.
Qed.

Lemma unique_strings_b_NoDup (l : list string) :
  unique_strings_b l = true -> NoDup l.
Proof.
  induction l as [|x l IH]; simpl; intros H; constructor;
    apply andb_true_iff in H; destruct H as [Hx Hl]; auto.
  apply negb_true_iff in Hx. now apply existsb_eqb_In.
Qed.

Lemma text_key_free {A : Type} (key : A -> string) (x : string) (l : list A) :
  existsb (fun r => String.eqb (key r) x) l = false -> ~ In x (map key l).
Proof.
  intros H Hin. apply in_map_iff in Hin. destruct Hin as [r [<- Hr]].
  pose proof (proj1 (existsb_false _ _) H r Hr) as E. simpl in E.
  rewrite String.eqb_refl in E. discriminate.
Qed.

Lemma NoDup_map_snoc {A B : Type} (f : A -> B) (l : list A) (x : A) :
  NoDup (map f l) -> ~ In (f x) (map f l) -> NoDup (map f (l ++ [x])).
Proof.
  intros H Hx. rewrite map_app. apply NoDup_app; [assumption| |].
  - repeat constructor. simpl. tauto.
  - intros y Hy [<-|[]]. contradiction.
Qed.

Lemma run_unique_text_keys r s s' :
  unique_text_keys s -> run r s = Ok s' -> unique_text_keys s'.
Proof.
  intros [Hsku Hpo] H. unfold unique_text_keys.
  destruct r; accepted H; simpl; split;
    auto using NoDup_map_filter, NoDup_map_snoc, text_key_free.
  - (* products after a supplier is deleted *)
    rewrite map_where_same; auto.
  - (* an order updated *)
    match goal with
    | Hc : (_ && negb (unique_strings_b _)) = false |- _ =>
        apply andb_false_iff in Hc; destruct Hc as [Hnone|Huniq]
    end.
    + destruct w as [wn ws ww wst wt wnotes]; simpl in *.
      destruct wn; [discriminate|]. rewrite map_where_same; auto.
    + apply negb_false_iff in Huniq. now apply unique_strings_b_NoDup.
Qed.

Lemma reachable_unique_text_keys s : reachable s -> unique_text_keys s.
Proof.
  revert s. apply (reachable_ind_run unique_text_keys).
  - split; constructor.
  - intros; eapply run_unique_text_keys; eauto.
Qed.

(** X2.  In every store the client can reach no two products share a
    sku and no two purchase orders share a po_number; a product insert
    under a sku in use, and an order insert under a po_number in use, are
    refused with a unique violation and leave the store as it was. *)
Theorem text_keys_are_unique :
  forall s, reachable s ->
    NoDup (map pr_sku (products s))
    /\ NoDup (map po_number (purchase_orders s))
    /\ (forall p supplier, In p (products s) ->
          run (InsertProduct (pr_sku p) supplier) s = Err UniqueViolation
          /\ forall served,
               fst (exec served (InsertProduct (pr_sku p) supplier) s) = s)
    /\ (forall o w, In o (purchase_orders s) ->
          pow_po_number w = Some (po_number o) ->
          run (InsertPurchaseOrder w) s = Err UniqueViolation
          /\ forall served, fst (exec served (InsertPurchaseOrder w) s) = s).
Proof.
  intros s Hs. destruct (reachable_unique_text_keys s Hs) as [Hsku Hpo].
  split; [exact Hsku|]. split; [exact Hpo|]. split.
  - intros p supplier Hp.
    assert (H : run (InsertProduct (pr_sku p) supplier) s = Err UniqueViolation).
    { simpl. unfold insert_product.
      replace (existsb _ (products s)) with true; [reflexivity|].
      symmetry. apply existsb_exists. exists p.
      split; [assumption|apply String.eqb_refl]. }
    split; [exact H|]. now apply refused_unchanged with (e := UniqueViolation).
  - intros o w Ho Hw.
    assert (H : run (InsertPurchaseOrder w) s = Err UniqueViolation).
    { simpl. unfold insert_purchase_order. rewrite Hw.
      replace (existsb _ (purchase_orders s)) with true; [reflexivity|].
      symmetry. apply existsb_exists. exists o.
      split; [assumption|apply String.eqb_refl]. }
    split; [exact H|]. now apply refused_unchanged with (e := UniqueViolation).
Qed.

Lemma text_keys_are_unique_witness :
  NoDup (map pr_sku (products ordered_store))
  /\ run (InsertProduct "SKU-1" None) ordered_store = Err UniqueViolation.
Proof.
  destruct (text_keys_are_unique ordered_store ordered_store_reachable)
    as [Hsku [_ [Hdup _]]].
  split; [exact Hsku|].
  apply (Hdup (mkProduct 3%nat "SKU-1" (Some 0%nat)) None).
  left. reflexivity.
Defined.

(** ** ON DELETE SET NULL *)

(** X3.  Deleting a supplier that no purchase order references is
    accepted and deletes no product: the products keep their keys and
    skus in the same order, those that named the supplier now have a NULL
    supplier_id and the others keep theirs; stock and orders are
    untouched. *)
Theorem delete_supplier_sets_null :
  forall s i,
    has_supplier s i = true ->
    (forall o, In o (purchase_orders s) -> po_supplier_id o <> Some i) ->
    exists s',
      run (DeleteSupplier i) s = Ok s'
      /\ has_supplier s' i = false
      /\ map pr_id (products s') = map pr_id (products s)
      /\ map pr_sku (products s') = map pr_sku (products s)
      /\ map pr_supplier_id (products s')
         = map (fun p => if ref_eqb (pr_supplier_id p) i then None
                         else pr_supplier_id p) (products s)
      /\ (forall p, In p (products s') -> pr_supplier_id p <> Some i)
      /\ stock_levels s' = stock_levels s
      /\ stock_movements s' = stock_movements s
      /\ purchase_orders s' = purchase_orders s
      /\ purchase_order_items s' = purchase_order_items s.
Proof.
  intros s i Hs Hfree. apply unreferenced in Hfree.
  simpl. unfold delete_supplier. rewrite Hs, Hfree. simpl.
  eexists. split; [reflexivity|]. simpl.
  split; [apply existsb_filter_out|].
  split; [apply map_where_same; reflexivity|].
  split; [apply map_where_same; reflexivity|].
  split.
  - rewrite map_map. apply map_ext. intros p.
    destruct (ref_eqb (pr_supplier_id p) i); reflexivity.
  - split; [|auto]. intros p Hp E. apply in_map_iff in Hp.
    destruct Hp as [p0 [<- _]].
    destruct (ref_eqb (pr_supplier_id p0) i) eqn:E0; simpl in E; [discriminate|].
    apply ref_eqb_eq in E. congruence.
Qed.

(** Supplier 0 of [stocked_store] supplies product 3 and has no order. *)
Lemma delete_supplier_sets_null_witness :
  exists s',
    run (DeleteSupplier 0%nat) stocked_store = Ok s'
    /\ map pr_id (products s') = [3%nat; 4%nat]
    /\ map pr_supplier_id (products s') = [None; None].
Proof.
  destruct (delete_supplier_sets_null stocked_store 0%nat eq_refl)
    as [s' [Hrun [_ [Hid [_ [Hsup _]]]]]].
  - intros o [].
  - exists s'. split; [exact Hrun|]. split; [exact Hid|exact Hsup].
Defined.

(** ** Insert and lookup of a stock level *)

(** X4.  A stock level insert that is accepted for a pair of keys can be
    looked up at once: the lookup by (product, warehouse) finds exactly
    the new row, with the quantities of the payload (0 where left out)
    and the available quantity computed. *)
Theorem inserted_level_is_found :
  forall s s' w p wh,
    run (InsertStockLevel w) s = Ok s' ->
    slw_product_id w = Some p -> slw_warehouse_id w = Some wh ->
    exists r,
      select_stock_level p wh s' = Some r
      /\ sl_id r = next_id s
      /\ sl_quantity r = or_else (slw_quantity w) 0
      /\ sl_reserved_quantity r = or_else (slw_reserved_quantity w) 0
      /\ sl_available_quantity r = sl_quantity r - sl_reserved_quantity r.
Proof.
  intros s s' w p wh H Hp Hwh. accepted H.
  match goal with
  | Hfree : existsb (same_pair _ _) _ = false |- _ =>
      rewrite Hp, Hwh in Hfree; simpl in Hfree
  end.
  exists (stock_level_row (next_id s) w). split; [|simpl; auto].
  apply select_one. unfold levels_of. simpl. rewrite filter_app.
  rewrite (filter_none (level_of p wh) (stock_levels s)).
  - simpl. rewrite level_of_fields by (simpl; assumption). reflexivity.
  - now apply existsb_false.
Qed.

Lemma inserted_level_is_found_witness :
  exists r,
    select_stock_level 4%nat 2%nat
      (fst (exec true
              (InsertStockLevel
                 (mkStockLevelsWrite (Some 4%nat) (Some 2%nat) (Some 7)
                                     (Some 9) None))
              stocked_store)) = Some r
    /\ sl_quantity r = 7 /\ sl_available_quantity r = -2.
Proof.
  destruct (inserted_level_is_found stocked_store
              (fst (exec true
                      (InsertStockLevel
                         (mkStockLevelsWrite (Some 4%nat) (Some 2%nat) (Some 7)
                                             (Some 9) None))
                      stocked_store))
              (mkStockLevelsWrite (Some 4%nat) (Some 2%nat) (Some 7) (Some 9)
                                  None)
              4%nat 2%nat eq_refl eq_refl eq_refl)
    as [r [Hsel [_ [Hq [Hr Ha]]]]].
  exists r. split; [exact Hsel|]. split; [exact Hq|].
  rewrite Ha, Hq, Hr. reflexivity.
Defined.

(** ** Sequences of movements *)

Lemma levels_of_In p w s r :
  levels_of p w s = [r] ->
  In r (stock_levels s) /\ sl_product_id r = Some p /\ sl_warehouse_id r = Some w.
Proof.
  intros H. assert (Hin : In r (levels_of p w s)) by (rewrite H; now left).
  unfold levels_of in Hin. apply filter_In in Hin. destruct Hin as [Hin Hl].
  split; [assumption|]. now apply level_of_true.
Qed.

(** The level of a pair after a run of served submissions for that pair. *)
Lemma submit_all_existing_level forms : forall s cs p w,
  reachable s -> In cs (stock_levels s) ->
  sl_product_id cs = Some p -> sl_warehouse_id cs = Some w ->
  Forall (fun formData => StockMovements.fd_product_id formData = p
                          /\ StockMovements.fd_warehouse_id formData = w)
         forms ->
  exists r,
    levels_of p w (submit_all forms s) = [r]
    /\ sl_id r = sl_id cs
    /\ sl_quantity r = sl_quantity cs + sum_delta forms
    /\ sl_reserved_quantity r = sl_reserved_quantity cs.
Proof.
  induction forms as [|formData forms IH]; intros s cs p w Hs Hin Hp Hw Hforms.
  - exists cs. simpl. rewrite Z.add_0_r. split; [|auto].
    apply select_found; auto using reachable_unique_levels, level_of_fields.
  - inversion Hforms as [|? ? [Hfp Hfw] Hrest]; subst.
    pose proof (handleSubmit_existing_level all_served formData s cs
                  Hs eq_refl eq_refl Hin Hp Hw) as Hrow.
    destruct (levels_of_In _ _ _ _ Hrow) as [Hin1 [Hp1 Hw1]].
    destruct (IH (StockMovements.handleSubmit all_served formData s) _ _ _
                 (handleSubmit_reachable all_served formData s Hs)
                 Hin1 Hp1 Hw1 Hrest) as [r [Hr [Hid [Hq Hres]]]].
    exists r. split; [exact Hr|]. simpl in *.
    rewrite quantityChange_delta in Hq. repeat split; auto. lia.
Qed.

(** X5.  Served movements against a level that exists add up: after any
    list of submissions for the pair, the level holds its old quantity
    plus the sum of their signed changes, under the same key and with
    the same reserved quantity. *)
Theorem movements_add_up :
  forall forms s cs p w,
    reachable s -> In cs (stock_levels s) ->
    sl_product_id cs = Some p -> sl_warehouse_id cs = Some w ->
    Forall (fun formData => StockMovements.fd_product_id formData = p
                            /\ StockMovements.fd_warehouse_id formData = w)
           forms ->
    exists r,
      select_stock_level p w (submit_all forms s) = Some r
      /\ sl_id r = sl_id cs
      /\ sl_quantity r = sl_quantity cs + sum_delta forms
      /\ sl_reserved_quantity r = sl_reserved_quantity cs
      /\ sl_available_quantity r = sl_quantity r - sl_reserved_quantity r.
Proof.
  intros forms s cs p w Hs Hin Hp Hw Hforms.
  destruct (submit_all_existing_level forms s cs p w Hs Hin Hp Hw Hforms)
    as [r [Hr [Hid [Hq Hres]]]].
  exists r. split; [now apply select_one|]. repeat split; auto.
  assert (Hreach : reachable (submit_all forms s)).
  { clear - Hs. revert s Hs. induction forms as [|f forms IH]; intros s Hs;
      [assumption|]. simpl. apply IH. now apply handleSubmit_reachable. }
  pose proof (reachable_level_derived _ Hreach) as Hd.
  rewrite Forall_forall in Hd. apply Hd. now apply (levels_of_In p w).
Qed.

(** IN 5, OUT 20, ADJUSTMENT 3 against the level of 10: 10 + 5 - 20 + 3. *)
Lemma movements_add_up_witness :
  exists r,
    select_stock_level 3%nat 1%nat
      (submit_all [movement_form IN 5; movement_form OUT 20;
                   movement_form ADJUSTMENT 3] stocked_store) = Some r
    /\ sl_quantity r = -2.
Proof.
  destruct (movements_add_up
              [movement_form IN 5; movement_form OUT 20;
               movement_form ADJUSTMENT 3]
              stocked_store
              (mkStockLevel 6%nat (Some 3%nat) (Some 1%nat) 10 0 10)
              3%nat 1%nat stocked_store_reachable
              (or_introl eq_refl) eq_refl eq_refl)
    as [r [Hsel [_ [Hq _]]]].
  - repeat constructor.
  - exists r. split; [exact Hsel|exact Hq].
Defined.

(** ** What a submission leaves alone *)

Lemma level_write_frame served r s :
  (exists i w, r = UpdateStockLevel i w) \/ (exists w, r = InsertStockLevel w) ->
  let s' := fst (exec served r s) in
  stock_movements s' = stock_movements s /\ suppliers s' = suppliers s
  /\ warehouses s' = warehouses s /\ products s' = products s
  /\ purchase_orders s' = purchase_orders s
  /\ purchase_order_items s' = purchase_order_items s.
Proof.
  intros Hr. simpl. destruct (exec_cases served r s) as [E|E].
  - rewrite E. repeat split.
  - remember (fst (exec served r s)) as s'. clear Heqs'.
    destruct Hr as [[i [w ->]]|[w ->]]; accepted E; simpl; repeat split.
Qed.

Lemma handleSubmit_level_write served formData s :
  exists r,
    ((exists i w, r = UpdateStockLevel i w) \/ (exists w, r = InsertStockLevel w))
    /\ StockMovements.handleSubmit served formData s
       = fst (exec (served 2%nat) r
                (fst (exec (served 0%nat)
                        (InsertStockMovement
                           (StockMovements.movementData formData)) s))).
Proof.
  unfold StockMovements.handleSubmit.
  destruct (if served 1%nat then _ else _) as [cs|];
    eexists; (split; [|reflexivity]); eauto.
Qed.

(** X6.  A submission only ever appends to the ledger and writes to the
    stock levels: the stock movements after it are those before it, in
    order and unchanged, followed by at most the one movement of the
    form; suppliers, warehouses, products, orders and order items are as
    they were.  The movement is appended exactly when its insert is
    served and its product and warehouse exist. *)
Theorem submission_appends_to_ledger :
  forall (served : nat -> bool) (formData : StockMovements.FormData)
         (s : Store),
    let s' := StockMovements.handleSubmit served formData s in
    let recorded :=
      served 0%nat
      && has_product s (StockMovements.fd_product_id formData)
      && has_warehouse s (StockMovements.fd_warehouse_id formData) in
    stock_movements s'
    = stock_movements s
      ++ (if recorded
          then [mkStockMovement (next_id s)
                  (Some (StockMovements.fd_product_id formData))
                  (Some (StockMovements.fd_warehouse_id formData))
                  (StockMovements.fd_movement_type formData)
                  (StockMovements.fd_quantity formData)
                  (StockMovements.fd_reference_number formData)
                  (StockMovements.fd_notes formData)]
          else [])
    /\ suppliers s' = suppliers s /\ warehouses s' = warehouses s
    /\ products s' = products s /\ purchase_orders s' = purchase_orders s
    /\ purchase_order_items s' = purchase_order_items s.
Proof.
  intros served formData s. simpl.
  destruct (handleSubmit_level_write served formData s) as [r [Hr ->]].
  destruct (level_write_frame (served 2%nat) r
              (fst (exec (served 0%nat)
                      (InsertStockMovement
                         (StockMovements.movementData formData)) s)) Hr)
    as [-> [-> [-> [-> [-> ->]]]]].
  unfold exec. destruct (served 0%nat); simpl.
  - unfold insert_stock_movement. simpl.
    destruct (has_product s _ && has_warehouse s _); simpl;
      rewrite ?app_nil_r; repeat split.
  - rewrite app_nil_r. repeat split.
Qed.

Lemma no_level_without_parents s p w :
  referential_integrity s ->
  has_product s p = false \/ has_warehouse s w = false ->
  levels_of p w s = [].
Proof.
  intros Hri Hmissing. unfold levels_of. apply filter_none. intros r Hr.
  destruct (level_of p w r) eqn:E; [|reflexivity]. exfalso.
  apply level_of_true in E. destruct E as [Hp Hw].
  pose proof (ri_level_product s Hri) as H1.
  pose proof (ri_level_warehouse s Hri) as H2.
  unfold refs_exist in *. rewrite Forall_forall in H1, H2.
  specialize (H1 r Hr). specialize (H2 r Hr). rewrite Hp in H1. rewrite Hw in H2.
  simpl in *. destruct Hmissing; congruence.
Qed.

(** X7.  A submission for a product or a warehouse that does not exist
    (deleted since the form was loaded, say) changes nothing at all,
    whatever requests are served: the movement is refused, there is no
    level to find, and the level insert is refused as well. *)
Theorem submission_for_missing_parent_changes_nothing :
  forall (served : nat -> bool) (formData : StockMovements.FormData)
         (s : Store),
    reachable s ->
    has_product s (StockMovements.fd_product_id formData) = false
    \/ has_warehouse s (StockMovements.fd_warehouse_id formData) = false ->
    StockMovements.handleSubmit served formData s = s.
Proof.
  intros served formData s Hs Hmissing.
  pose proof (no_level_without_parents s _ _
                (reachable_referential_integrity s Hs) Hmissing) as Hnone.
  rewrite (handleSubmit_missing served formData s Hnone).
  assert (Hfk : has_product s (StockMovements.fd_product_id formData)
                && has_warehouse s (StockMovements.fd_warehouse_id formData)
                = false).
  { destruct Hmissing as [-> | ->]; [reflexivity|apply andb_false_r]. }
  assert (H0 : fst (exec (served 0%nat)
                      (InsertStockMovement
                         (StockMovements.movementData formData)) s) = s).
  { apply refused_unchanged with (e := ForeignKeyViolation).
    simpl. unfold insert_stock_movement. simpl. now rewrite Hfk. }
  rewrite H0. apply refused_unchanged with (e := ForeignKeyViolation).
  simpl. unfold insert_stock_level, stock_level_fk_ok. simpl.
  replace (existsb _ (stock_levels s)) with false
    by (symmetry; exact (filter_nil_existsb _ _ Hnone)).
  now rewrite Hfk.
Qed.

(** Product 9 was never created. *)
Lemma submission_for_missing_parent_changes_nothing_witness :
  StockMovements.handleSubmit all_served
    (StockMovements.mkFormData 9%nat 1%nat IN 10 "" "") stocked_store
  = stocked_store.
Proof.
  apply (submission_for_missing_parent_changes_nothing all_served
           (StockMovements.mkFormData 9%nat 1%nat IN 10 "" "") stocked_store
           stocked_store_reachable).
  left. reflexivity.
Defined.

(** The level a served submission opens for a pair that has none. *)
Lemma handleSubmit_opens_level formData s :
  has_product s (StockMovements.fd_product_id formData) = true ->
  has_warehouse s (StockMovements.fd_warehouse_id formData) = true ->
  levels_of (StockMovements.fd_product_id formData)
            (StockMovements.fd_warehouse_id formData) s = [] ->
  stock_levels (StockMovements.handleSubmit all_served formData s)
  = stock_levels s
    ++ [mkStockLevel (next_id s + 1)%nat
          (Some (StockMovements.fd_product_id formData))
          (Some (StockMovements.fd_warehouse_id formData))
          (Z.max 0 (StockMovements.quantityChange formData)) 0
          (Z.max 0 (StockMovements.quantityChange formData) - 0)].
Proof.
  intros Hp Hw Hnone.
  rewrite (handleSubmit_missing all_served formData s Hnone).
  unfold all_served, exec. simpl.
  unfold insert_stock_movement, insert_stock_level, stock_level_fk_ok,
    has_product, has_warehouse in *. simpl.
  rewrite Hp, Hw. simpl.
  replace (existsb _ (stock_levels s)) with false
    by (symmetry; exact (filter_nil_existsb _ _ Hnone)).
  rewrite Hp, Hw. reflexivity.
Qed.

(** X8.  On a pair that has no level yet, served submissions give
    [max(0, first change)] plus the sum of the later changes: the clamp
    of the opening movement is never made up for.  When the first
    movement takes stock out, the level ends above what the ledger adds
    up to by exactly that quantity. *)
Theorem opening_clamp_is_kept :
  forall first rest s,
    reachable s ->
    has_product s (StockMovements.fd_product_id first) = true ->
    has_warehouse s (StockMovements.fd_warehouse_id first) = true ->
    levels_of (StockMovements.fd_product_id first)
              (StockMovements.fd_warehouse_id first) s = [] ->
    Forall (fun formData =>
              StockMovements.fd_product_id formData
              = StockMovements.fd_product_id first
              /\ StockMovements.fd_warehouse_id formData
                 = StockMovements.fd_warehouse_id first)
           rest ->
    exists r,
      select_stock_level (StockMovements.fd_product_id first)
                         (StockMovements.fd_warehouse_id first)
                         (submit_all (first :: rest) s) = Some r
      /\ sl_quantity r
         = Z.max 0 (delta (StockMovements.fd_movement_type first)
                          (StockMovements.fd_quantity first))
           + sum_delta rest
      /\ (delta (StockMovements.fd_movement_type first)
                (StockMovements.fd_quantity first) <= 0 ->
          sl_quantity r
          = sum_delta (first :: rest)
            - delta (StockMovements.fd_movement_type first)
                    (StockMovements.fd_quantity first)).
Proof.
  intros first rest s Hs Hp Hw Hnone Hrest.
  pose proof (handleSubmit_opens_level first s Hp Hw Hnone) as Hopen.
  simpl.
  destruct (submit_all_existing_level rest
              (StockMovements.handleSubmit all_served first s) _
              (StockMovements.fd_product_id first)
              (StockMovements.fd_warehouse_id first)
              (handleSubmit_reachable all_served first s Hs)
              ltac:(rewrite Hopen; apply in_or_app; right; left; reflexivity)
              eq_refl eq_refl Hrest)
    as [r [Hr [_ [Hq _]]]].
  exists r. split; [now apply select_one|]. simpl in Hq.
  rewrite quantityChange_delta in Hq. split; [exact Hq|].
  intros Hneg. rewrite Hq. simpl. lia.
Qed.

(** On the empty pair (product 4, warehouse 2): OUT 5 then IN 8 leaves 8,
    the ledger adds up to 3. *)
Lemma opening_clamp_is_kept_witness :
  exists r,
    select_stock_level 4%nat 2%nat
      (submit_all [StockMovements.mkFormData 4%nat 2%nat OUT 5 "" "";
                   StockMovements.mkFormData 4%nat 2%nat IN 8 "" ""]
                  stocked_store) = Some r
    /\ sl_quantity r = 8.
Proof.
  destruct (opening_clamp_is_kept
              (StockMovements.mkFormData 4%nat 2%nat OUT 5 "" "")
              [StockMovements.mkFormData 4%nat 2%nat IN 8 "" ""]
              stocked_store stocked_store_reachable eq_refl eq_refl eq_refl)
    as [r [Hsel [Hq _]]].
  - repeat constructor.
  - exists r. split; [exact Hsel|exact Hq].
Defined.

(** ** What saving an order leaves alone, and what it leaves behind *)

Lemma order_request_frame r s s' :
  (exists w, r = InsertPurchaseOrder w) \/ (exists i w, r = UpdatePurchaseOrder i w)
  \/ (exists o, r = DeletePurchaseOrderItems o)
  \/ (exists ws, r = InsertPurchaseOrderItems ws) ->
  run r s = Ok s' ->
  stock_levels s' = stock_levels s /\ stock_movements s' = stock_movements s
  /\ products s' = products s /\ suppliers s' = suppliers s
  /\ warehouses s' = warehouses s.
Proof.
  intros [[w ->]|[[i [w ->]]|[[o ->]|[ws ->]]]] H; accepted H; simpl;
    repeat split.
Qed.

Lemma order_exec_frame served r s :
  (exists w, r = InsertPurchaseOrder w) \/ (exists i w, r = UpdatePurchaseOrder i w)
  \/ (exists o, r = DeletePurchaseOrderItems o)
  \/ (exists ws, r = InsertPurchaseOrderItems ws) ->
  let s' := fst (exec served r s) in
  stock_levels s' = stock_levels s /\ stock_movements s' = stock_movements s
  /\ products s' = products s /\ suppliers s' = suppliers s
  /\ warehouses s' = warehouses s.
Proof.
  intros Hr. simpl. destruct (exec_cases served r s) as [E|E].
  - rewrite E. repeat split.
  - eapply order_request_frame; eauto.
Qed.

Lemma insert_items_frame served order orderItems s :
  let s' := fst (Orders.insert_items served order orderItems s) in
  stock_levels s' = stock_levels s /\ stock_movements s' = stock_movements s
  /\ products s' = products s /\ suppliers s' = suppliers s
  /\ warehouses s' = warehouses s.
Proof.
  simpl. unfold Orders.insert_items. destruct orderItems as [|item l].
  - repeat split.
  - pose proof (order_exec_frame served
                  (InsertPurchaseOrderItems (Orders.items order (item :: l))) s
                  ltac:(right; right; right; eauto)) as H.
    simpl in H. destruct (exec served _ s) as [s' [e|]]; exact H.
Qed.

(** X9.  Saving an order never touches the stock: in every mode, under
    every status (RECEIVED included) and whatever requests are served,
    the stock levels, the stock movements, the products, the suppliers
    and the warehouses after [handleSave] are those before it. *)
Theorem order_save_leaves_stock_alone :
  forall (served : nat -> bool) (modalMode : Orders.ModalMode)
         (selectedOrder : option id) (formData : Orders.FormData)
         (orderItems : list Orders.OrderItem) (s : Store),
    let s' := fst (Orders.handleSave served modalMode selectedOrder formData
                     orderItems s) in
    stock_levels s' = stock_levels s /\ stock_movements s' = stock_movements s
    /\ products s' = products s /\ suppliers s' = suppliers s
    /\ warehouses s' = warehouses s.
Proof.
  intros served modalMode selectedOrder formData orderItems s. simpl.
  unfold Orders.handleSave.
  destruct modalMode; try (repeat split; fail).
  - (* create *)
    destruct (served 0%nat); [|repeat split].
    destruct (insert_purchase_order _ s) as [[s1 o]|e] eqn:E; [|repeat split].
    apply insert_purchase_order_run in E.
    destruct (order_request_frame _ s s1 ltac:(left; eauto) E)
      as [H1 [H2 [H3 [H4 H5]]]].
    destruct (insert_items_frame (served 1%nat) (po_id o) orderItems s1)
      as [-> [-> [-> [-> ->]]]]. auto.
  - (* edit *)
    destruct selectedOrder as [order|]; [|repeat split].
    match goal with
    | |- context [exec (served 0%nat) ?r s] =>
        pose proof (order_exec_frame (served 0%nat) r s
                      ltac:(right; left; eauto)) as H;
        simpl in H; destruct (exec (served 0%nat) r s) as [s1 [e|]]
    end; [exact H|]. simpl in H.
    destruct H as [H1 [H2 [H3 [H4 H5]]]].
    destruct (insert_items_frame (served 2%nat) order orderItems
                (fst (exec (served 1%nat) (DeletePurchaseOrderItems order) s1)))
      as [-> [-> [-> [-> ->]]]].
    destruct (order_exec_frame (served 1%nat) (DeletePurchaseOrderItems order) s1
                ltac:(right; right; left; eauto))
      as [-> [-> [-> [-> ->]]]]. auto.
Qed.







(** X12.  A create-save whose order is refused changes nothing and
    alerts: under a po_number already in use (the generated number has
    four random digits only), or when the insert of the order is not
    served, the store after [handleSave] is the store before it and no
    item is written. *)
Theorem create_save_refused_changes_nothing :
  forall (served : nat -> bool) (selectedOrder : option id)
         (formData : Orders.FormData) (orderItems : list Orders.OrderItem)
         (s : Store),
    (exists o, In o (purchase_orders s)
               /\ po_number o = Orders.fd_po_number formData)
    \/ served 0%nat = false ->
    Orders.handleSave served Orders.create selectedOrder formData orderItems s
    = (s, false).
Proof.
  intros served selectedOrder formData orderItems s [[o [Ho E]]|Hserved];
    unfold Orders.handleSave.
  - destruct (served 0%nat); [|reflexivity].
    unfold insert_purchase_order. simpl.
    replace (existsb _ (purchase_orders s)) with true; [reflexivity|].
    symmetry. apply existsb_exists. exists o. split; [assumption|].
    now apply String.eqb_eq.
  - now rewrite Hserved.
Qed.

Lemma create_save_refused_changes_nothing_witness :
  Orders.handleSave all_served Orders.create None order_form
    [Orders.mkOrderItem 4%nat 1 0 (1 # 1)] ordered_store
  = (ordered_store, false).
Proof.
  apply create_save_refused_changes_nothing. left.
  exists (mkPurchaseOrder 7%nat "PO2026010001" (Some 0%nat) (Some 1%nat)
            DRAFT 3750 "").
  split; [left; reflexivity|reflexivity].
Defined.

(** ** Deleting an order *)

(** X13.  Deleting an existing order through [handleDelete] removes it
    with its items and nothing else, and lifts the restriction it put on
    its supplier: when no other order references the supplier, the
    supplier can be deleted afterwards. *)
Theorem order_delete_unlocks_supplier :
  forall (s : Store) (supplier orderId : id),
    has_supplier s supplier = true ->
    has_purchase_order s orderId = true ->
    (forall o, In o (purchase_orders s) -> po_supplier_id o = Some supplier ->
               po_id o = orderId) ->
    let deleted := Orders.handleDelete true orderId s in
    snd deleted = true
    /\ has_purchase_order (fst deleted) orderId = false
    /\ items_of orderId (fst deleted) = []
    /\ items_not_of orderId (fst deleted) = items_not_of orderId s
    /\ stock_levels (fst deleted) = stock_levels s
    /\ stock_movements (fst deleted) = stock_movements s
    /\ exists s', run (DeleteSupplier supplier) (fst deleted) = Ok s'
                  /\ has_supplier s' supplier = false.
Proof.
  intros s supplier orderId Hsup Ho Honly. cbv zeta.
  unfold Orders.handleDelete, exec, run, delete_purchase_order.
  rewrite Ho. simpl.
  split; [reflexivity|]. split; [apply existsb_filter_out|]. split.
  { unfold items_of. simpl. apply filter_none. intros it Hit.
    apply filter_In in Hit. destruct Hit as [_ Hit].
    now apply negb_true_iff in Hit. }
  split.
  { unfold items_not_of. simpl. apply filter_all. intros it Hit.
    apply filter_In in Hit. tauto. }
  split; [reflexivity|]. split; [reflexivity|].
  unfold delete_supplier, has_supplier in *. simpl. rewrite Hsup. simpl.
  replace (existsb _ (filter _ (purchase_orders s))) with false.
  - eexists. split; [reflexivity|]. simpl. apply existsb_filter_out.
  - symmetry. apply (unreferenced po_supplier_id). intros o Hin E.
    apply filter_In in Hin. destruct Hin as [Hin Hne].
    apply negb_true_iff, Nat.eqb_neq in Hne. apply Hne. now apply Honly.
Qed.

(** Supplier 0 of [ordered_store] is referenced by order 7 alone. *)
Lemma order_delete_unlocks_supplier_witness :
  run (DeleteSupplier 0%nat) ordered_store = Err RestrictedDelete
  /\ exists s',
       run (DeleteSupplier 0%nat)
           (fst (Orders.handleDelete true 7%nat ordered_store)) = Ok s'
       /\ has_supplier s' 0%nat = false.
Proof.
  split; [reflexivity|].
  destruct (order_delete_unlocks_supplier ordered_store 0%nat 7%nat
              eq_refl eq_refl) as [_ [_ [_ [_ [_ [_ H]]]]]].
  - intros o [<-|[]] _. reflexivity.
  - exact H.
Defined.

(** ** The lines of the order form *)

Lemma without_index_past l : forall i index,
  (index < i)%nat -> Orders.without_index i index l = l.
Proof.
  induction l as [|item l IH]; intros i index Hlt; simpl; [reflexivity|].
  replace (Nat.eqb i index) with false by (symmetry; apply Nat.eqb_neq; lia).
  simpl. f_equal. apply IH. lia.
Qed.

Lemma without_index_from l : forall i index,
  (i <= index)%nat ->
  Orders.without_index i index l
  = firstn (index - i) l ++ skipn (S (index - i)) l.
Proof.
  induction l as [|item l IH]; intros i index Hle; simpl.
  - now rewrite firstn_nil.
  - destruct (Nat.eqb i index) eqn:E; simpl.
    + apply Nat.eqb_eq in E. subst. rewrite Nat.sub_diag. simpl.
      apply without_index_past. lia.
    + apply Nat.eqb_neq in E. rewrite IH by lia.
      replace (index - i)%nat with (S (index - S i)) by lia. reflexivity.
Qed.

(** X14.  [handleRemoveItem] drops the line at the index and keeps the
    others in order; an index past the end removes nothing. *)
Theorem remove_item_drops_one_line :
  forall (index : nat) (orderItems : list Orders.OrderItem),
    Orders.handleRemoveItem index orderItems
    = firstn index orderItems ++ skipn (S index) orderItems
    /\ ((List.length orderItems <= index)%nat ->
        Orders.handleRemoveItem index orderItems = orderItems)
    /\ ((index < List.length orderItems)%nat ->
        S (List.length (Orders.handleRemoveItem index orderItems))
        = List.length orderItems).
Proof.
  intros index orderItems.
  assert (H : Orders.handleRemoveItem index orderItems
              = firstn index orderItems ++ skipn (S index) orderItems).
  { unfold Orders.handleRemoveItem. rewrite without_index_from by lia.
    now rewrite Nat.sub_0_r. }
  split; [exact H|]. split; intros Hlen; rewrite H.
  - rewrite firstn_all2 by lia. rewrite skipn_all2 by lia. apply app_nil_r.
  - rewrite length_app, length_firstn, length_skipn. lia.
Qed.

Lemma remove_item_drops_one_line_witness :
  Orders.handleRemoveItem 5
    [Orders.mkOrderItem 3%nat 1 0 (1 # 1); Orders.mkOrderItem 4%nat 2 0 (1 # 2)]
  = [Orders.mkOrderItem 3%nat 1 0 (1 # 1); Orders.mkOrderItem 4%nat 2 0 (1 # 2)]
  /\ S (List.length
          (Orders.handleRemoveItem 0
             [Orders.mkOrderItem 3%nat 1 0 (1 # 1);
              Orders.mkOrderItem 4%nat 2 0 (1 # 2)])) = 2%nat.
Proof.
  split.
  - apply (proj1 (proj2 (remove_item_drops_one_line 5
             [Orders.mkOrderItem 3%nat 1 0 (1 # 1);
              Orders.mkOrderItem 4%nat 2 0 (1 # 2)]))).
    simpl. lia.
  - apply (proj2 (proj2 (remove_item_drops_one_line 0
             [Orders.mkOrderItem 3%nat 1 0 (1 # 1);
              Orders.mkOrderItem 4%nat 2 0 (1 # 2)]))).
    simpl. lia.
Defined.






(** ** The stock page: [groupByProduct] *)

Lemma In_first_ids x l : In x (first_ids l) <-> In x l.
Proof.
  induction l as [|a l IH]; simpl; [tauto|].
  rewrite filter_In, IH, negb_true_iff, Nat.eqb_neq.
  destruct (Nat.eq_dec a x); [subst; tauto|]. split; [tauto|].
  intros [?|?]; [tauto|]. right. split; [assumption|congruence].
Qed.

Lemma NoDup_first_ids l : NoDup (first_ids l).
Proof.
  induction l as [|a l IH]; simpl; constructor.
  - rewrite filter_In, negb_true_iff, Nat.eqb_neq. tauto.
  - now apply NoDup_filter.
Qed.

Lemma first_ids_snoc l x :
  first_ids (l ++ [x])
  = if existsb (fun y => Nat.eqb y x) l then first_ids l else first_ids l ++ [x].
Proof.
  induction l as [|a l IH]; simpl; [reflexivity|].
  rewrite IH. destruct (Nat.eqb a x) eqn:E; simpl.
  - apply Nat.eqb_eq in E. subst a.
    destruct (existsb (fun y => Nat.eqb y x) l); [reflexivity|].
    rewrite filter_app. simpl. rewrite Nat.eqb_refl. simpl.
    now rewrite app_nil_r.
  - destruct (existsb (fun y => Nat.eqb y x) l); [reflexivity|].
    rewrite filter_app. simpl.
    replace (Nat.eqb x a) with false
      by (symmetry; rewrite Nat.eqb_sym; exact E).
    reflexivity.
Qed.

Lemma rows_of_product_snoc pid done item :
  rows_of_product pid (done ++ [item])
  = rows_of_product pid done
    ++ (if Nat.eqb (Stock.si_product_id item) pid then [item] else []).
Proof. unfold rows_of_product. rewrite filter_app. reflexivity. Qed.

Lemma existsb_key_In (pid : id) (m : list Stock.ProductStock) :
  existsb (fun p => Nat.eqb (Stock.ps_product_id p) pid) m = true
  <-> In pid (map Stock.ps_product_id m).
Proof.
  rewrite existsb_exists, in_map_iff. split; intros [e [H1 H2]]; exists e.
  - apply Nat.eqb_eq in H2. tauto.
  - split; [tauto|]. apply Nat.eqb_eq. tauto.
Qed.

Lemma push_warehouse_keys pid entry m :
  map Stock.ps_product_id (Stock.push_warehouse pid entry m)
  = map Stock.ps_product_id m.
Proof.
  unfold Stock.push_warehouse. rewrite map_map. apply map_ext.
  intros e. destruct (Nat.eqb _ pid); reflexivity.
Qed.

Lemma visit_grouped all done m item :
  grouped all done m -> grouped all (done ++ [item]) (Stock.visit all m item).
Proof.
  intros [Hkeys Hentries]. unfold Stock.visit.
  set (pid := Stock.si_product_id item).
  assert (Hseen : existsb (fun p => Nat.eqb (Stock.ps_product_id p) pid) m
                  = existsb (fun y => Nat.eqb y pid)
                            (map Stock.si_product_id done)).
  { apply eq_true_iff_eq. rewrite existsb_key_In, Hkeys, In_first_ids.
    rewrite existsb_exists. split.
    - intros H. exists pid. split; [assumption|apply Nat.eqb_refl].
    - intros [y [Hy E]]. apply Nat.eqb_eq in E. now subst. }
  assert (Hold : Forall (fun e =>
              exists first rest,
                rows_of_product (Stock.ps_product_id e) (done ++ [item])
                = first :: rest
                /\ (if Nat.eqb (Stock.ps_product_id e) pid
                    then Stock.mkProductStock (Stock.ps_product_id e)
                           (Stock.ps_sku e) (Stock.ps_name e)
                           (Stock.ps_category e) (Stock.ps_unit_of_measure e)
                           (Stock.ps_reorder_level e)
                           (Stock.ps_total_quantity e)
                           (Stock.ps_total_available e)
                           (Stock.ps_total_reserved e)
                           (Stock.ps_warehouses e
                            ++ [Stock.warehouse_entry item])
                           (Stock.ps_status e)
                    else e)
                   = entry_for all first (first :: rest)) m).
  { eapply Forall_weaken; [|exact Hentries]. simpl.
    intros e [first [rest [Hrows He]]].
    rewrite rows_of_product_snoc. fold pid. rewrite Nat.eqb_sym.
    destruct (Nat.eqb (Stock.ps_product_id e) pid) eqn:E.
    - exists first, (rest ++ [item]). rewrite Hrows. split; [reflexivity|].
      rewrite He. unfold entry_for. simpl. rewrite map_app. reflexivity.
    - exists first, rest. rewrite Hrows, app_nil_r. auto. }
  split.
  - rewrite push_warehouse_keys, (map_app Stock.si_product_id).
    cbn [map]. rewrite first_ids_snoc. fold pid. rewrite <- Hseen.
    destruct (existsb _ m); [assumption|].
    rewrite map_app, Hkeys. reflexivity.
  - unfold Stock.push_warehouse.
    destruct (existsb _ m) eqn:Eseen.
    + apply Forall_forall. intros e' He'. apply in_map_iff in He'.
      destruct He' as [e [<- He]]. rewrite Forall_forall in Hold.
      destruct (Hold e He) as [first [rest [Hrows Heq]]].
      exists first, rest. split; [|exact Heq].
      destruct (Nat.eqb (Stock.ps_product_id e) pid); exact Hrows.
    + rewrite map_app. apply Forall_app. split.
      * apply Forall_forall. intros e' He'. apply in_map_iff in He'.
        destruct He' as [e [<- He]]. rewrite Forall_forall in Hold.
        destruct (Hold e He) as [first [rest [Hrows Heq]]].
        exists first, rest. split; [|exact Heq].
        destruct (Nat.eqb (Stock.ps_product_id e) pid); exact Hrows.
      * constructor; [|constructor]. simpl. rewrite Nat.eqb_refl. simpl.
        exists item, []. rewrite rows_of_product_snoc. fold pid.
        rewrite Nat.eqb_refl. split; [|reflexivity].
        replace (rows_of_product pid done) with (@nil Stock.StockItem);
          [reflexivity|].
        symmetry. apply filter_none. intros i Hi.
        symmetry in Hseen.
        pose proof (proj1 (existsb_false _ _) Hseen _ (in_map _ _ _ Hi)) as E.
        simpl in E. exact E.
Qed.

Lemma fold_visit_grouped all rest : forall done m,
  grouped all done m ->
  grouped all (done ++ rest) (fold_left (Stock.visit all) rest m).
Proof.
  induction rest as [|item rest IH]; intros done m H; simpl.
  - now rewrite app_nil_r.
  - replace (done ++ item :: rest) with ((done ++ [item]) ++ rest)
      by (rewrite <- app_assoc; reflexivity).
    apply IH. now apply visit_grouped.
Qed.

Lemma groupByProduct_grouped items :
  grouped items items (Stock.groupByProduct items).
Proof.
  apply (fold_visit_grouped items items [] []). split; [reflexivity|constructor].
Qed.

Lemma fold_left_sum {A : Type} (f : A -> Z) (l : list A) : forall acc,
  fold_left (fun sum i => sum + f i) l acc = acc + sum_Z (map f l).
Proof.
  induction l as [|x l IH]; intros acc; simpl; [lia|]. rewrite IH. lia.
Qed.

Lemma total_of_rows (column : Stock.StockItem -> Z) pid items :
  Stock.total_of column pid items
  = sum_Z (map column (rows_of_product pid items)).
Proof. unfold Stock.total_of. rewrite fold_left_sum. reflexivity. Qed.

(** X16.  The stock page has one entry per product that has a stock
    row: the entries of [groupByProduct] carry distinct product keys,
    those of the rows, in the order in which the products first occur. *)
Theorem stock_page_one_entry_per_product :
  forall items : list Stock.StockItem,
    map Stock.ps_product_id (Stock.groupByProduct items)
    = first_ids (map Stock.si_product_id items)
    /\ NoDup (map Stock.ps_product_id (Stock.groupByProduct items))
    /\ (forall item, In item items ->
          exists e, In e (Stock.groupByProduct items)
                    /\ Stock.ps_product_id e = Stock.si_product_id item)
    /\ (forall e, In e (Stock.groupByProduct items) ->
          exists item, In item items
                       /\ Stock.si_product_id item = Stock.ps_product_id e).
Proof.
  intros items. destruct (groupByProduct_grouped items) as [Hkeys _].
  split; [exact Hkeys|]. split; [rewrite Hkeys; apply NoDup_first_ids|].
  split.
  - intros item Hitem.
    assert (H : In (Stock.si_product_id item)
                   (map Stock.ps_product_id (Stock.groupByProduct items))).
    { rewrite Hkeys. apply In_first_ids. now apply in_map. }
    apply in_map_iff in H. destruct H as [e [He Hin]]. eauto.
  - intros e He.
    assert (H : In (Stock.ps_product_id e)
                   (map Stock.si_product_id items)).
    { apply In_first_ids. rewrite <- Hkeys. now apply in_map. }
    apply in_map_iff in H. destruct H as [item [Hitem Hin]]. eauto.
Qed.

Lemma stock_page_one_entry_per_product_witness :
  map Stock.ps_product_id (Stock.groupByProduct sample_stock_items)
  = [3%nat; 4%nat]
  /\ exists e, In e (Stock.groupByProduct sample_stock_items)
               /\ Stock.ps_product_id e = 4%nat.
Proof.
  destruct (stock_page_one_entry_per_product sample_stock_items)
    as [Hkeys [_ [Hin _]]].
  split; [exact Hkeys|].
  apply (Hin (stock_row 11%nat 4%nat 1%nat 0 0 5)).
  right. left. reflexivity.
Defined.

(** X17.  An entry of the stock page lists exactly the stock rows of
    its product, one warehouse line per row in the order of the query,
    and at least one; its three totals are the sums of the quantity, the
    available and the reserved quantity over those lines; its status is
    read off the total and the reorder level; the product columns are
    those of the product's first row. *)
Theorem stock_page_entry_sums_its_lines :
  forall (items : list Stock.StockItem) (e : Stock.ProductStock),
    In e (Stock.groupByProduct items) ->
    Stock.ps_warehouses e
    = map Stock.warehouse_entry (rows_of_product (Stock.ps_product_id e) items)
    /\ Stock.ps_warehouses e <> []
    /\ Stock.ps_total_quantity e
       = sum_Z (map Stock.ws_quantity (Stock.ps_warehouses e))
    /\ Stock.ps_total_available e
       = sum_Z (map Stock.ws_available_quantity (Stock.ps_warehouses e))
    /\ Stock.ps_total_reserved e
       = sum_Z (map Stock.ws_reserved_quantity (Stock.ps_warehouses e))
    /\ Stock.ps_status e
       = Stock.status_of (Stock.ps_total_quantity e) (Stock.ps_reorder_level e)
    /\ exists first,
         hd_error (rows_of_product (Stock.ps_product_id e) items) = Some first
         /\ Stock.ps_sku e = Stock.si_sku first
         /\ Stock.ps_name e = Stock.si_name first
         /\ Stock.ps_category e = Stock.category_of first
         /\ Stock.ps_reorder_level e = Stock.si_reorder_level first.
Proof.
  intros items e He. destruct (groupByProduct_grouped items) as [_ Hentries].
  rewrite Forall_forall in Hentries.
  destruct (Hentries e He) as [first [rest [Hrows Heq]]].
  clear Hentries He. subst e.
  unfold entry_for, Stock.new_entry in *.
  cbn [Stock.ps_product_id Stock.ps_warehouses Stock.ps_total_quantity
       Stock.ps_total_available Stock.ps_total_reserved Stock.ps_status
       Stock.ps_reorder_level Stock.ps_sku Stock.ps_name Stock.ps_category]
    in *.
  rewrite !total_of_rows, Hrows, !map_map.
  split; [reflexivity|]. split; [discriminate|].
  repeat (split; [reflexivity|]). exists first. repeat split.
Qed.

(** Product 3 of the sample rows: 10 at warehouse 1 and 7 at warehouse 2. *)
Lemma stock_page_entry_sums_its_lines_witness :
  let e := hd (entry_for [] (stock_row 0%nat 0%nat 0%nat 0 0 0) [])
              (Stock.groupByProduct sample_stock_items) in
  Stock.ps_total_quantity e
  = sum_Z (map Stock.ws_quantity (Stock.ps_warehouses e))
  /\ Stock.ps_total_quantity e = 17
  /\ Stock.ps_status e = Stock.good.
Proof.
  intros e.
  destruct (stock_page_entry_sums_its_lines sample_stock_items e
              (or_introl eq_refl)) as [_ [_ [Hq _]]].
  split; [exact Hq|]. split; reflexivity.
Defined.

Lemma sum_Z_map_add {A : Type} (f g : A -> Z) (l : list A) :
  sum_Z (map (fun x => f x + g x) l) = sum_Z (map f l) + sum_Z (map g l).
Proof. induction l as [|x l IH]; simpl; [reflexivity|]. rewrite IH. lia. Qed.

Lemma sum_Z_pick (x : id) (c : Z) (keys : list id) :
  NoDup keys -> In x keys ->
  sum_Z (map (fun k => if Nat.eqb x k then c else 0) keys) = c.
Proof.
  induction keys as [|k keys IH]; simpl; intros Hnd Hin; [contradiction|].
  inversion Hnd; subst. destruct (Nat.eqb x k) eqn:E.
  - apply Nat.eqb_eq in E. subst k.
    replace (sum_Z _) with 0; [lia|]. symmetry.
    clear - H1. induction keys as [|k keys IH]; simpl; [reflexivity|].
    replace (Nat.eqb x k) with false.
    + apply IH. intros H. apply H1. now right.
    + symmetry. apply Nat.eqb_neq. intros ->. apply H1. now left.
  - apply Nat.eqb_neq in E. destruct Hin as [->|Hin]; [congruence|].
    now rewrite IH.
Qed.

(** Summing a column per product over distinct keys that cover the rows
    counts every row once. *)
Lemma sum_by_product (column : Stock.StockItem -> Z) (keys : list id)
      (items : list Stock.StockItem) :
  NoDup keys ->
  (forall item, In item items -> In (Stock.si_product_id item) keys) ->
  sum_Z (map (fun k => sum_Z (map column (rows_of_product k items))) keys)
  = sum_Z (map column items).
Proof.
  intros Hnd. induction items as [|a items IH]; intros Hcover.
  - simpl. clear. induction keys; simpl; [reflexivity|assumption].
  - rewrite (map_ext _ (fun k => (if Nat.eqb (Stock.si_product_id a) k
                                  then column a else 0)
                                 + sum_Z (map column (rows_of_product k items)))).
    + rewrite sum_Z_map_add.
      rewrite sum_Z_pick by (auto; apply Hcover; now left).
      cbn [map sum_Z fold_right]. f_equal. apply IH.
      intros item Hitem. apply Hcover. now right.
    + intros k. unfold rows_of_product. simpl.
      destruct (Nat.eqb (Stock.si_product_id a) k); reflexivity.
Qed.

(** X18.  Grouping loses nothing and counts nothing twice: the totals
    of the entries of the stock page add up to the sums of the quantity,
    the available and the reserved quantity over all the stock rows. *)
Theorem stock_page_totals_add_up :
  forall items : list Stock.StockItem,
    sum_Z (map Stock.ps_total_quantity (Stock.groupByProduct items))
    = sum_Z (map Stock.si_quantity items)
    /\ sum_Z (map Stock.ps_total_available (Stock.groupByProduct items))
       = sum_Z (map Stock.si_available_quantity items)
    /\ sum_Z (map Stock.ps_total_reserved (Stock.groupByProduct items))
       = sum_Z (map Stock.si_reserved_quantity items).
Proof.
  intros items. destruct (groupByProduct_grouped items) as [Hkeys Hentries].
  assert (Htotal : forall (total : Stock.ProductStock -> Z)
                          (column : Stock.StockItem -> Z),
             (forall first lines,
                 total (entry_for items first lines)
                 = Stock.total_of column (Stock.si_product_id first) items) ->
             sum_Z (map total (Stock.groupByProduct items))
             = sum_Z (map column items)).
  { intros total column Htot.
    rewrite <- (sum_by_product column
                  (map Stock.ps_product_id (Stock.groupByProduct items)) items).
    - rewrite map_map. f_equal. apply map_ext_in. intros e He.
      rewrite Forall_forall in Hentries.
      destruct (Hentries e He) as [first [rest [_ Heq]]].
      rewrite Heq at 1. rewrite Htot, total_of_rows. rewrite Heq. reflexivity.
    - rewrite Hkeys. apply NoDup_first_ids.
    - intros item Hitem. rewrite Hkeys. apply In_first_ids. now apply in_map. }
  split; [|split]; apply Htotal; reflexivity.
Qed.

(** X19.  When every stock row has [available = quantity - reserved],
    as the generated column makes it, so has every entry of the stock
    page: its total available is its total quantity less its total
    reserved. *)
Theorem stock_page_available_is_derived :
  forall items : list Stock.StockItem,
    Forall (fun i => Stock.si_available_quantity i
                     = Stock.si_quantity i - Stock.si_reserved_quantity i)
           items ->
    Forall (fun e => Stock.ps_total_available e
                     = Stock.ps_total_quantity e - Stock.ps_total_reserved e)
           (Stock.groupByProduct items).
Proof.
  intros items Hrows. destruct (groupByProduct_grouped items) as [_ Hentries].
  eapply Forall_weaken; [|exact Hentries]. simpl.
  intros e [first [rest [_ ->]]]. unfold entry_for, Stock.new_entry.
  cbn [Stock.ps_total_available Stock.ps_total_quantity
       Stock.ps_total_reserved]. rewrite !total_of_rows.
  assert (Hsub : Forall (fun i => Stock.si_available_quantity i
                                  = Stock.si_quantity i
                                    - Stock.si_reserved_quantity i)
                        (rows_of_product (Stock.si_product_id first) items))
    by now apply Forall_filter_keep.
  induction Hsub as [|i l Hi Hl IH]; simpl; [reflexivity|]. lia.
Qed.

Lemma stock_page_available_is_derived_witness :
  Forall (fun e => Stock.ps_total_available e
                   = Stock.ps_total_quantity e - Stock.ps_total_reserved e)
         (Stock.groupByProduct sample_stock_items).
Proof.
  apply stock_page_available_is_derived. repeat constructor.
Defined.

(** ** The dashboard *)

Lemma sum_nonzero (l : list Z) : forall acc,
  fold_left (fun sum quantity => sum + quantity)
            (filter (fun quantity => negb (quantity =? 0)) l) acc
  = fold_left (fun sum quantity => sum + quantity) l acc.
Proof.
  induction l as [|q l IH]; intros acc; simpl; [reflexivity|].
  destruct (q =? 0) eqn:E; simpl.
  - apply Z.eqb_eq in E. subst. rewrite Z.add_0_r. apply IH.
  - apply IH.
Qed.

(** X20.  The low-stock list of the dashboard does not look at a
    product's own stock: it holds exactly the products whose reorder
    level is at least the total stock of all products together, so two
    products with the same reorder level are both listed or both left
    out, and with the overall stock above every reorder level the list
    is empty whatever any single product has left. *)
Theorem low_stock_compares_with_overall_total :
  forall (products : list Dashboard.ProductRow) (stockLevels : list Z),
    Dashboard.lowStock products stockLevels
    = filter (fun product =>
                Dashboard.totalStock stockLevels
                <=? Dashboard.dp_reorder_level product)
             products
    /\ (forall p1 p2, In p1 products -> In p2 products ->
          Dashboard.dp_reorder_level p1 = Dashboard.dp_reorder_level p2 ->
          In p1 (Dashboard.lowStock products stockLevels) ->
          In p2 (Dashboard.lowStock products stockLevels))
    /\ ((forall p, In p products ->
                   Dashboard.dp_reorder_level p
                   < Dashboard.totalStock stockLevels) ->
        Dashboard.lowStock products stockLevels = []).
Proof.
  intros products stockLevels.
  assert (H : Dashboard.lowStock products stockLevels
              = filter (fun product =>
                          Dashboard.totalStock stockLevels
                          <=? Dashboard.dp_reorder_level product)
                       products).
  { unfold Dashboard.lowStock, Dashboard.totalStock. apply filter_ext.
    intros p. now rewrite sum_nonzero. }
  split; [exact H|]. rewrite H. split.
  - intros p1 p2 _ H2 Heq H1. apply filter_In in H1. apply filter_In.
    split; [assumption|]. rewrite <- Heq. tauto.
  - intros Hall. apply filter_none. intros p Hp.
    apply Z.leb_gt. now apply Hall.
Qed.

(** Product 4 has nothing in stock and a reorder level of 5; product 3
    holds 17.  Nothing is listed. *)
Lemma low_stock_compares_with_overall_total_witness :
  Dashboard.lowStock
    [Dashboard.mkProductRow 3%nat "Item A" "SKU-1" 5;
     Dashboard.mkProductRow 4%nat "Item B" "SKU-2" 5]
    [10; 0; 7] = [].
Proof.
  apply (proj2 (proj2 (low_stock_compares_with_overall_total
           [Dashboard.mkProductRow 3%nat "Item A" "SKU-1" 5;
            Dashboard.mkProductRow 4%nat "Item B" "SKU-2" 5]
           [10; 0; 7]))).
  intros p [<-|[<-|[]]]; reflexivity.
Defined.

Lemma movement_type_eqb_eq a b : movement_type_eqb a b = true <-> a = b.
Proof. destruct a, b; simpl; split; congruence. Qed.

Lemma movement_type_eqb_refl a : movement_type_eqb a a = true.
Proof. now apply movement_type_eqb_eq. Qed.

Lemma count_movement_keys m t :
  map fst (Dashboard.count_movement m t)
  = if existsb (fun e => movement_type_eqb (fst e) t) m
    then map fst m else map fst m ++ [t].
Proof.
  unfold Dashboard.count_movement.
  destruct (existsb _ m).
  - rewrite map_map. apply map_ext. intros e.
    destruct (movement_type_eqb (fst e) t); reflexivity.
  - now rewrite map_app.
Qed.

Lemma counted_In m t :
  existsb (fun e : movement_type * nat => movement_type_eqb (fst e) t) m = true
  <-> In t (map fst m).
Proof.
  rewrite existsb_exists, in_map_iff. split; intros [e [H1 H2]]; exists e.
  - apply movement_type_eqb_eq in H2. tauto.
  - split; [tauto|]. apply movement_type_eqb_eq. tauto.
Qed.

Lemma list_sum_bump (m : list (movement_type * nat)) t :
  NoDup (map fst m) -> In t (map fst m) ->
  list_sum (map snd (map (fun e => if movement_type_eqb (fst e) t
                                   then (fst e, (snd e + 1)%nat) else e) m))
  = S (list_sum (map snd m)).
Proof.
  induction m as [|[k n] m IH]; simpl; intros Hnd Hin; [contradiction|].
  inversion Hnd; subst. destruct (movement_type_eqb k t) eqn:E; simpl.
  - apply movement_type_eqb_eq in E. subst k.
    replace (map _ m) with m; [lia|].
    rewrite <- (map_id m) at 1. apply map_ext_in. intros [k n'] Hk. simpl.
    destruct (movement_type_eqb k t) eqn:E; [|reflexivity].
    apply movement_type_eqb_eq in E. subst k. exfalso. apply H1.
    apply in_map_iff. exists (t, n'). auto.
  - destruct Hin as [->|Hin].
    + rewrite movement_type_eqb_refl in E. discriminate.
    + rewrite IH by assumption. lia.
Qed.

(** The counts after the movements [done], and after [rest] more. *)
Lemma fold_count_movement rest : forall done m,
  NoDup (map fst m)
  /\ (forall t, In t (map fst m) <-> In t done)
  /\ Forall (fun e => snd e
                      = List.length (filter (movement_type_eqb (fst e)) done)) m
  /\ list_sum (map snd m) = List.length done ->
  let m' := fold_left Dashboard.count_movement rest m in
  NoDup (map fst m')
  /\ (forall t, In t (map fst m') <-> In t (done ++ rest))
  /\ Forall (fun e => snd e
                      = List.length
                          (filter (movement_type_eqb (fst e)) (done ++ rest)))
            m'
  /\ list_sum (map snd m') = List.length (done ++ rest).
Proof.
  induction rest as [|t rest IH]; intros done m H; simpl.
  - now rewrite app_nil_r.
  - replace (done ++ t :: rest) with ((done ++ [t]) ++ rest)
      by (rewrite <- app_assoc; reflexivity).
    apply IH. destruct H as [Hnd [Hkeys [Hcounts Hsum]]].
    pose proof (counted_In m t) as Hseen.
    split; [|split; [|split]].
    + rewrite count_movement_keys. destruct (existsb _ m); [assumption|].
      apply NoDup_app; [assumption|repeat constructor; simpl; tauto|].
      intros k Hk [<-|[]]. apply Hseen in Hk. discriminate.
    + intros k. rewrite count_movement_keys, in_app_iff. simpl.
      destruct (existsb _ m) eqn:E.
      * rewrite Hkeys. split; [tauto|]. intros [?|[<-|[]]]; [assumption|].
        apply Hkeys. now apply Hseen.
      * rewrite in_app_iff, Hkeys. simpl. tauto.
    + unfold Dashboard.count_movement. destruct (existsb _ m) eqn:E.
      * apply Forall_forall. intros e' He'. apply in_map_iff in He'.
        destruct He' as [[k n] [<- He]]. rewrite Forall_forall in Hcounts.
        specialize (Hcounts _ He). simpl in *.
        rewrite filter_app, length_app.
        destruct (movement_type_eqb k t) eqn:Ek; simpl; rewrite Ek; simpl; lia.
      * apply Forall_app. split.
        -- eapply Forall_forall. intros [k n] He. rewrite Forall_forall in Hcounts.
           specialize (Hcounts _ He). simpl in *.
           rewrite filter_app, length_app. simpl.
           destruct (movement_type_eqb k t) eqn:Ek; simpl; [|lia].
           apply movement_type_eqb_eq in Ek. subst k. exfalso.
           assert (Hin : In t (map fst m))
             by (apply in_map_iff; exists (t, n); auto).
           apply Hseen in Hin. congruence.
        -- constructor; [|constructor]. simpl.
           rewrite filter_app, length_app. simpl.
           rewrite movement_type_eqb_refl. simpl.
           rewrite (filter_none (movement_type_eqb t) done); [reflexivity|].
           intros k Hk. destruct (movement_type_eqb t k) eqn:Ek; [|reflexivity].
           apply movement_type_eqb_eq in Ek. subst k. exfalso.
           apply Hkeys in Hk. apply Hseen in Hk. congruence.
    + unfold Dashboard.count_movement. rewrite length_app. simpl.
      destruct (existsb _ m) eqn:E.
      * rewrite list_sum_bump; [lia|assumption|now apply Hseen].
      * rewrite map_app, list_sum_app. simpl. lia.
Qed.

(** X21.  The movement chart counts every fetched movement once: each
    type that occurs has one entry, its count is the number of movements
    of that type (at least one), a type that does not occur has no entry,
    and the counts add up to the number of movements. *)
Theorem movement_counts_are_exact :
  forall movements : list movement_type,
    let counts := Dashboard.movementCounts movements in
    NoDup (map fst counts)
    /\ (forall t, In t (map fst counts) <-> In t movements)
    /\ (forall t n, In (t, n) counts ->
          n = List.length (filter (movement_type_eqb t) movements)
          /\ (1 <= n)%nat)
    /\ list_sum (map snd counts) = List.length movements.
Proof.
  intros movements counts.
  destruct (fold_count_movement movements [] [])
    as [Hnd [Hkeys [Hcounts Hsum]]].
  { simpl. repeat split; try constructor; tauto. }
  simpl in Hnd, Hkeys, Hcounts, Hsum.
  change (fold_left Dashboard.count_movement movements []) with counts
    in Hnd, Hkeys, Hcounts, Hsum.
  split; [exact Hnd|]. split; [exact Hkeys|]. split; [|exact Hsum].
  intros t n Hin. rewrite Forall_forall in Hcounts.
  pose proof (Hcounts _ Hin) as Hn. simpl in Hn. split; [exact Hn|].
  assert (Ht : In t movements)
    by (apply Hkeys, in_map_iff; exists (t, n); auto).
  assert (Hf : In t (filter (movement_type_eqb t) movements))
    by (apply filter_In; split; [assumption|apply movement_type_eqb_refl]).
  rewrite Hn. destruct (filter (movement_type_eqb t) movements);
    [contradiction|simpl; lia].
Qed.

(** Two receipts and one issue: the chart shows IN with 2. *)
Lemma movement_counts_are_exact_witness :
  In (IN, 2%nat) (Dashboard.movementCounts [IN; OUT; IN])
  /\ (2%nat = List.length (filter (movement_type_eqb IN) [IN; OUT; IN])
      /\ (1 <= 2)%nat).
Proof.
  split; [simpl; auto|].
  apply (proj1 (proj2 (proj2 (movement_counts_are_exact [IN; OUT; IN])))).
  simpl. auto.
Defined.
